(** * Real-estate management dashboard: business rules

    A shallow embedding of the TypeScript sources of the dashboard
    (app/dashboard/page.tsx, contexts/auth-context.tsx, lib/utils.ts and the
    add-property, record-payment and send-notification dialogs), together with
    the properties of the data operations they implement.

    JavaScript objects are finite maps from field names to values, React
    state and [localStorage] are threaded explicitly, and the clock, the time
    zone and [crypto.randomUUID] are inputs of the handlers that read them. *)

From stdpp Require Import gmap strings list fin_maps pretty.
From Stdlib Require Import ZArith Ascii String.

Local Open Scope Z_scope.

(** ** JavaScript values *)

(** The IEEE numbers are taken from the JavaScript runtime without looking
    inside. *)
Class JsNumber := {
  Number : Type;
  number_strict_eq : Number → Number → bool;
  (** every number but 0 and NaN *)
  number_truthy : Number → bool;
  (** [JSON.parse(JSON.stringify(n))]: the number read back from its JSON
      text; [None] for NaN and the infinities, which are written as [null] *)
  number_json : Number → option Number;
}.

(** So are the two number parsers and [Date.parse], whose accepted formats
    beyond ISO 8601 are implementation defined. *)
Class JsRuntime `{JsNumber} := {
  parseFloat : string → Number;
  parseInt : string → Number;
  (** [None] is the time value NaN of an invalid date *)
  Date_parse : string → option Z;
}.

Module Js.
Section Values.
Context `{JsNumber}.

(** The scalar values that occur in the fields of the stored objects. *)
Inductive JsVal :=
| JStr (s : string)
| JNum (n : Number)
| JBool (b : bool)
| JNull.

End Values.

(** An object is a map from field names to values. A field that holds
    [undefined] is represented as an absent key: reading it gives
    [undefined] either way, and [JSON.stringify] drops it. The result of a
    field read [o.k] is therefore [o !! k : option JsVal], where [None] is
    [undefined]. *)
Abbreviation JsObj := (gmap string JsVal).

Section Operations.
Context `{JsNumber}.

(** [a === b] *)
Definition strictEq (a b : option JsVal) : bool :=
  match a, b with
  | None, None => true
  | Some (JStr s), Some (JStr t) => bool_decide (s = t)
  | Some (JNum x), Some (JNum y) => number_strict_eq x y
  | Some (JBool x), Some (JBool y) => bool_decide (x = y)
  | Some JNull, Some JNull => true
  | _, _ => false
  end.

(** The string held by a field of declared type [string | undefined]. *)
Definition asString (v : option JsVal) : option string :=
  match v with
  | Some (JStr s) => Some s
  | _ => None
  end.

(** [s || undefined] for a string [s] *)
Definition orUndefined (s : string) : option JsVal :=
  if bool_decide (s = "") then None else Some (JStr s).

(** Truthiness of a value. *)
Definition truthyVal (v : option JsVal) : bool :=
  match v with
  | None => false
  | Some (JStr s) => negb (bool_decide (s = ""))
  | Some (JNum n) => number_truthy n
  | Some (JBool b) => b
  | Some JNull => false
  end.

(** [a || b] *)
Definition orElse (a b : option JsVal) : option JsVal :=
  if truthyVal a then a else b.

(** [{ ...o, k: v }] *)
Definition withField (o : JsObj) (k : string) (v : option JsVal) : JsObj :=
  match v with
  | Some x => <[k := x]> o
  | None => delete k o
  end.

(** Object literal [{ k1: v1, ..., kn: vn }]: the fields are set from left
    to right, a later one replacing an earlier one of the same name. *)
Definition object (fields : list (string * option JsVal)) : JsObj :=
  fold_left (λ o kv, withField o kv.1 kv.2) fields ∅.

(** [JSON.parse(JSON.stringify(v))] for a value: strings, booleans and
    [null] come back as they are, a number as [number_json] has it. *)
Definition jsonValue (v : JsVal) : JsVal :=
  match v with
  | JNum n =>
      match number_json n with
      | Some n' => JNum n'
      | None => JNull
      end
  | _ => v
  end.

(** [JSON.parse(JSON.stringify(o))] for an object of such values; a field
    that holds [undefined] is dropped, which leaves the absent key absent. *)
Definition jsonCopy (o : JsObj) : JsObj := jsonValue <$> o.

(** Every number of the object is one that JSON gives back as it is (a
    finite number other than the negative zero). *)
Definition jsonStable (o : JsObj) : Prop :=
  ∀ (k : string) (n : Number), o !! k = Some (JNum n) → number_json n = Some n.
End Operations.

(** Truthiness of a string: every string but the empty one. *)
Definition truthy (s : string) : bool := negb (bool_decide (s = "")).

(** White space of [String.prototype.trim] among the 8-bit code units:
    TAB, LF, VT, FF, CR, SP and NBSP. *)
Definition isWhiteSpace (c : ascii) : bool :=
  let n := nat_of_ascii c in
  ((9 <=? n) && (n <=? 13))%nat || (n =? 32)%nat || (n =? 160)%nat.

Fixpoint trimStart (s : string) : string :=
  match s with
  | EmptyString => EmptyString
  | String c rest => if isWhiteSpace c then trimStart rest else s
  end.

Definition trim (s : string) : string :=
  String.rev (trimStart (String.rev (trimStart s))).

(** [s.split(sep)[0]] for a one-character separator: the text before the
    first occurrence of [sep], the whole string if there is none. *)
Fixpoint splitHead (sep : ascii) (s : string) : string :=
  match s with
  | EmptyString => EmptyString
  | String c rest =>
      if bool_decide (c = sep) then EmptyString else String c (splitHead sep rest)
  end.
End Js.

(** ** Dates

    Time values are integers, the milliseconds since 1970-01-01T00:00Z. The
    calendar functions are the ones of ECMAScript's [Date] (proleptic
    Gregorian calendar, months counted from 0); the range limit of
    ±8.64e15 ms on time values is not modelled. The local time zone is
    given by its offset from UTC at every time, as the abstract operation
    [LocalTZA(t, isUTC)] of ECMAScript has it, so that the offset may change
    with daylight saving time. *)
Module JsDate.

Definition msPerDay : Z := 86400000.

(** The environment a handler runs in: the clock reading of [new Date()] and
    [Date.now()], and the local time zone adjustment in milliseconds:
    [LocalTZA t true] is the offset in force at the time value [t], and
    [LocalTZA t false] the offset in force when the local clocks show the
    local time value [t]. *)
Record Clock := { now : Z; LocalTZA : Z → bool → Z }.

Definition Day (t : Z) : Z := t / msPerDay.
Definition TimeWithinDay (t : Z) : Z := t mod msPerDay.

(** Day number of the civil date [y]-[m]-[d], [m] in 1..12. *)
Definition daysFromCivil (y m d : Z) : Z :=
  let y' := if m <=? 2 then y - 1 else y in
  let era := y' / 400 in
  let yoe := y' - era * 400 in
  let mp := if 2 <? m then m - 3 else m + 9 in
  let doy := (153 * mp + 2) / 5 + d - 1 in
  let doe := yoe * 365 + yoe / 4 - yoe / 100 + doy in
  era * 146097 + doe - 719468.

(** Civil date (year, month in 1..12, day of month) of a day number. *)
Definition civilFromDays (z : Z) : Z * Z * Z :=
  let z' := z + 719468 in
  let era := z' / 146097 in
  let doe := z' - era * 146097 in
  let yoe := (doe - doe / 1460 + doe / 36524 - doe / 146096) / 365 in
  let doy := doe - (365 * yoe + yoe / 4 - yoe / 100) in
  let mp := (5 * doy + 2) / 153 in
  let d := doy - (153 * mp + 2) / 5 + 1 in
  let m := if mp <? 10 then mp + 3 else mp - 9 in
  let y := yoe + era * 400 in
  (if m <=? 2 then y + 1 else y, m, d).

Definition YearFromTime (t : Z) : Z := (civilFromDays (Day t)).1.1.
(** 0 is January *)
Definition MonthFromTime (t : Z) : Z := (civilFromDays (Day t)).1.2 - 1.
Definition DateFromTime (t : Z) : Z := (civilFromDays (Day t)).2.

(** [MakeDay(year, month, date)]: the month may lie outside 0..11 and the
    date outside the month; both carry over. *)
Definition MakeDay (year month date : Z) : Z :=
  let ym := year + month / 12 in
  let mn := month mod 12 in
  daysFromCivil ym (mn + 1) 1 + date - 1.

Definition MakeDate (day time : Z) : Z := day * msPerDay + time.

Section Zone.
Variable clock : Clock.

Definition LocalTime (t : Z) : Z := t + LocalTZA clock t true.
Definition UTC (t : Z) : Z := t - LocalTZA clock t false.

(** The local time value [t] falls on the same calendar day in UTC: the
    offset in force then does not carry its instant over midnight. *)
Definition sameDayInUTC (t : Z) : Prop := Day (UTC t) = Day t.

Definition getFullYear (t : Z) : Z := YearFromTime (LocalTime t).
Definition getMonth (t : Z) : Z := MonthFromTime (LocalTime t).

(** [new Date(year, month, date)]: midnight local time; a year in 0..99
    means 1900 + year. *)
Definition newDate (year month date : Z) : Z :=
  let yr := if (0 <=? year) && (year <=? 99) then 1900 + year else year in
  UTC (MakeDate (MakeDay yr month date) 0).

(** [d.setMonth(month)] on the date with time value [t] *)
Definition setMonth (t month : Z) : Z :=
  let lt := LocalTime t in
  UTC (MakeDate (MakeDay (YearFromTime lt) month (DateFromTime lt)) (TimeWithinDay lt)).
End Zone.

Definition digit (d : Z) : ascii := ascii_of_nat (48 + Z.to_nat d).

(** The last [width] decimal digits of [n], zero padded. *)
Fixpoint digits (width : nat) (n : Z) : string :=
  match width with
  | O => EmptyString
  | S w => digits w (n / 10) +:+ String (digit (n mod 10)) EmptyString
  end.

(** The year of [toISOString]: four digits for 0..9999, else a sign and six
    digits. *)
Definition isoYear (y : Z) : string :=
  if (0 <=? y) && (y <=? 9999) then digits 4 y
  else (if y <? 0 then "-" else "+") +:+ digits 6 (Z.abs y).

(** [YYYY-MM-DD] of a civil date *)
Definition isoDateOf (y m d : Z) : string :=
  isoYear y +:+ "-" +:+ digits 2 m +:+ "-" +:+ digits 2 d.

(** [d.toISOString()]: the UTC fields of the time value. *)
Definition toISOString (t : Z) : string :=
  let w := TimeWithinDay t in
  isoDateOf (YearFromTime t) (MonthFromTime t + 1) (DateFromTime t)
  +:+ "T" +:+ digits 2 (w / 3600000) +:+ ":" +:+ digits 2 (w / 60000 mod 60)
  +:+ ":" +:+ digits 2 (w / 1000 mod 60) +:+ "." +:+ digits 3 (w mod 1000) +:+ "Z".

(** [d.toISOString().split("T")[0]] *)
Definition isoDay (t : Z) : string := Js.splitHead "T" (toISOString t).

(** *** Calendar dates written [YYYY-MM-DD] *)

Definition isLeapYear (y : Z) : bool :=
  ((y mod 4 =? 0) && negb (y mod 100 =? 0)) || (y mod 400 =? 0).

Definition daysInMonth (y m : Z) : Z :=
  if m =? 2 then (if isLeapYear y then 29 else 28)
  else if (m =? 4) || (m =? 6) || (m =? 9) || (m =? 11) then 30
  else 31.

Definition digitValue (c : ascii) : option Z :=
  let n := nat_of_ascii c in
  if ((48 <=? n) && (n <=? 57))%nat then Some (Z.of_nat n - 48) else None.

Fixpoint number (acc : Z) (s : list ascii) : option Z :=
  match s with
  | [] => Some acc
  | c :: rest =>
      match digitValue c with
      | Some v => number (10 * acc + v) rest
      | None => None
      end
  end.

(** The civil date a string of the form [YYYY-MM-DD] names, when it names
    one. This is the format of the value of a date input. *)
Definition parseIsoDay (s : string) : option (Z * Z * Z) :=
  match list_ascii_of_string s with
  | [y1; y2; y3; y4; "-"%char; m1; m2; "-"%char; d1; d2] =>
      match number 0 [y1; y2; y3; y4], number 0 [m1; m2], number 0 [d1; d2] with
      | Some y, Some m, Some d =>
          if (1 <=? m) && (m <=? 12) && (1 <=? d) && (d <=? daysInMonth y m)
          then Some (y, m, d) else None
      | _, _, _ => None
      end
  | _ => None
  end.

(** A date-only ISO string denotes midnight UTC of that day. *)
Definition parseIsoDate (s : string) : option Z :=
  match parseIsoDay s with
  | Some (y, m, d) => Some (daysFromCivil y m d * msPerDay)
  | None => None
  end.

End JsDate.

(** *** Months and leap years *)

Module Calendar.

(** The month after month [m] of year [y]. *)
Definition followingMonth (y m : Z) : Z * Z :=
  if m =? 12 then (y + 1, 1) else (y, m + 1).

(** The year that starts on 1 March of year [yoe] of a 400-year cycle ends
    with a 29 February. *)
Definition leapAfter (yoe : Z) : Prop :=
  (yoe + 1) mod 4 = 0 ∧ ((yoe + 1) mod 100 ≠ 0 ∨ (yoe + 1) mod 400 = 0).

(** No character of [s] is [sep]. *)
Fixpoint free (sep : ascii) (s : string) : bool :=
  match s with
  | EmptyString => true
  | String c rest => negb (bool_decide (c = sep)) && free sep rest
  end.

End Calendar.

(** A runtime whose numbers are integers and whose [Date.parse] reads
    date-only ISO strings, for evaluating the definitions. *)
Definition intNumber : JsNumber := {|
  Number := Z;
  number_strict_eq := Z.eqb;
  number_truthy := λ n, negb (n =? 0);
  number_json := Some;
|}.

Definition readInteger (s : string) : Z :=
  default 0 (JsDate.number 0 (list_ascii_of_string s)).

Definition intRuntime : @JsRuntime intNumber := {|
  parseFloat := readInteger : string → @Number intNumber;
  parseInt := readInteger : string → @Number intNumber;
  Date_parse := JsDate.parseIsoDate;
|}.

(** ** lib/utils.ts *)
Module Utils.
Section Utils.
Context `{JsRuntime}.
Variable clock : JsDate.Clock.

(** A result of type [number | null] of integer arithmetic on time
    values. *)
Inductive Days := null | NaN | days (n : Z).

(** [Math.ceil(a / b)] for integers [a] and [b > 0]. The quotient of a
    difference of two time values by [msPerDay] is exact enough in IEEE
    double precision for its ceiling to be the ceiling of the exact
    quotient. *)
Definition ceilDiv (a b : Z) : Z := - ((- a) / b).

Definition getDaysUntilExpiry (leaseEndDate : option string) : Days :=
  match leaseEndDate with
  | None => null
  | Some s =>
      if negb (Js.truthy s) then null
      else
        let today := JsDate.now clock in
        match Date_parse s with
        | None => NaN
        | Some endDate =>
            let diffTime := endDate - today in
            let diffDays := ceilDiv diffTime (1000 * 60 * 60 * 24) in
            days diffDays
        end
  end.

Definition isLeaseExpiringSoon (leaseEndDate : option string) (daysThreshold : Z) : bool :=
  match getDaysUntilExpiry leaseEndDate with
  | null => false
  | NaN => false
  | days daysUntil => (0 <? daysUntil) && (daysUntil <=? daysThreshold)
  end.
End Utils.

(** The default value of the parameter [daysThreshold]. *)
Definition daysThresholdDefault : Z := 30.
End Utils.

(** ** The state of the application *)

(** The content of a [localStorage] entry, given by the value whose JSON
    text it holds: the application writes arrays of objects and single
    objects with [JSON.stringify], and a reader gets [JSON.parse] of the
    text, which is the value with its numbers as [Js.jsonCopy] has them. *)
Inductive Json `{JsNumber} :=
| JArr (rows : list Js.JsObj)
| JObj (o : Js.JsObj).

(** The signed-in user of the auth context (interface [User]). *)
Record User := {
  id : string;
  email : string;
  name : string;
  createdAt : string;
  isNewUser : option bool;
}.

(** The React state of the auth provider and of the dashboard page, and the
    browser's [localStorage]. *)
Record App `{JsNumber} := {
  user : option User;
  properties : list Js.JsObj;
  notifications : list Js.JsObj;
  payments : list Js.JsObj;
  localStorage : gmap string Json;
}.

Section Setters.
Context `{JsNumber}.

Definition setUser (u : option User) (st : App) : App :=
  {| user := u; properties := properties st; notifications := notifications st;
     payments := payments st; localStorage := localStorage st |}.
Definition setProperties (l : list Js.JsObj) (st : App) : App :=
  {| user := user st; properties := l; notifications := notifications st;
     payments := payments st; localStorage := localStorage st |}.
Definition setNotifications (l : list Js.JsObj) (st : App) : App :=
  {| user := user st; properties := properties st; notifications := l;
     payments := payments st; localStorage := localStorage st |}.
Definition setPayments (l : list Js.JsObj) (st : App) : App :=
  {| user := user st; properties := properties st; notifications := notifications st;
     payments := l; localStorage := localStorage st |}.
(** [localStorage.setItem(key, JSON.stringify(value))] *)
Definition setItem (key : string) (value : Json) (st : App) : App :=
  {| user := user st; properties := properties st; notifications := notifications st;
     payments := payments st; localStorage := <[key := value]> (localStorage st) |}.
(** [localStorage.removeItem(key)] *)
Definition removeItem (key : string) (st : App) : App :=
  {| user := user st; properties := properties st; notifications := notifications st;
     payments := payments st; localStorage := delete key (localStorage st) |}.
End Setters.

(** ** contexts/auth-context.tsx *)
Module Auth.
Section Auth.
Context `{JsNumber}.
Variable clock : JsDate.Clock.

(** [{ success: boolean; error?: string }] *)
Record Result := { success : bool; error : option string }.

Definition userObject (u : User) : Js.JsObj :=
  Js.object [
    ("id", Some (Js.JStr (id u)));
    ("email", Some (Js.JStr (email u)));
    ("name", Some (Js.JStr (name u)));
    ("createdAt", Some (Js.JStr (createdAt u)));
    ("isNewUser", Js.JBool <$> isNewUser u)
  ].

Definition signup (email password name : string) (st : App) : Result * App :=
  let usersData := localStorage st !! "realestate_users" in
  match match usersData with
        | None => Some []
        | Some (JArr rows) => Some rows
        | Some (JObj _) => None  (* [users.find] is not a function *)
        end with
  | None => ({| success := false; error := Some "An error occurred during signup" |}, st)
  | Some users =>
      let existingUser :=
        find (λ u, Js.strictEq (u !! "email") (Some (Js.JStr email))) users in
      match existingUser with
      | Some _ => ({| success := false; error := Some "Email already registered" |}, st)
      | None =>
          let newId := "user_" +:+ pretty (JsDate.now clock) in
          let created := JsDate.toISOString (JsDate.now clock) in
          let newUser := Js.object [
            ("id", Some (Js.JStr newId));
            ("email", Some (Js.JStr email));
            ("password", Some (Js.JStr password));
            ("name", Some (Js.JStr name));
            ("createdAt", Some (Js.JStr created))
          ] in
          let st1 := setItem "realestate_users" (JArr (users ++ [newUser])) st in
          let userToStore := {| id := newId; email := email; name := name;
                                createdAt := created; isNewUser := Some true |} in
          let st2 := setUser (Some userToStore) st1 in
          let st3 := setItem "realestate_user" (JObj (userObject userToStore)) st2 in
          ({| success := true; error := None |}, st3)
      end
  end.

Definition logout (st : App) : App :=
  removeItem "realestate_user" (setUser None st).
End Auth.
End Auth.

(** ** app/dashboard/page.tsx *)
Module Dashboard.
Section Dashboard.
Context `{JsNumber}.
Variable clock : JsDate.Clock.

Definition storageKeyProperties (u : User) : string := "realestate_properties_" +:+ id u.
Definition storageKeyNotifications (u : User) : string := "realestate_notifications_" +:+ id u.
Definition storageKeyPayments (u : User) : string := "realestate_payments_" +:+ id u.

(** One collection of [loadUserData]: an absent entry leaves the state as
    it is, and the rows of a stored array are read back from their JSON
    text. The outer [None] stands for a stored value that is not an array,
    on which the page fails to render. *)
Definition loadCollection (key : string) (set : list Js.JsObj → App → App)
    (st : App) : option App :=
  match localStorage st !! key with
  | None => Some st
  | Some (JArr rows) => Some (set (Js.jsonCopy <$> rows) st)
  | Some (JObj _) => None
  end.

Definition loadUserData (st : App) : option App :=
  match user st with
  | None => Some st
  | Some u =>
      st1 ← loadCollection (storageKeyProperties u) setProperties st;
      st2 ← loadCollection (storageKeyNotifications u) setNotifications st1;
      loadCollection (storageKeyPayments u) setPayments st2
  end.

(** The page mounts: the three collections start empty, the effect marks
    a new user as seen in [localStorage] and loads the user's data. Without
    a signed-in user the page redirects and loads nothing. *)
Definition mount (st : App) : option App :=
  let st0 := setPayments [] (setNotifications [] (setProperties [] st)) in
  match user st0 with
  | None => Some st0
  | Some u =>
      let st1 :=
        if bool_decide (isNewUser u = Some true) then
          let updatedUser := {| id := id u; email := email u; name := name u;
                                createdAt := createdAt u; isNewUser := Some false |} in
          setItem "realestate_user" (JObj (Auth.userObject updatedUser)) st0
        else st0 in
      loadUserData st1
  end.

Definition handleAddProperty (property : Js.JsObj) (st : App) : App :=
  match user st with
  | None => st
  | Some u =>
      let propertyWithUser := Js.withField property "userId" (Some (Js.JStr (id u))) in
      let newProperties := properties st ++ [propertyWithUser] in
      setItem (storageKeyProperties u) (JArr newProperties)
        (setProperties newProperties st)
  end.

Definition handleDeleteProperty (id : string) (st : App) : App :=
  match user st with
  | None => st
  | Some u =>
      let newProperties :=
        filter (λ p, Js.strictEq (p !! "id") (Some (Js.JStr id)) = false) (properties st) in
      setItem (storageKeyProperties u) (JArr newProperties)
        (setProperties newProperties st)
  end.

Definition handleEditProperty (updatedProperty : Js.JsObj) (st : App) : App :=
  match user st with
  | None => st
  | Some u =>
      let newProperties :=
        (λ p, if Js.strictEq (p !! "id") (updatedProperty !! "id")
              then updatedProperty else p) <$> properties st in
      setItem (storageKeyProperties u) (JArr newProperties)
        (setProperties newProperties st)
  end.

Definition handleSendNotification (notification : Js.JsObj) (st : App) : App :=
  match user st with
  | None => st
  | Some u =>
      let notificationWithUser :=
        Js.withField notification "userId" (Some (Js.JStr (id u))) in
      let newNotifications := notifications st ++ [notificationWithUser] in
      setItem (storageKeyNotifications u) (JArr newNotifications)
        (setNotifications newNotifications st)
  end.

(** The value written to [nextPaymentDue] by [handleRecordPayment]. *)
Definition nextPaymentDueOnRecord : string :=
  let nextMonth := JsDate.now clock in
  let nextMonth := JsDate.setMonth clock nextMonth (JsDate.getMonth clock nextMonth + 1) in
  JsDate.isoDay nextMonth.

Definition handleRecordPayment (payment : Js.JsObj) (st : App) : App :=
  match user st with
  | None => st
  | Some u =>
      let paymentWithUser := Js.withField payment "userId" (Some (Js.JStr (id u))) in
      let newPayments := payments st ++ [paymentWithUser] in
      let st1 := setPayments newPayments st in
      let st2 := setItem (storageKeyPayments u) (JArr newPayments) st1 in
      let updatedProperties :=
        (λ p,
               if Js.strictEq (p !! "id") (payment !! "propertyId") then
                 Js.withField
                   (Js.withField
                      (Js.withField p "paymentStatus" (Some (Js.JStr "paid")))
                      "lastPaymentDate" (payment !! "paymentDate"))
                   "nextPaymentDue" (Some (Js.JStr nextPaymentDueOnRecord))
               else p)
          <$> properties st in
      let st3 := setProperties updatedProperties st2 in
      setItem (storageKeyPayments u) (JArr updatedProperties) st3
  end.
End Dashboard.
End Dashboard.

(** ** components/add-property-dialog.tsx *)
Module AddPropertyDialog.
Section AddPropertyDialog.
Context `{JsRuntime}.
Variable clock : JsDate.Clock.

(** The state of the form; every field is the text of an input. The
    [status] select holds "vacant", "occupied" or "maintenance", the
    [propertyType] select "" or one of the four property types. *)
Record FormData := {
  name : string;
  rent : string;
  occupant : string;
  occupantEmail : string;
  occupantPhone : string;
  stayPeriod : string;
  leaseStartDate : string;
  leaseEndDate : string;
  status : string;
  propertyType : string;
  address : string;
  bedrooms : string;
  bathrooms : string;
  squareFeet : string;
}.

(** What a submission does: it shows an alert and stops, or it passes the
    new property to [onAdd]. *)
Inductive Submission :=
| alert (message : string)
| onAdd (property : Js.JsObj).

(** [s ? parse(s) : undefined] *)
Definition parsedIfPresent (parse : string → Number) (s : string) : option Js.JsVal :=
  if Js.truthy s then Some (Js.JNum (parse s)) else None.

(** [randomUUID] is the value returned by [crypto.randomUUID()]. *)
Definition handleSubmit (randomUUID : string) (formData : FormData) : Submission :=
  if negb (Js.truthy (name formData)) || negb (Js.truthy (rent formData)) then
    alert "Property name and rent are required"
  else if negb (Js.truthy (propertyType formData)) then
    alert "Please select a property type"
  else
    let today := JsDate.now clock in
    let nextMonth :=
      JsDate.newDate clock (JsDate.getFullYear clock today) (JsDate.getMonth clock today + 1) 1 in
    let newProperty := Js.object [
      ("id", Some (Js.JStr randomUUID));
      ("name", Some (Js.JStr (name formData)));
      ("rent", Some (Js.JNum (parseFloat (rent formData))));
      ("occupant", Js.orUndefined (occupant formData));
      ("occupantEmail", Js.orUndefined (occupantEmail formData));
      ("occupantPhone", Js.orUndefined (occupantPhone formData));
      ("stayPeriod", Js.orUndefined (stayPeriod formData));
      ("leaseStartDate", Js.orUndefined (leaseStartDate formData));
      ("leaseEndDate", Js.orUndefined (leaseEndDate formData));
      ("status", Some (Js.JStr (status formData)));
      ("propertyType", Js.orUndefined (propertyType formData));
      ("address", Js.orUndefined (address formData));
      ("bedrooms", parsedIfPresent parseInt (bedrooms formData));
      ("bathrooms", parsedIfPresent parseFloat (bathrooms formData));
      ("squareFeet", parsedIfPresent parseInt (squareFeet formData));
      ("createdAt", Some (Js.JStr (JsDate.toISOString (JsDate.now clock))));
      ("paymentStatus",
         Some (Js.JStr (if Js.truthy (occupant formData) then "pending" else "paid")));
      ("nextPaymentDue",
         if Js.truthy (occupant formData)
         then Some (Js.JStr (JsDate.isoDay nextMonth)) else None)
    ] in
    onAdd newProperty.

(** The dialog wired to the page: [onAdd] is [handleAddProperty]. *)
Definition submit (randomUUID : string) (formData : FormData) (st : App) : App :=
  match handleSubmit randomUUID formData with
  | alert _ => st
  | onAdd property => Dashboard.handleAddProperty property st
  end.
End AddPropertyDialog.
End AddPropertyDialog.

(** ** components/record-payment-dialog.tsx *)
Module RecordPaymentDialog.
Section RecordPaymentDialog.
Context `{JsRuntime}.
Variable clock : JsDate.Clock.

(** [paymentMethod] holds "cash", "bank_transfer", "card" or "check". *)
Record FormData := {
  amount : string;
  paymentDate : string;
  paymentMethod : string;
  receiptNumber : string;
  notes : string;
}.

Inductive Submission :=
| alert (message : string)
| onRecord (payment : Js.JsObj).

Definition handleSubmit (randomUUID : string) (property : Js.JsObj)
    (formData : FormData) : Submission :=
  if negb (Js.truthy (amount formData)) || negb (Js.truthy (paymentDate formData)) then
    alert "Amount and payment date are required"
  else
    let payment := Js.object [
      ("id", Some (Js.JStr randomUUID));
      ("propertyId", property !! "id");
      ("propertyName", property !! "name");
      ("occupantName", Js.orElse (property !! "occupant") (Some (Js.JStr "Unknown")));
      ("amount", Some (Js.JNum (parseFloat (amount formData))));
      ("paymentDate", Some (Js.JStr (paymentDate formData)));
      ("paymentMethod", Some (Js.JStr (paymentMethod formData)));
      ("status", Some (Js.JStr "completed"));
      ("receiptNumber", Js.orUndefined (receiptNumber formData));
      ("notes", Js.orUndefined (notes formData));
      ("createdAt", Some (Js.JStr (JsDate.toISOString (JsDate.now clock))))
    ] in
    onRecord payment.

(** The dialog wired to the page: [onRecord] is [handleRecordPayment]. *)
Definition submit (randomUUID : string) (property : Js.JsObj)
    (formData : FormData) (st : App) : App :=
  match handleSubmit randomUUID property formData with
  | alert _ => st
  | onRecord payment => Dashboard.handleRecordPayment clock payment st
  end.
End RecordPaymentDialog.
End RecordPaymentDialog.

(** ** components/send-notification-dialog.tsx *)
Module SendNotificationDialog.
Section SendNotificationDialog.
Context `{JsNumber}.
Variable clock : JsDate.Clock.

(** The notification endpoint as the dialog sees it: for the body of a
    POST to /api/send-notification, [Some ok] is a response with that
    [response.ok], and [None] a request that fails without a response. *)
Variable fetch : Js.JsObj → option bool.

Inductive SendStatus := idle | success | error.

(** The observable course of one submission: the alert shown, the bodies
    posted to the endpoint, the notifications passed to [onSend], and the
    banner state at the end. *)
Record Submission := {
  alert : option string;
  posted : list Js.JsObj;
  onSend : list Js.JsObj;
  sendStatus : SendStatus;
}.

(** [true] when the call returns, [false] when it throws. *)
Definition sendEmailNotification (data : Js.JsObj) : bool :=
  match fetch data with
  | Some ok => ok
  | None => false
  end.

Definition handleSubmit (randomUUID : string) (property : Js.JsObj)
    (subject message type recipientEmail : string) : Submission :=
  if negb (Js.truthyVal (property !! "occupant")) then
    {| alert := Some "This property has no occupant to send notification to.";
       posted := []; onSend := []; sendStatus := idle |}
  else if negb (Js.truthy (Js.trim subject)) || negb (Js.truthy (Js.trim message)) then
    {| alert := Some "Please fill in all required fields.";
       posted := []; onSend := []; sendStatus := idle |}
  else
    let data := Js.object [
      ("to", Some (Js.JStr recipientEmail));
      ("subject", Some (Js.JStr subject));
      ("message", Some (Js.JStr message));
      ("propertyName", property !! "name");
      ("occupantName", property !! "occupant")
    ] in
    let emailing := Js.truthy recipientEmail && Js.truthy (Js.trim recipientEmail) in
    if emailing && negb (sendEmailNotification data) then
      (* the catch block *)
      {| alert := None; posted := [data]; onSend := []; sendStatus := error |}
    else
      let notification := Js.object [
        ("id", Some (Js.JStr randomUUID));
        ("propertyId", property !! "id");
        ("propertyName", property !! "name");
        ("recipientName", property !! "occupant");
        ("recipientEmail", Js.orUndefined recipientEmail);
        ("subject", Some (Js.JStr subject));
        ("message", Some (Js.JStr message));
        ("type", Some (Js.JStr type));
        ("status", Some (Js.JStr (if Js.truthy recipientEmail then "sent" else "sent")));
        ("sentAt", Some (Js.JStr (JsDate.toISOString (JsDate.now clock))));
        ("createdAt", Some (Js.JStr (JsDate.toISOString (JsDate.now clock))))
      ] in
      {| alert := None; posted := if emailing then [data] else [];
         onSend := [notification]; sendStatus := success |}.

(** The dialog wired to the page: [onSend] is [handleSendNotification]. *)
Definition submit (randomUUID : string) (property : Js.JsObj)
    (subject message type recipientEmail : string) (st : App) : Submission * App :=
  let s := handleSubmit randomUUID property subject message type recipientEmail in
  (s, foldl (λ st n, Dashboard.handleSendNotification n st) st (onSend s)).
End SendNotificationDialog.
End SendNotificationDialog.

(** ** components/property-stats.tsx *)
Module PropertyStats.
Section PropertyStats.
Context `{JsRuntime}.
Variable clock : JsDate.Clock.
Variable properties : list Js.JsObj.

Definition totalProperties : nat := List.length properties.
Definition occupiedProperties : nat :=
  List.length (filter (λ p, Js.truthyVal (p !! "occupant") = true) properties).
Definition vacantProperties : Z := Z.of_nat totalProperties - Z.of_nat occupiedProperties.
Definition overduePayments : nat :=
  List.length (filter (λ p, Js.strictEq (p !! "paymentStatus") (Some (Js.JStr "overdue")) = true)
            properties).

(** The predicate of the expiring-soon filter; [leaseEndDate] is declared
    [string | undefined]. *)
Definition expiring (p : Js.JsObj) : bool :=
  match Utils.getDaysUntilExpiry clock (Js.asString (p !! "leaseEndDate")) with
  | Utils.null => false
  | Utils.NaN => false
  | Utils.days days => (0 <? days) && (days <=? 30)
  end.

Definition expiringSoon : nat := List.length (filter (λ p, expiring p = true) properties).
End PropertyStats.
End PropertyStats.


(** ** The states the application reaches

    From an empty browser: signing up and out, opening the dashboard, and
    the add, delete, record-payment and send-notification actions on the
    listed properties. The list offers the last two only on a property with
    an occupant. *)
Definition initial `{JsNumber} : App := {|
  user := None; properties := []; notifications := []; payments := [];
  localStorage := ∅;
|}.

Inductive reachable `{JsRuntime} : App → Prop :=
| reach_initial : reachable initial
| reach_signup clock email password name st :
    reachable st → reachable (Auth.signup clock email password name st).2
| reach_logout st :
    reachable st → reachable (Auth.logout st)
| reach_mount st st' :
    reachable st → Dashboard.mount st = Some st' → reachable st'
| reach_add clock uuid fd st :
    reachable st → reachable (AddPropertyDialog.submit clock uuid fd st)
| reach_delete i p id st :
    reachable st → properties st !! i = Some p → Js.asString (p !! "id") = Some id →
    reachable (Dashboard.handleDeleteProperty id st)
| reach_record clock uuid i p fd st :
    reachable st → properties st !! i = Some p → Js.truthyVal (p !! "occupant") = true →
    reachable (RecordPaymentDialog.submit clock uuid p fd st)
| reach_notify clock fetch uuid i p subject message type recipientEmail st :
    reachable st → properties st !! i = Some p → Js.truthyVal (p !! "occupant") = true →
    reachable (SendNotificationDialog.submit clock fetch uuid p subject message type
                 recipientEmail st).2.

(** The callback that [handleRecordPayment] maps over the properties. *)
Definition marked `{JsNumber} (clock : JsDate.Clock) (payment p : Js.JsObj) : Js.JsObj :=
  if Js.strictEq (p !! "id") (payment !! "propertyId") then
    Js.withField
      (Js.withField
         (Js.withField p "paymentStatus" (Some (Js.JStr "paid")))
         "lastPaymentDate" (payment !! "paymentDate"))
      "nextPaymentDue" (Some (Js.JStr (Dashboard.nextPaymentDueOnRecord clock)))
  else p.

(** ** The specification's calendar month *)

(** Following the specification: the date one calendar month after a date
    written [YYYY-MM-DD] is the same day of the following month, when that
    month has such a day (2025-03-01 gives 2025-04-01). *)
Definition oneCalendarMonthAfter (date : string) : option string :=
  match JsDate.parseIsoDay date with
  | Some (y, m, d) =>
      let next := Calendar.followingMonth y m in
      if d <=? JsDate.daysInMonth next.1 next.2
      then Some (JsDate.isoDateOf next.1 next.2 d) else None
  | None => None
  end.

(** The calendar date of the clock reading in the local time zone, the
    date on which a payment is recorded. *)
Definition localDate (clock : JsDate.Clock) : Z * Z * Z :=
  JsDate.civilFromDays (JsDate.Day (JsDate.LocalTime clock (JsDate.now clock))).

(** The same local time of day on the same day of the month after the
    clock reading, as a local time value. *)
Definition localTimeAMonthOn (clock : JsDate.Clock) : Z :=
  let '(y, m, d) := localDate clock in
  let next := Calendar.followingMonth y m in
  JsDate.MakeDate (JsDate.daysFromCivil next.1 next.2 d)
    (JsDate.TimeWithinDay (JsDate.LocalTime clock (JsDate.now clock))).

(** The rule for [nextPaymentDue] as the specification words it: one
    calendar month after the payment's date. *)
Definition due_one_month_after_payment_date : Prop :=
  ∀ (num : JsNumber) (clock : JsDate.Clock) (payment : Js.JsObj) (st : App) (u : User)
    (i : nat) (p : Js.JsObj) (date due : string),
    user st = Some u →
    properties st !! i = Some p →
    Js.strictEq (p !! "id") (payment !! "propertyId") = true →
    payment !! "paymentDate" = Some (Js.JStr date) →
    oneCalendarMonthAfter date = Some due →
    ∃ p', properties (Dashboard.handleRecordPayment clock payment st) !! i = Some p'
          ∧ p' !! "paymentStatus" = Some (Js.JStr "paid")
          ∧ p' !! "lastPaymentDate" = Some (Js.JStr date)
          ∧ p' !! "nextPaymentDue" = Some (Js.JStr due).


(** ** contexts/auth-context.tsx: logging in and restoring the session *)
Module AuthProvider.
Section AuthProvider.
Context `{JsNumber}.
Variable clock : JsDate.Clock.

(** A stored object read as a [User]. The application writes the four text
    fields as strings and [isNewUser], if at all, as a boolean; [None] is an
    object of another shape, which the typed session of this model cannot
    hold. *)
Definition storedUser (o : Js.JsObj) : option User :=
  id ← Js.asString (o !! "id");
  email ← Js.asString (o !! "email");
  name ← Js.asString (o !! "name");
  createdAt ← Js.asString (o !! "createdAt");
  match o !! "isNewUser" with
  | None => Some {| id := id; email := email; name := name; createdAt := createdAt;
                    isNewUser := None |}
  | Some (Js.JBool b) => Some {| id := id; email := email; name := name;
                                 createdAt := createdAt; isNewUser := Some b |}
  | Some _ => None
  end.

(** [login(email, password)]. The outer [None] is a matching stored user
    whose id, email, name or createdAt is not a string (see [storedUser]). *)
Definition login (email password : string) (st : App) : option (Auth.Result * App) :=
  match match localStorage st !! "realestate_users" with
        | None => Some []
        | Some (JArr rows) => Some rows
        | Some (JObj _) => None  (* [users.find] is not a function *)
        end with
  | None =>
      Some ({| Auth.success := false;
               Auth.error := Some "An error occurred during login" |}, st)
  | Some users =>
      let foundUser :=
        find (λ u, Js.strictEq (u !! "email") (Some (Js.JStr email))
                   && Js.strictEq (u !! "password") (Some (Js.JStr password))) users in
      match foundUser with
      | Some found =>
          id ← Js.asString (found !! "id");
          email ← Js.asString (found !! "email");
          name ← Js.asString (found !! "name");
          createdAt ← Js.asString (found !! "createdAt");
          let userToStore := {| id := id; email := email; name := name;
                                createdAt := createdAt; isNewUser := Some false |} in
          let st1 := setUser (Some userToStore) st in
          let st2 := setItem "realestate_user" (JObj (Auth.userObject userToStore)) st1 in
          Some ({| Auth.success := true; Auth.error := None |}, st2)
      | None =>
          if bool_decide (email = "admin@realestate.com")
             && bool_decide (password = "admin123") then
            let demoUser := {| id := "demo-admin"; email := email; name := "Admin";
                               createdAt := JsDate.toISOString (JsDate.now clock);
                               isNewUser := Some false |} in
            let st1 := setUser (Some demoUser) st in
            let st2 := setItem "realestate_user" (JObj (Auth.userObject demoUser)) st1 in
            Some ({| Auth.success := true; Auth.error := None |}, st2)
          else
            Some ({| Auth.success := false;
                     Auth.error := Some "Invalid email or password" |}, st)
      end
  end.

(** The provider mounts (the page is loaded): the session starts empty and
    is restored from [localStorage]. [None] is a stored value that is not
    the object of a user. *)
Definition restore (st : App) : option App :=
  match localStorage st !! "realestate_user" with
  | None => Some (setUser None st)
  | Some (JObj o) => u ← storedUser o; Some (setUser (Some u) st)
  | Some (JArr _) => None
  end.
End AuthProvider.
End AuthProvider.

(** ** components/dashboard-layout.tsx *)
Module DashboardLayout.
(** The header's logout button removes the stored session; it does not go
    through the auth context. *)
Definition handleLogout `{JsNumber} (st : App) : App :=
  removeItem "realestate_user" st.
End DashboardLayout.

(** ** components/signup-form.tsx and components/login-form.tsx *)
Module SignupForm.
Section SignupForm.
Context `{JsNumber}.
Variable clock : JsDate.Clock.

(** What a submission leaves behind: the error shown ("" for none), whether
    the router was sent to the dashboard, and the state. *)
Record Submission := { error : string; toDashboard : bool; state : App }.

Definition handleSubmit (name email password confirmPassword : string) (st : App)
    : Submission :=
  if negb (Js.truthy name) || negb (Js.truthy email) || negb (Js.truthy password)
     || negb (Js.truthy confirmPassword) then
    {| error := "Please fill in all fields"; toDashboard := false; state := st |}
  else if (String.length password <? 6)%nat then
    {| error := "Password must be at least 6 characters"; toDashboard := false;
       state := st |}
  else if negb (bool_decide (password = confirmPassword)) then
    {| error := "Passwords do not match"; toDashboard := false; state := st |}
  else
    let result := Auth.signup clock email password name st in
    if Auth.success result.1 then
      {| error := ""; toDashboard := true; state := result.2 |}
    else
      {| error := match Auth.error result.1 with
                  | Some e => if Js.truthy e then e else "Signup failed"
                  | None => "Signup failed"
                  end;
         toDashboard := false; state := result.2 |}.
End SignupForm.
End SignupForm.

Module LoginForm.
Section LoginForm.
Context `{JsNumber}.
Variable clock : JsDate.Clock.

Definition handleSubmit (email password : string) (st : App)
    : option SignupForm.Submission :=
  if negb (Js.truthy email) || negb (Js.truthy password) then
    Some {| SignupForm.error := "Please enter both email and password";
            SignupForm.toDashboard := false; SignupForm.state := st |}
  else
    result ← AuthProvider.login clock email password st;
    if Auth.success result.1 then
      Some {| SignupForm.error := ""; SignupForm.toDashboard := true;
              SignupForm.state := result.2 |}
    else
      Some {| SignupForm.error := match Auth.error result.1 with
                                  | Some e => if Js.truthy e then e else "Login failed"
                                  | None => "Login failed"
                                  end;
              SignupForm.toDashboard := false; SignupForm.state := result.2 |}.
End LoginForm.
End LoginForm.

(** ** app/api/send-notification/route.ts *)
Module SendNotificationRoute.
Section SendNotificationRoute.
Context `{JsNumber}.
(** the clock of the server *)
Variable clock : JsDate.Clock.

Record Response := { status : Z; json : Js.JsObj }.

(** [response.ok] *)
Definition ok (r : Response) : bool := (200 <=? status r) && (status r <=? 299).

(** [POST(request)]; [None] is a request whose body is not JSON, on which
    [request.json()] rejects. *)
Definition POST (body : option Js.JsObj) : Response :=
  match body with
  | None =>
      {| status := 500;
         json := Js.object [("error", Some (Js.JStr "Failed to send email notification"))] |}
  | Some body =>
      if negb (Js.truthyVal (body !! "to")) || negb (Js.truthyVal (body !! "subject"))
         || negb (Js.truthyVal (body !! "message")) then
        {| status := 400;
           json := Js.object [("error", Some (Js.JStr "Missing required fields"))] |}
      else
        {| status := 200;
           json := Js.object [
             ("success", Some (Js.JBool true));
             ("message", Some (Js.JStr "Email notification sent successfully"));
             ("timestamp", Some (Js.JStr (JsDate.toISOString (JsDate.now clock))))
           ] |}
  end.

(** The route behind [fetch]: every request gets its response. *)
Definition served (data : Js.JsObj) : option bool := Some (ok (POST (Some data))).
End SendNotificationRoute.
End SendNotificationRoute.

(** ** components/edit-property-dialog.tsx *)
Module EditPropertyDialog.
Section EditPropertyDialog.
Context `{JsRuntime}.

Record FormData := {
  name : string;
  rent : string;
  occupant : string;
  occupantEmail : string;
  occupantPhone : string;
  stayPeriod : string;
  leaseStartDate : string;
  leaseEndDate : string;
  status : string;
  propertyType : string;
  address : string;
  bedrooms : string;
  bathrooms : string;
  squareFeet : string;
  (** the value of [property.paymentStatus] unless the user picks another *)
  paymentStatus : option Js.JsVal;
}.

Inductive Submission :=
| alert (message : string)
| onEdit (property : Js.JsObj).

(** [{ ...o, k1: v1, ..., kn: vn }] *)
Definition spread (o : Js.JsObj) (fields : list (string * option Js.JsVal)) : Js.JsObj :=
  fold_left (λ o kv, Js.withField o kv.1 kv.2) fields o.

Definition handleSubmit (property : Js.JsObj) (formData : FormData) : Submission :=
  if negb (Js.truthy (name formData)) || negb (Js.truthy (rent formData)) then
    alert "Property name and rent are required"
  else
    let updatedProperty := spread property [
      ("name", Some (Js.JStr (name formData)));
      ("rent", Some (Js.JNum (parseFloat (rent formData))));
      ("occupant", Js.orUndefined (occupant formData));
      ("occupantEmail", Js.orUndefined (occupantEmail formData));
      ("occupantPhone", Js.orUndefined (occupantPhone formData));
      ("stayPeriod", Js.orUndefined (stayPeriod formData));
      ("leaseStartDate", Js.orUndefined (leaseStartDate formData));
      ("leaseEndDate", Js.orUndefined (leaseEndDate formData));
      ("status", Some (Js.JStr (status formData)));
      ("propertyType", Js.orUndefined (propertyType formData));
      ("address", Js.orUndefined (address formData));
      ("bedrooms", AddPropertyDialog.parsedIfPresent parseInt (bedrooms formData));
      ("bathrooms", AddPropertyDialog.parsedIfPresent parseFloat (bathrooms formData));
      ("squareFeet", AddPropertyDialog.parsedIfPresent parseInt (squareFeet formData));
      ("paymentStatus", paymentStatus formData)
    ] in
    onEdit updatedProperty.

(** The dialog wired to the page: [onEdit] is [handleEditProperty]. *)
Definition submit (property : Js.JsObj) (formData : FormData) (st : App) : App :=
  match handleSubmit property formData with
  | alert _ => st
  | onEdit updatedProperty => Dashboard.handleEditProperty updatedProperty st
  end.
End EditPropertyDialog.
End EditPropertyDialog.

(** ** components/property-list.tsx: the search and the two filters *)
Module PropertyList.

(** [toLowerCase] on the 8-bit code units: A-Z and the capital letters of
    Latin-1 (all of 192..222 but the multiplication sign 215). *)
Definition lowerChar (c : ascii) : ascii :=
  let n := nat_of_ascii c in
  if ((65 <=? n) && (n <=? 90) || (192 <=? n) && (n <=? 222) && negb (n =? 215))%nat
  then ascii_of_nat (n + 32) else c.

Fixpoint toLowerCase (s : string) : string :=
  match s with
  | EmptyString => EmptyString
  | String c rest => String (lowerChar c) (toLowerCase rest)
  end.

Fixpoint startsWith (prefix s : string) : bool :=
  match prefix, s with
  | EmptyString, _ => true
  | String _ _, EmptyString => false
  | String a prefix', String b s' => bool_decide (a = b) && startsWith prefix' s'
  end.

(** [s.includes(term)] *)
Fixpoint includes (term s : string) : bool :=
  startsWith term s
  || match s with
     | EmptyString => false
     | String _ rest => includes term rest
     end.

Section PropertyList.
Context `{JsNumber}.
Variables searchTerm statusFilter paymentFilter : string.

(** [v?.toLowerCase().includes(searchTerm.toLowerCase())]: [undefined] for
    a field that is missing or [null], a TypeError (the outer [None]) for a
    number or a boolean. *)
Definition found (v : option Js.JsVal) : option bool :=
  match v with
  | None | Some Js.JNull => Some false
  | Some (Js.JStr s) => Some (includes (toLowerCase searchTerm) (toLowerCase s))
  | Some _ => None
  end.

(** The callback of the filter; [None] when it throws. [property.name] is
    read without [?.], so a missing name throws as well. *)
Definition shown (property : Js.JsObj) : option bool :=
  (match property !! "name" with
    | Some (Js.JStr name) =>
        if includes (toLowerCase searchTerm) (toLowerCase name) then Some true
        else
          found (property !! "occupant") ≫= λ byOccupant : bool,
            if byOccupant then Some true else found (property !! "address")
   | _ => None
   end) ≫= λ matchesSearch : bool,
  let matchesStatus :=
    bool_decide (statusFilter = "all")
    || Js.strictEq (property !! "status") (Some (Js.JStr statusFilter)) in
  let matchesPayment :=
    bool_decide (paymentFilter = "all")
    || Js.strictEq (property !! "paymentStatus") (Some (Js.JStr paymentFilter)) in
  Some (matchesSearch && matchesStatus && matchesPayment).

(** [properties.filter(...)]; [None] when the callback throws on a row. *)
Fixpoint filteredProperties (properties : list Js.JsObj) : option (list Js.JsObj) :=
  match properties with
  | [] => Some []
  | property :: rest =>
      shown property ≫= λ keep : bool,
        others ← filteredProperties rest;
        Some (if keep then property :: others else others)
  end.
End PropertyList.
End PropertyList.

(** ** components/add-property-dialog.tsx: the form while it is filled in *)
Module AddPropertyForm.
Import AddPropertyDialog.

Definition initialForm : FormData := {|
  name := ""; rent := ""; occupant := ""; occupantEmail := ""; occupantPhone := "";
  stayPeriod := ""; leaseStartDate := ""; leaseEndDate := ""; status := "vacant";
  propertyType := ""; address := ""; bedrooms := ""; bathrooms := ""; squareFeet := "";
|}.

Definition shouldShowField (formData : FormData) (field : string) : bool :=
  if negb (Js.truthy (propertyType formData)) then true
  else if bool_decide (propertyType formData = "land") then
    negb (bool_decide (field ∈ ["bedrooms"; "bathrooms"]))
  else if bool_decide (propertyType formData = "commercial") then
    negb (bool_decide (field ∈ ["bedrooms"; "bathrooms"]))
  else true.

(** The inputs of the form: a text typed into a field, or a choice in one
    of the two selects. *)
Inductive Input :=
| typed (field value : string)
| selectPropertyType (value : string)
| selectStatus (value : string).

(** [setFormData({ ...formData, field: value })] *)
Definition withText (formData : FormData) (field value : string) : option FormData :=
  let fd := formData in
  if bool_decide (field = "name") then
    Some {| name := value; rent := rent fd; occupant := occupant fd;
            occupantEmail := occupantEmail fd; occupantPhone := occupantPhone fd;
            stayPeriod := stayPeriod fd; leaseStartDate := leaseStartDate fd;
            leaseEndDate := leaseEndDate fd; status := status fd;
            propertyType := propertyType fd; address := address fd;
            bedrooms := bedrooms fd; bathrooms := bathrooms fd;
            squareFeet := squareFeet fd |}
  else if bool_decide (field = "rent") then
    Some {| name := name fd; rent := value; occupant := occupant fd;
            occupantEmail := occupantEmail fd; occupantPhone := occupantPhone fd;
            stayPeriod := stayPeriod fd; leaseStartDate := leaseStartDate fd;
            leaseEndDate := leaseEndDate fd; status := status fd;
            propertyType := propertyType fd; address := address fd;
            bedrooms := bedrooms fd; bathrooms := bathrooms fd;
            squareFeet := squareFeet fd |}
  else if bool_decide (field = "address") then
    Some {| name := name fd; rent := rent fd; occupant := occupant fd;
            occupantEmail := occupantEmail fd; occupantPhone := occupantPhone fd;
            stayPeriod := stayPeriod fd; leaseStartDate := leaseStartDate fd;
            leaseEndDate := leaseEndDate fd; status := status fd;
            propertyType := propertyType fd; address := value;
            bedrooms := bedrooms fd; bathrooms := bathrooms fd;
            squareFeet := squareFeet fd |}
  else if bool_decide (field = "bedrooms") then
    Some {| name := name fd; rent := rent fd; occupant := occupant fd;
            occupantEmail := occupantEmail fd; occupantPhone := occupantPhone fd;
            stayPeriod := stayPeriod fd; leaseStartDate := leaseStartDate fd;
            leaseEndDate := leaseEndDate fd; status := status fd;
            propertyType := propertyType fd; address := address fd;
            bedrooms := value; bathrooms := bathrooms fd;
            squareFeet := squareFeet fd |}
  else if bool_decide (field = "bathrooms") then
    Some {| name := name fd; rent := rent fd; occupant := occupant fd;
            occupantEmail := occupantEmail fd; occupantPhone := occupantPhone fd;
            stayPeriod := stayPeriod fd; leaseStartDate := leaseStartDate fd;
            leaseEndDate := leaseEndDate fd; status := status fd;
            propertyType := propertyType fd; address := address fd;
            bedrooms := bedrooms fd; bathrooms := value;
            squareFeet := squareFeet fd |}
  else if bool_decide (field = "squareFeet") then
    Some {| name := name fd; rent := rent fd; occupant := occupant fd;
            occupantEmail := occupantEmail fd; occupantPhone := occupantPhone fd;
            stayPeriod := stayPeriod fd; leaseStartDate := leaseStartDate fd;
            leaseEndDate := leaseEndDate fd; status := status fd;
            propertyType := propertyType fd; address := address fd;
            bedrooms := bedrooms fd; bathrooms := bathrooms fd;
            squareFeet := value |}
  else if bool_decide (field = "occupant") then
    Some {| name := name fd; rent := rent fd; occupant := value;
            occupantEmail := occupantEmail fd; occupantPhone := occupantPhone fd;
            stayPeriod := stayPeriod fd; leaseStartDate := leaseStartDate fd;
            leaseEndDate := leaseEndDate fd; status := status fd;
            propertyType := propertyType fd; address := address fd;
            bedrooms := bedrooms fd; bathrooms := bathrooms fd;
            squareFeet := squareFeet fd |}
  else if bool_decide (field = "occupantEmail") then
    Some {| name := name fd; rent := rent fd; occupant := occupant fd;
            occupantEmail := value; occupantPhone := occupantPhone fd;
            stayPeriod := stayPeriod fd; leaseStartDate := leaseStartDate fd;
            leaseEndDate := leaseEndDate fd; status := status fd;
            propertyType := propertyType fd; address := address fd;
            bedrooms := bedrooms fd; bathrooms := bathrooms fd;
            squareFeet := squareFeet fd |}
  else if bool_decide (field = "occupantPhone") then
    Some {| name := name fd; rent := rent fd; occupant := occupant fd;
            occupantEmail := occupantEmail fd; occupantPhone := value;
            stayPeriod := stayPeriod fd; leaseStartDate := leaseStartDate fd;
            leaseEndDate := leaseEndDate fd; status := status fd;
            propertyType := propertyType fd; address := address fd;
            bedrooms := bedrooms fd; bathrooms := bathrooms fd;
            squareFeet := squareFeet fd |}
  else if bool_decide (field = "leaseStartDate") then
    Some {| name := name fd; rent := rent fd; occupant := occupant fd;
            occupantEmail := occupantEmail fd; occupantPhone := occupantPhone fd;
            stayPeriod := stayPeriod fd; leaseStartDate := value;
            leaseEndDate := leaseEndDate fd; status := status fd;
            propertyType := propertyType fd; address := address fd;
            bedrooms := bedrooms fd; bathrooms := bathrooms fd;
            squareFeet := squareFeet fd |}
  else if bool_decide (field = "leaseEndDate") then
    Some {| name := name fd; rent := rent fd; occupant := occupant fd;
            occupantEmail := occupantEmail fd; occupantPhone := occupantPhone fd;
            stayPeriod := stayPeriod fd; leaseStartDate := leaseStartDate fd;
            leaseEndDate := value; status := status fd;
            propertyType := propertyType fd; address := address fd;
            bedrooms := bedrooms fd; bathrooms := bathrooms fd;
            squareFeet := squareFeet fd |}
  else if bool_decide (field = "stayPeriod") then
    Some {| name := name fd; rent := rent fd; occupant := occupant fd;
            occupantEmail := occupantEmail fd; occupantPhone := occupantPhone fd;
            stayPeriod := value; leaseStartDate := leaseStartDate fd;
            leaseEndDate := leaseEndDate fd; status := status fd;
            propertyType := propertyType fd; address := address fd;
            bedrooms := bedrooms fd; bathrooms := bathrooms fd;
            squareFeet := squareFeet fd |}
  else None.

(** Whether the input for a field is on the page: bedrooms and bathrooms
    by [shouldShowField], the occupant and lease fields while the status is
    "occupied". *)
Definition rendered (formData : FormData) (field : string) : bool :=
  if bool_decide (field ∈ ["bedrooms"; "bathrooms"]) then shouldShowField formData field
  else if bool_decide (field ∈ ["occupant"; "occupantEmail"; "occupantPhone";
                                "leaseStartDate"; "leaseEndDate"; "stayPeriod"])
  then bool_decide (status formData = "occupied")
  else true.

(** The effect on [formData.propertyType]: land has no bedrooms or
    bathrooms. *)
Definition clearForLand (formData : FormData) : FormData :=
  let fd := formData in
  if bool_decide (propertyType fd = "land") then
    {| name := name fd; rent := rent fd; occupant := occupant fd;
       occupantEmail := occupantEmail fd; occupantPhone := occupantPhone fd;
       stayPeriod := stayPeriod fd; leaseStartDate := leaseStartDate fd;
       leaseEndDate := leaseEndDate fd; status := status fd;
       propertyType := propertyType fd; address := address fd;
       bedrooms := ""; bathrooms := ""; squareFeet := squareFeet fd |}
  else fd.

(** One input on the form; [None] when the page offers no such input. *)
Definition input (formData : FormData) (i : Input) : option FormData :=
  let fd := formData in
  match i with
  | typed field value =>
      if rendered fd field then withText fd field value else None
  | selectPropertyType value =>
      if bool_decide (value ∈ ["apartment"; "house"; "commercial"; "land"]) then
        Some (clearForLand
          {| name := name fd; rent := rent fd; occupant := occupant fd;
             occupantEmail := occupantEmail fd; occupantPhone := occupantPhone fd;
             stayPeriod := stayPeriod fd; leaseStartDate := leaseStartDate fd;
             leaseEndDate := leaseEndDate fd; status := status fd;
             propertyType := value; address := address fd;
             bedrooms := bedrooms fd; bathrooms := bathrooms fd;
             squareFeet := squareFeet fd |})
      else None
  | selectStatus value =>
      if bool_decide (value ∈ ["vacant"; "occupied"; "maintenance"]) then
        Some {| name := name fd; rent := rent fd; occupant := occupant fd;
                occupantEmail := occupantEmail fd; occupantPhone := occupantPhone fd;
                stayPeriod := stayPeriod fd; leaseStartDate := leaseStartDate fd;
                leaseEndDate := leaseEndDate fd; status := value;
                propertyType := propertyType fd; address := address fd;
                bedrooms := bedrooms fd; bathrooms := bathrooms fd;
                squareFeet := squareFeet fd |}
      else None
  end.

(** The form after a series of inputs, from the state it opens in. *)
Fixpoint filled (formData : FormData) (inputs : list Input) : option FormData :=
  match inputs with
  | [] => Some formData
  | i :: rest => fd ← input formData i; filled fd rest
  end.
End AddPropertyForm.

(** ** Notions used in the statements *)

(** The registered users as [signup] and [login] read them. *)
Definition storedUsers `{JsNumber} (st : App) : list Js.JsObj :=
  match localStorage st !! "realestate_users" with
  | Some (JArr rows) => rows
  | _ => []
  end.

(** The entry under a key is absent or an array. *)
Definition arrayOrAbsent `{JsNumber} (st : App) (key : string) : Prop :=
  ∀ o, localStorage st !! key ≠ Some (JObj o).

(** A user's record with the onboarding flag cleared. *)
Definition seen (u : User) : User :=
  {| id := id u; email := email u; name := name u; createdAt := createdAt u;
     isNewUser := Some false |}.

(** The account that [signup] creates at a clock reading. *)
Definition accountAt (clock : JsDate.Clock) (email name : string) : User :=
  {| id := "user_" +:+ pretty (JsDate.now clock); email := email; name := name;
     createdAt := JsDate.toISOString (JsDate.now clock); isNewUser := Some true |}.

(** The user object that [signup] appends to the registered users. *)
Definition registered `{JsNumber} (clock : JsDate.Clock) (email password name : string)
    : Js.JsObj :=
  Js.object [
    ("id", Some (Js.JStr ("user_" +:+ pretty (JsDate.now clock))));
    ("email", Some (Js.JStr email));
    ("password", Some (Js.JStr password));
    ("name", Some (Js.JStr name));
    ("createdAt", Some (Js.JStr (JsDate.toISOString (JsDate.now clock))))
  ].

(** The credentials match a stored user. *)
Definition matches `{JsNumber} (email password : string) (u : Js.JsObj) : bool :=
  Js.strictEq (u !! "email") (Some (Js.JStr email))
  && Js.strictEq (u !! "password") (Some (Js.JStr password)).

(** The rows stored under a key, none for an absent entry. *)
Definition storedRows `{JsNumber} (st : App) (key : string) : list Js.JsObj :=
  match localStorage st !! key with
  | Some (JArr rows) => rows
  | _ => []
  end.

(** The rows stored under a key as a reader gets them from their JSON
    text. *)
Definition readRows `{JsNumber} (st : App) (key : string) : list Js.JsObj :=
  Js.jsonCopy <$> storedRows st key.

(** The three collections of a user in the store. *)
Definition collectionKeys (u : User) : list string :=
  [Dashboard.storageKeyProperties u; Dashboard.storageKeyNotifications u;
   Dashboard.storageKeyPayments u].

(** The body that the notification dialog posts to the endpoint. *)
Definition emailBody `{JsNumber} (property : Js.JsObj)
    (subject message recipientEmail : string) : Js.JsObj :=
  Js.object [
    ("to", Some (Js.JStr recipientEmail));
    ("subject", Some (Js.JStr subject));
    ("message", Some (Js.JStr message));
    ("propertyName", property !! "name");
    ("occupantName", property !! "occupant")
  ].

(** The text fields that the search of the property list reads hold text:
    the name a string, the occupant and the address a string or nothing. *)
Definition searchable `{JsNumber} (p : Js.JsObj) : Prop :=
  is_Some (Js.asString (p !! "name"))
  ∧ (p !! "occupant" = None ∨ is_Some (Js.asString (p !! "occupant")))
  ∧ (p !! "address" = None ∨ is_Some (Js.asString (p !! "address"))).

(** In a form, land has neither bedrooms nor bathrooms. *)
Definition landWithoutRooms (fd : AddPropertyDialog.FormData) : Prop :=
  AddPropertyDialog.propertyType fd = "land" →
  AddPropertyDialog.bedrooms fd = "" ∧ AddPropertyDialog.bathrooms fd = "".
(** ** Concrete inputs *)

(** 2025-03-15, 11:00 UTC, read one hour east of UTC (Lagos), in UTC, and
    five hours west of it (the standard time of New York). *)
Definition noonLagos : JsDate.Clock :=
  {| JsDate.now := 1742036400000; JsDate.LocalTZA := λ _ _, 3600000 |}.
Definition elevenUTC : JsDate.Clock :=
  {| JsDate.now := 1742036400000; JsDate.LocalTZA := λ _ _, 0 |}.
Definition sixNewYork : JsDate.Clock :=
  {| JsDate.now := 1742036400000; JsDate.LocalTZA := λ _ _, -18000000 |}.
(** 2025-06-15, 12:00 UTC *)
Definition midJune : JsDate.Clock :=
  {| JsDate.now := 1749988800000; JsDate.LocalTZA := λ _ _, 0 |}.

Definition unitOneForm (occupant status : string) : AddPropertyDialog.FormData := {|
  AddPropertyDialog.name := "Unit 1";
  AddPropertyDialog.rent := "150000";
  AddPropertyDialog.occupant := occupant;
  AddPropertyDialog.occupantEmail := "";
  AddPropertyDialog.occupantPhone := "";
  AddPropertyDialog.stayPeriod := "";
  AddPropertyDialog.leaseStartDate := "";
  AddPropertyDialog.leaseEndDate := "";
  AddPropertyDialog.status := status;
  AddPropertyDialog.propertyType := "apartment";
  AddPropertyDialog.address := "";
  AddPropertyDialog.bedrooms := "";
  AddPropertyDialog.bathrooms := "";
  AddPropertyDialog.squareFeet := "";
|}.

Definition ada : User := {|
  id := "user_1";
  email := "ada@example.com";
  name := "Ada";
  createdAt := "2025-01-01T00:00:00.000Z";
  isNewUser := Some false;
|}.

Section ConcreteStates.
Local Existing Instances intNumber intRuntime.

(** Unit 1 as the add dialog creates it, vacant or let to Jane. *)
Definition createdBy (clock : JsDate.Clock) (fd : AddPropertyDialog.FormData) : Js.JsObj :=
  match AddPropertyDialog.handleSubmit clock "uuid-1" fd with
  | AddPropertyDialog.onAdd p => p
  | AddPropertyDialog.alert _ => ∅
  end.

Definition signedIn : App := {|
  user := Some ada; properties := []; notifications := []; payments := [];
  localStorage := ∅;
|}.

(** Ada's dashboard with Unit 1, let to Jane, as its only property. *)
Definition withUnitOne : App :=
  AddPropertyDialog.submit elevenUTC "uuid-1" (unitOneForm "Jane" "occupied") signedIn.

Definition unitOne : Js.JsObj :=
  Js.withField (createdBy elevenUTC (unitOneForm "Jane" "occupied")) "userId"
    (Some (Js.JStr "user_1")).

(** Rent for March, received on the first and entered in mid June. *)
Definition marchRent : RecordPaymentDialog.FormData := {|
  RecordPaymentDialog.amount := "150000";
  RecordPaymentDialog.paymentDate := "2025-03-01";
  RecordPaymentDialog.paymentMethod := "bank_transfer";
  RecordPaymentDialog.receiptNumber := "";
  RecordPaymentDialog.notes := "";
|}.

Definition marchPayment : Js.JsObj :=
  match RecordPaymentDialog.handleSubmit midJune "uuid-2" unitOne marchRent with
  | RecordPaymentDialog.onRecord payment => payment
  | RecordPaymentDialog.alert _ => ∅
  end.

Definition afterMarchRent : App :=
  RecordPaymentDialog.submit midJune "uuid-2" unitOne marchRent withUnitOne.

(** A reminder to Jane, and a notification endpoint that answers every
    request with an error status. *)
Definition failingEndpoint : Js.JsObj → option bool := λ _, Some false.

Definition reminderWhenEmailFails : SendNotificationDialog.Submission * App :=
  SendNotificationDialog.submit elevenUTC failingEndpoint "uuid-3" unitOne
    "Rent reminder" "Rent is due on the 1st." "reminder" "jane@example.com" withUnitOne.

(** Unit 2, never let. *)
Definition unitTwo : Js.JsObj :=
  Js.object [
    ("id", Some (Js.JStr "uuid-9"));
    ("name", Some (Js.JStr "Unit 2"));
    ("status", Some (Js.JStr "vacant"));
    ("paymentStatus", Some (Js.JStr "paid"))
  ].

(** Ada's dashboard with Unit 1 and Unit 2, one payment and one
    notification on record. *)
Definition twoUnits : App := {|
  user := Some ada;
  properties := [unitOne; unitTwo];
  notifications := [unitTwo];
  payments := [marchPayment];
  localStorage :=
    {[ "realestate_properties_user_1" := JArr [unitOne; unitTwo];
       "realestate_payments_user_1" := JArr [marchPayment];
       "realestate_users" := JArr [Auth.userObject ada] ]};
|}.

(** Unit 3, with a lease that ends on 2025-03-25. *)
Definition unitThree : Js.JsObj :=
  Js.object [
    ("id", Some (Js.JStr "uuid-7"));
    ("name", Some (Js.JStr "Unit 3"));
    ("occupant", Some (Js.JStr "Sam"));
    ("leaseEndDate", Some (Js.JStr "2025-03-25"));
    ("status", Some (Js.JStr "occupied"));
    ("paymentStatus", Some (Js.JStr "pending"))
  ].

(** A first visit: sign up, open the dashboard, add Unit 1 let to Jane,
    record her March rent, and open the dashboard again. *)
Definition visit1 : App := (Auth.signup elevenUTC "ada@example.com" "secret" "Ada" initial).2.
Definition visit2 : App := default visit1 (Dashboard.mount visit1).
Definition visit3 : App :=
  AddPropertyDialog.submit elevenUTC "uuid-1" (unitOneForm "Jane" "occupied") visit2.
Definition visit4 : App :=
  RecordPaymentDialog.submit midJune "uuid-2" (default ∅ (properties visit3 !! 0%nat))
    marchRent visit3.
Definition revisit : App := default visit4 (Dashboard.mount visit4).
End ConcreteStates.


(** Eve, another user of the same browser. *)
Definition eve : User := {|
  id := "user_2";
  email := "eve@example.com";
  name := "Eve";
  createdAt := "2025-02-01T00:00:00.000Z";
  isNewUser := Some false;
|}.

(** The zones of Europe in 2025: [standard] ahead of UTC, and one hour more
    from 30 March, 01:00 UTC, to 26 October, 01:00 UTC. Of the local times
    that the change skips or repeats, each is read with the offset from
    before the change. *)
Definition europe2025 (standard : Z) (t : Z) (isUTC : bool) : Z :=
  let summer := standard + 3600000 in
  let shift := if isUTC then 0 else summer in
  if (1743296400000 + shift <=? t) && (t <? 1761440400000 + shift)
  then summer else standard.

(** 2025-03-15, 11:00 in London (11:00 UTC) *)
Definition elevenLondon : JsDate.Clock :=
  {| JsDate.now := 1742036400000; JsDate.LocalTZA := europe2025 0 |}.


(** A plot: bedrooms typed in before the type is set to land. *)
Definition plotInputs : list AddPropertyForm.Input := [
  AddPropertyForm.typed "name" "Plot 7";
  AddPropertyForm.typed "bedrooms" "3";
  AddPropertyForm.typed "rent" "90000";
  AddPropertyForm.selectPropertyType "land"
].

Definition plotForm : AddPropertyDialog.FormData :=
  default AddPropertyForm.initialForm
    (AddPropertyForm.filled AddPropertyForm.initialForm plotInputs).

Section ConcreteEdits.
Local Existing Instances intNumber intRuntime.

(** Unit 1 after Jane has left: renamed, vacant, the payment status kept. *)
Definition unitOneVacated : EditPropertyDialog.FormData := {|
  EditPropertyDialog.name := "Unit 1A";
  EditPropertyDialog.rent := "160000";
  EditPropertyDialog.occupant := "";
  EditPropertyDialog.occupantEmail := "";
  EditPropertyDialog.occupantPhone := "";
  EditPropertyDialog.stayPeriod := "";
  EditPropertyDialog.leaseStartDate := "";
  EditPropertyDialog.leaseEndDate := "";
  EditPropertyDialog.status := "vacant";
  EditPropertyDialog.propertyType := "apartment";
  EditPropertyDialog.address := "";
  EditPropertyDialog.bedrooms := "";
  EditPropertyDialog.bathrooms := "";
  EditPropertyDialog.squareFeet := "";
  EditPropertyDialog.paymentStatus := unitOne !! "paymentStatus";
|}.

(** Ada comes back in June: the page is loaded and she logs in. *)
Definition loggedOut : App := Auth.logout visit4.
End ConcreteEdits.
(** * Properties *)

(** ** Dates on concrete inputs *)

Example toISOString_2025 :
  JsDate.toISOString 1735689600000 = "2025-01-01T00:00:00.000Z".
Proof. reflexivity. Qed.

Example parseIsoDate_2025 : JsDate.parseIsoDate "2025-01-01" = Some 1735689600000.
Proof. reflexivity. Qed.

Example isoDay_leap : JsDate.isoDay (1709251199999) = "2024-02-29".
Proof. reflexivity. Qed.


(** ** Objects and strings *)

Section ObjectFacts.
Context `{JsNumber}.

Lemma lookup_withField (o : Js.JsObj) (k k' : string) (v : option Js.JsVal) :
  Js.withField o k v !! k' = if bool_decide (k = k') then v else o !! k'.
Proof.
  unfold Js.withField. case_bool_decide as Hk.
  - subst k'. destruct v; [apply lookup_insert_eq | apply lookup_delete_eq].
  - destruct v; [by apply lookup_insert_ne | by apply lookup_delete_ne].
Qed.

Lemma strictEq_string (v : option Js.JsVal) (s : string) :
  Js.strictEq v (Some (Js.JStr s)) = true ↔ v = Some (Js.JStr s).
Proof.
  destruct v as [[t| | |]|]; simpl; split; try discriminate; try done.
  - intros Heq. apply bool_decide_eq_true in Heq. by subst.
  - intros [= ->]. by apply bool_decide_eq_true.
Qed.

Lemma truthy_orUndefined (s : string) :
  Js.orUndefined s = if Js.truthy s then Some (Js.JStr s) else None.
Proof. unfold Js.orUndefined, Js.truthy. by case_bool_decide. Qed.
End ObjectFacts.

Lemma truthy_true (s : string) : Js.truthy s = true ↔ s ≠ "".
Proof.
  unfold Js.truthy. case_bool_decide; simpl; split; try done.
Qed.

Lemma truthy_false (s : string) : Js.truthy s = false ↔ s = "".
Proof.
  unfold Js.truthy. case_bool_decide; simpl; split; try done.
Qed.

(** Closing an equation between closed terms by evaluation. *)
Ltac evaluate :=
  match goal with |- @eq ?T ?x ?y => vm_cast_no_check (@eq_refl T y) end.

(** Reading a field of an object literal: unfold the literal and decide the
    comparisons of the field names. *)
Ltac read_fields :=
  unfold Js.object; cbn [fold_left fst snd];
  repeat (rewrite lookup_withField; cbn [bool_decide decide_rel]);
  try reflexivity.

(** ** Adding a property *)

Section AddProperty.
Context `{JsRuntime}.
Variable clock : JsDate.Clock.

Lemma created_fields (uuid : string) (fd : AddPropertyDialog.FormData) (property : Js.JsObj) :
  AddPropertyDialog.handleSubmit clock uuid fd = AddPropertyDialog.onAdd property →
  property !! "occupant" = Js.orUndefined (AddPropertyDialog.occupant fd)
  ∧ property !! "paymentStatus"
    = Some (Js.JStr (if Js.truthy (AddPropertyDialog.occupant fd) then "pending" else "paid"))
  ∧ property !! "nextPaymentDue"
    = (if Js.truthy (AddPropertyDialog.occupant fd)
       then Some (Js.JStr (JsDate.isoDay
              (JsDate.newDate clock (JsDate.getFullYear clock (JsDate.now clock))
                 (JsDate.getMonth clock (JsDate.now clock) + 1) 1)))
       else None).
Proof.
  unfold AddPropertyDialog.handleSubmit.
  destruct (negb _ || negb _); [discriminate|].
  destruct (negb _); [discriminate|].
  intros [= <-]. repeat split; read_fields.
Qed.

(** A submission that passes validation appends exactly the created
    record, stamped with the owner, to the signed-in user's properties. *)
Lemma submit_appends (uuid : string) (fd : AddPropertyDialog.FormData)
    (property : Js.JsObj) (st : App) (u : User) :
  AddPropertyDialog.handleSubmit clock uuid fd = AddPropertyDialog.onAdd property →
  user st = Some u →
  properties (AddPropertyDialog.submit clock uuid fd st)
  = properties st ++ [Js.withField property "userId" (Some (Js.JStr (id u)))].
Proof.
  intros Hs Hu. unfold AddPropertyDialog.submit, Dashboard.handleAddProperty.
  rewrite Hs, Hu. reflexivity.
Qed.
End AddProperty.

(** C4. For every property submitted to add, the record that is created and
    stored has paymentStatus "paid" if the form has no occupant (and then the
    record has no occupant either), and paymentStatus "pending" if it has
    one. *)
Theorem add_default_paymentStatus `{JsRuntime} (clock : JsDate.Clock) (uuid : string)
    (fd : AddPropertyDialog.FormData) (property : Js.JsObj) (st : App) (u : User) :
  AddPropertyDialog.handleSubmit clock uuid fd = AddPropertyDialog.onAdd property →
  user st = Some u →
  ∃ created,
    properties (AddPropertyDialog.submit clock uuid fd st) = properties st ++ [created]
    ∧ created !! "paymentStatus" = property !! "paymentStatus"
    ∧ created !! "occupant" = property !! "occupant"
    ∧ (AddPropertyDialog.occupant fd = "" →
       property !! "occupant" = None
       ∧ property !! "paymentStatus" = Some (Js.JStr "paid"))
    ∧ (AddPropertyDialog.occupant fd ≠ "" →
       property !! "occupant" = Some (Js.JStr (AddPropertyDialog.occupant fd))
       ∧ property !! "paymentStatus" = Some (Js.JStr "pending")).
Proof.
  intros Hs Hu. eexists. split; [by eapply submit_appends|].
  destruct (created_fields clock uuid fd property Hs) as (Hocc & Hpay & _).
  split; [by rewrite lookup_withField|]. split; [by rewrite lookup_withField|].
  rewrite Hocc, Hpay, truthy_orUndefined. split.
  - intros Hempty. apply truthy_false in Hempty. by rewrite Hempty.
  - intros Hfull. apply truthy_true in Hfull. by rewrite Hfull.
Qed.

Section AddPropertyOnUnitOne.
Local Existing Instances intNumber intRuntime.

Lemma add_default_paymentStatus_witness :
  (createdBy elevenUTC (unitOneForm "" "vacant") !! "paymentStatus" = Some (Js.JStr "paid")
   ∧ createdBy elevenUTC (unitOneForm "" "vacant") !! "occupant" = None)
  ∧ createdBy elevenUTC (unitOneForm "Jane" "occupied") !! "paymentStatus"
    = Some (Js.JStr "pending").
Proof.
  assert (Hvacant : AddPropertyDialog.handleSubmit elevenUTC "uuid-1" (unitOneForm "" "vacant")
                    = AddPropertyDialog.onAdd (createdBy elevenUTC (unitOneForm "" "vacant")))
    by evaluate.
  assert (Hlet : AddPropertyDialog.handleSubmit elevenUTC "uuid-1"
                   (unitOneForm "Jane" "occupied")
                 = AddPropertyDialog.onAdd (createdBy elevenUTC (unitOneForm "Jane" "occupied")))
    by evaluate.
  assert (Huser : user signedIn = Some ada) by evaluate.
  split.
  - destruct (add_default_paymentStatus elevenUTC "uuid-1" _ _ signedIn ada Hvacant Huser)
      as (created & _ & _ & _ & Hnone & _).
    destruct Hnone as [Hocc Hpay]; [reflexivity | by split].
  - destruct (add_default_paymentStatus elevenUTC "uuid-1" _ _ signedIn ada Hlet Huser)
      as (created & _ & _ & _ & _ & Hsome).
    destruct Hsome as [_ Hpay]; [discriminate | exact Hpay].
Defined.
End AddPropertyOnUnitOne.

(** ** Recording a payment *)

Section RecordPayment.
Context `{JsNumber}.
Variable clock : JsDate.Clock.

Lemma handleRecordPayment_state (payment : Js.JsObj) (st : App) (u : User) :
  user st = Some u →
  let st' := Dashboard.handleRecordPayment clock payment st in
  user st' = Some u
  ∧ notifications st' = notifications st
  ∧ payments st' = payments st ++ [Js.withField payment "userId" (Some (Js.JStr (id u)))]
  ∧ properties st' = marked clock payment <$> properties st
  ∧ localStorage st'
    = <[Dashboard.storageKeyPayments u := JArr (marked clock payment <$> properties st)]>
        (localStorage st).
Proof.
  intros Hu. unfold Dashboard.handleRecordPayment. rewrite Hu. cbn.
  repeat split; try done. apply insert_insert_eq.
Qed.

Lemma marked_fields (payment p : Js.JsObj) :
  Js.strictEq (p !! "id") (payment !! "propertyId") = true →
  marked clock payment p !! "paymentStatus" = Some (Js.JStr "paid")
  ∧ marked clock payment p !! "lastPaymentDate" = payment !! "paymentDate"
  ∧ marked clock payment p !! "nextPaymentDue"
    = Some (Js.JStr (Dashboard.nextPaymentDueOnRecord clock))
  ∧ ∀ k, k ≠ "paymentStatus" → k ≠ "lastPaymentDate" → k ≠ "nextPaymentDue" →
         marked clock payment p !! k = p !! k.
Proof.
  intros Hid. unfold marked. rewrite Hid. repeat split.
  - by rewrite !lookup_withField.
  - by rewrite !lookup_withField.
  - by rewrite !lookup_withField.
  - intros k H1 H2 H3. rewrite !lookup_withField.
    by rewrite !bool_decide_eq_false_2.
Qed.

Lemma marked_other (payment p : Js.JsObj) :
  Js.strictEq (p !! "id") (payment !! "propertyId") = false → marked clock payment p = p.
Proof. intros Hid. unfold marked. by rewrite Hid. Qed.
End RecordPayment.

Lemma nextPaymentDueOnRecord_eq (clock : JsDate.Clock) :
  Dashboard.nextPaymentDueOnRecord clock
  = JsDate.isoDay (JsDate.setMonth clock (JsDate.now clock)
                     (JsDate.getMonth clock (JsDate.now clock) + 1)).
Proof. reflexivity. Qed.

Section MarchRent.
Local Existing Instances intNumber intRuntime.

Lemma unitOne_listed : user withUnitOne = Some ada ∧ properties withUnitOne !! 0%nat = Some unitOne.
Proof. split; evaluate. Qed.

Lemma marchPayment_for_unitOne :
  Js.strictEq (unitOne !! "id") (marchPayment !! "propertyId") = true
  ∧ marchPayment !! "paymentDate" = Some (Js.JStr "2025-03-01").
Proof. split; evaluate. Qed.

(** C1, as the specification words it, fails: rent dated 2025-03-01 and
    entered on 2025-06-15 leaves nextPaymentDue at 2025-07-15, one month
    after the day of entry, and not at 2025-04-01. *)
Lemma due_not_one_month_after_payment_date : ¬ due_one_month_after_payment_date.
Proof.
  intros Hclaim.
  destruct unitOne_listed as [Huser Hfirst].
  destruct marchPayment_for_unitOne as [Hid Hdate].
  assert (Hspec : oneCalendarMonthAfter "2025-03-01" = Some "2025-04-01") by evaluate.
  assert (Hcode : Dashboard.nextPaymentDueOnRecord midJune = "2025-07-15") by evaluate.
  destruct (Hclaim intNumber midJune marchPayment withUnitOne ada 0%nat unitOne
              "2025-03-01" "2025-04-01" Huser Hfirst Hid Hdate Hspec)
    as (p' & Hp' & _ & _ & Hdue).
  destruct (handleRecordPayment_state midJune marchPayment withUnitOne ada Huser)
    as (_ & _ & _ & Hprops & _).
  rewrite Hprops, list_lookup_fmap, Hfirst in Hp'. injection Hp' as <-.
  destruct (marked_fields midJune marchPayment unitOne Hid) as (_ & _ & Hmarked & _).
  rewrite Hmarked, Hcode in Hdue. discriminate Hdue.
Qed.
End MarchRent.

(** ** What recording a payment persists *)

Section StorageKeys.
Variables u u' : User.

Lemma properties_key_not_payments :
  Dashboard.storageKeyProperties u ≠ Dashboard.storageKeyPayments u'.
Proof.
  unfold Dashboard.storageKeyProperties, Dashboard.storageKeyPayments. intros Heq.
  apply (f_equal (String.get 12)) in Heq. vm_compute in Heq. discriminate Heq.
Qed.

Lemma properties_key_not_notifications :
  Dashboard.storageKeyProperties u ≠ Dashboard.storageKeyNotifications u'.
Proof.
  unfold Dashboard.storageKeyProperties, Dashboard.storageKeyNotifications. intros Heq.
  apply (f_equal (String.get 12)) in Heq. vm_compute in Heq. discriminate Heq.
Qed.

Lemma payments_key_not_notifications :
  Dashboard.storageKeyPayments u ≠ Dashboard.storageKeyNotifications u'.
Proof.
  unfold Dashboard.storageKeyPayments, Dashboard.storageKeyNotifications. intros Heq.
  apply (f_equal (String.get 12)) in Heq. vm_compute in Heq. discriminate Heq.
Qed.
End StorageKeys.

Section Persisted.
Context `{JsRuntime}.
Variable clock : JsDate.Clock.

(** After [handleRecordPayment] the entry under the payments key holds the
    updated properties, and the entry under the properties key is the one
    from before. *)
Lemma handleRecordPayment_persisted (payment : Js.JsObj) (st : App) (u : User) :
  user st = Some u →
  let st' := Dashboard.handleRecordPayment clock payment st in
  localStorage st' !! Dashboard.storageKeyPayments u = Some (JArr (properties st'))
  ∧ localStorage st' !! Dashboard.storageKeyProperties u
    = localStorage st !! Dashboard.storageKeyProperties u.
Proof.
  intros Hu.
  destruct (handleRecordPayment_state clock payment st u Hu) as (_ & _ & _ & Hprops & Hls).
  cbv zeta. rewrite Hls, Hprops. split.
  - apply lookup_insert_eq.
  - apply lookup_insert_ne. intros Heq. symmetry in Heq.
    by apply properties_key_not_payments in Heq.
Qed.

(** The payment built by the record-payment dialog is "completed". *)
Lemma dialog_payment_completed (uuid : string) (property : Js.JsObj)
    (fd : RecordPaymentDialog.FormData) (payment : Js.JsObj) :
  RecordPaymentDialog.handleSubmit clock uuid property fd
    = RecordPaymentDialog.onRecord payment →
  payment !! "status" = Some (Js.JStr "completed").
Proof.
  unfold RecordPaymentDialog.handleSubmit.
  destruct (negb _ || negb _); [discriminate|].
  intros [= <-]. read_fields.
Qed.

(** While the page stays open, recording through the dialog keeps every
    row of the payments in memory "completed". *)
Lemma submit_keeps_completed (uuid : string) (property : Js.JsObj)
    (fd : RecordPaymentDialog.FormData) (st : App) :
  Forall (λ row : Js.JsObj, row !! "status" = Some (Js.JStr "completed")) (payments st) →
  Forall (λ row : Js.JsObj, row !! "status" = Some (Js.JStr "completed"))
    (payments (RecordPaymentDialog.submit clock uuid property fd st)).
Proof.
  intros Hall. unfold RecordPaymentDialog.submit.
  destruct (RecordPaymentDialog.handleSubmit clock uuid property fd) as [msg|payment] eqn:Hs;
    [done|].
  destruct (user st) as [u|] eqn:Hu.
  - destruct (handleRecordPayment_state clock payment st u Hu) as (_ & _ & Hpay & _).
    rewrite Hpay. apply Forall_app. split; [done|].
    apply Forall_singleton. rewrite lookup_withField. cbn.
    by eapply dialog_payment_completed.
  - unfold Dashboard.handleRecordPayment. by rewrite Hu.
Qed.
End Persisted.

Section MarchRentPersisted.
Local Existing Instances intNumber intRuntime.

(** C3, on the code. Ada's dashboard holds Unit 1, persisted with
    paymentStatus "pending"; she records the March rent. In memory the
    payment is appended and Unit 1 is marked paid, but the second write of
    the handler goes to the payments key: the persisted payments collection
    is the updated property list, not the payments, and the persisted
    properties collection still holds the stale Unit 1. *)
Theorem record_persists_properties_under_payments_key :
  payments afterMarchRent
    = payments withUnitOne ++ [Js.withField marchPayment "userId" (Some (Js.JStr "user_1"))]
  ∧ localStorage afterMarchRent !! "realestate_payments_user_1"
    = Some (JArr (properties afterMarchRent))
  ∧ localStorage afterMarchRent !! "realestate_payments_user_1"
    ≠ Some (JArr (payments afterMarchRent))
  ∧ (∃ p', properties afterMarchRent = [p']
           ∧ p' !! "paymentStatus" = Some (Js.JStr "paid"))
  ∧ localStorage afterMarchRent !! "realestate_properties_user_1" = Some (JArr [unitOne])
  ∧ unitOne !! "paymentStatus" = Some (Js.JStr "pending")
  ∧ unitOne !! "lastPaymentDate" = None.
Proof.
  split; [evaluate|]. split; [evaluate|]. split.
  { intros Heq.
    assert (Hrow : ∀ rows : list Js.JsObj,
               localStorage afterMarchRent !! "realestate_payments_user_1" = Some (JArr rows) →
               rows !! 0%nat ≫= (.!! "amount") = None).
    { intros rows Hrows.
      assert (Hstored : localStorage afterMarchRent !! "realestate_payments_user_1"
                        = Some (JArr (properties afterMarchRent))) by evaluate.
      assert (Hsame : rows = properties afterMarchRent) by congruence.
      rewrite Hsame. evaluate. }
    specialize (Hrow _ Heq).
    assert (Hamount : payments afterMarchRent !! 0%nat ≫= (.!! "amount")
                      = Some (Js.JNum 150000)) by evaluate.
    rewrite Hamount in Hrow. discriminate Hrow. }
  split; [exists (marked midJune marchPayment unitOne); split; evaluate|].
  repeat split; evaluate.
Qed.

(** C10, on the code. Every payment the dialog builds is "completed", but
    the store does not keep it that way. Ada signs up, adds Unit 1 let to
    Jane, records the March rent and opens the dashboard again: the payments
    loaded from the store are the rows of the property list, and the first
    of them has status "occupied". *)
Theorem reloaded_payments_are_property_rows :
  reachable revisit
  ∧ ∃ row : Js.JsObj, payments revisit !! 0%nat = Some row
      ∧ row !! "status" = Some (Js.JStr "occupied")
      ∧ row !! "status" ≠ Some (Js.JStr "completed")
      ∧ row !! "name" = Some (Js.JStr "Unit 1").
Proof.
  split.
  - apply reach_mount with (st := visit4); [|evaluate].
    apply reach_record with (i := 0%nat) (st := visit3); [|evaluate|evaluate].
    apply reach_add with (st := visit2).
    apply reach_mount with (st := visit1); [|evaluate].
    apply (reach_signup elevenUTC "ada@example.com" "secret" "Ada" initial).
    apply reach_initial.
  - exists (default ∅ (payments revisit !! 0%nat)).
    split; [evaluate|].
    assert (Hstatus : default ∅ (payments revisit !! 0%nat) !! "status"
                      = Some (Js.JStr "occupied")) by evaluate.
    split; [exact Hstatus|]. split; [|evaluate].
    rewrite Hstatus. discriminate.
Qed.
End MarchRentPersisted.

(** ** Sending a notification *)

Lemma trim_empty : Js.trim "" = "".
Proof. reflexivity. Qed.

Section SendNotification.
Context `{JsNumber}.
Variable clock : JsDate.Clock.
Variable fetch : Js.JsObj → option bool.

(** A submission that passes no notification to [onSend] leaves the
    state of the page and the store as they are. *)
Lemma submit_nothing_sent (uuid : string) (property : Js.JsObj)
    (subject message type recipientEmail : string) (st : App) :
  SendNotificationDialog.onSend
    (SendNotificationDialog.handleSubmit clock fetch uuid property subject message type
       recipientEmail) = [] →
  (SendNotificationDialog.submit clock fetch uuid property subject message type
     recipientEmail st).2 = st.
Proof. intros Hnone. unfold SendNotificationDialog.submit. cbn. by rewrite Hnone. Qed.

(** When the email call fails, the handler leaves through its catch block:
    the request was posted, the banner state is [error], and no
    notification reaches [onSend]. *)
Lemma email_failure_drops_notification (uuid : string) (property : Js.JsObj)
    (subject message type recipientEmail : string) (st : App) :
  Js.truthyVal (property !! "occupant") = true →
  Js.trim subject ≠ "" → Js.trim message ≠ "" →
  recipientEmail ≠ "" → Js.trim recipientEmail ≠ "" →
  (∀ data, fetch data ≠ Some true) →
  let s := SendNotificationDialog.handleSubmit clock fetch uuid property subject message
             type recipientEmail in
  SendNotificationDialog.onSend s = []
  ∧ SendNotificationDialog.sendStatus s = SendNotificationDialog.error
  ∧ List.length (SendNotificationDialog.posted s) = 1%nat
  ∧ (SendNotificationDialog.submit clock fetch uuid property subject message type
       recipientEmail st).2 = st.
Proof.
  intros Hocc Hsub Hmsg Hmail Hmailt Hfail.
  apply truthy_true in Hsub, Hmsg, Hmail, Hmailt.
  assert (Hs : SendNotificationDialog.onSend
                 (SendNotificationDialog.handleSubmit clock fetch uuid property subject
                    message type recipientEmail) = []
               ∧ SendNotificationDialog.sendStatus
                   (SendNotificationDialog.handleSubmit clock fetch uuid property subject
                      message type recipientEmail) = SendNotificationDialog.error
               ∧ List.length (SendNotificationDialog.posted
                   (SendNotificationDialog.handleSubmit clock fetch uuid property subject
                      message type recipientEmail)) = 1%nat).
  { unfold SendNotificationDialog.handleSubmit, SendNotificationDialog.sendEmailNotification.
    rewrite Hocc, Hsub, Hmsg, Hmail, Hmailt. cbn [negb orb andb].
    match goal with |- context [fetch ?d] =>
      specialize (Hfail d); destruct (fetch d) as [[|]|] end;
      [done | by cbn | by cbn]. }
  destruct Hs as (Hsend & Hstatus & Hposted). cbv zeta.
  repeat split; try done. by apply submit_nothing_sent.
Qed.
End SendNotification.

Section ReminderToJane.
Local Existing Instances intNumber intRuntime.

(** C2, on the code. Jane's email is on file, subject and message are
    filled in, and the endpoint answers with an error status. The error
    banner is shown, but the handler has left through its catch block before
    the notification record was created: nothing is passed to [onSend], and
    the notification history, in memory and in the store, is what it was. *)
Theorem failed_email_saves_no_notification :
  SendNotificationDialog.sendStatus reminderWhenEmailFails.1 = SendNotificationDialog.error
  ∧ List.length (SendNotificationDialog.posted reminderWhenEmailFails.1) = 1%nat
  ∧ SendNotificationDialog.onSend reminderWhenEmailFails.1 = []
  ∧ notifications reminderWhenEmailFails.2 = notifications withUnitOne
  ∧ notifications reminderWhenEmailFails.2 = []
  ∧ localStorage reminderWhenEmailFails.2 !! "realestate_notifications_user_1" = None
  ∧ reminderWhenEmailFails.2 = withUnitOne.
Proof.
  destruct (email_failure_drops_notification elevenUTC failingEndpoint
              "uuid-3" unitOne "Rent reminder" "Rent is due on the 1st." "reminder"
              "jane@example.com" withUnitOne)
    as (Hsend & Hstatus & Hposted & Hst);
    [evaluate | vm_compute; discriminate | vm_compute; discriminate | discriminate
    | vm_compute; discriminate | discriminate |].
  fold reminderWhenEmailFails in Hst, Hsend, Hstatus, Hposted.
  split; [exact Hstatus|]. split; [exact Hposted|]. split; [exact Hsend|].
  rewrite Hst. repeat split; evaluate.
Qed.
End ReminderToJane.

(** C9. A notification for a property with no occupant, or with an empty
    subject or an empty message, is rejected with an alert: no request is
    posted to the email endpoint, no notification is passed on, and the
    page and the store stay as they were. *)
Theorem invalid_notification_rejected `{JsRuntime} (clock : JsDate.Clock)
    (fetch : Js.JsObj → option bool) (uuid : string) (property : Js.JsObj)
    (subject message type recipientEmail : string) (st : App) :
  Js.truthyVal (property !! "occupant") = false ∨ subject = "" ∨ message = "" →
  let s := SendNotificationDialog.handleSubmit clock fetch uuid property subject message
             type recipientEmail in
  is_Some (SendNotificationDialog.alert s)
  ∧ SendNotificationDialog.posted s = []
  ∧ SendNotificationDialog.onSend s = []
  ∧ (SendNotificationDialog.submit clock fetch uuid property subject message type
       recipientEmail st).2 = st.
Proof.
  intros Hbad. cbv zeta.
  assert (Hs : is_Some (SendNotificationDialog.alert
                 (SendNotificationDialog.handleSubmit clock fetch uuid property subject
                    message type recipientEmail))
               ∧ SendNotificationDialog.posted
                   (SendNotificationDialog.handleSubmit clock fetch uuid property subject
                      message type recipientEmail) = []
               ∧ SendNotificationDialog.onSend
                   (SendNotificationDialog.handleSubmit clock fetch uuid property subject
                      message type recipientEmail) = []).
  { unfold SendNotificationDialog.handleSubmit.
    destruct (Js.truthyVal (property !! "occupant")) eqn:Hocc; cbn [negb]; [|by eauto].
    destruct Hbad as [Hbad | [-> | ->]]; [done | |].
    - rewrite trim_empty. cbn. by eauto.
    - rewrite trim_empty. rewrite orb_true_r. by eauto. }
  destruct Hs as (Halert & Hposted & Hsend).
  repeat split; try done. by apply submit_nothing_sent.
Qed.

Section RejectedNotifications.
Local Existing Instances intNumber intRuntime.

Lemma invalid_notification_rejected_witness :
  SendNotificationDialog.onSend
    (SendNotificationDialog.handleSubmit elevenUTC failingEndpoint "uuid-4"
       unitTwo "Hello" "Welcome" "general" "") = []
  ∧ SendNotificationDialog.posted
      (SendNotificationDialog.handleSubmit elevenUTC failingEndpoint "uuid-4"
         unitOne "" "Welcome" "general" "jane@example.com") = [].
Proof.
  assert (Hvacant : Js.truthyVal (unitTwo !! "occupant") = false) by evaluate.
  split.
  - destruct (invalid_notification_rejected elevenUTC failingEndpoint
                "uuid-4" unitTwo "Hello" "Welcome" "general" "" withUnitOne
                (or_introl Hvacant)) as (_ & _ & Hsend & _).
    exact Hsend.
  - destruct (invalid_notification_rejected elevenUTC failingEndpoint
                "uuid-4" unitOne "" "Welcome" "general" "jane@example.com" withUnitOne
                (or_intror (or_introl eq_refl))) as (_ & Hposted & _ & _).
    exact Hposted.
Defined.
End RejectedNotifications.

(** ** Deleting a property *)

Section FilterOnce.
Context {A : Type} (f : A → bool).

Lemma filter_none_keeps_all (l : list A) :
  filter (λ x, f x = true) l = [] → filter (λ x, f x = false) l = l.
Proof.
  induction l as [|a l IH]; [done|].
  destruct (f a) eqn:Ha.
  - rewrite filter_cons_True by done. discriminate.
  - rewrite filter_cons_False by (rewrite Ha; done).
    rewrite (filter_cons_True (λ x, f x = false)) by done.
    intros Hnil. by rewrite IH.
Qed.

Lemma filter_once (l : list A) :
  List.length (filter (λ x, f x = true) l) = 1%nat →
  ∃ before x after,
    l = before ++ x :: after ∧ f x = true
    ∧ filter (λ x, f x = false) l = before ++ after
    ∧ Forall (λ y, f y = false) (before ++ after).
Proof.
  induction l as [|a l IH]; [discriminate|].
  destruct (f a) eqn:Ha.
  - rewrite filter_cons_True by done. intros Hlen.
    assert (Hnil : filter (λ x, f x = true) l = []).
    { apply nil_length_inv. cbn in Hlen. congruence. }
    exists [], a, l. split; [done|]. split; [done|].
    rewrite filter_cons_False by (rewrite Ha; done).
    rewrite (filter_none_keeps_all l Hnil). split; [done|].
    rewrite <- (filter_none_keeps_all l Hnil). apply Forall_forall.
    intros y Hy. by apply list_elem_of_filter in Hy as [Hy _].
  - rewrite filter_cons_False by (rewrite Ha; done). intros Hlen.
    destruct (IH Hlen) as (before & x & after & Hsplit & Hx & Hrest & Hothers).
    exists (a :: before), x, after. split; [by rewrite Hsplit|]. split; [done|].
    rewrite filter_cons_True by done. split; [by rewrite Hrest|].
    by apply Forall_cons.
Qed.
End FilterOnce.

(** C6. When exactly one property of the signed-in user's set has the id,
    [delete(id)] removes that property, keeps every other property in place
    and in order, in memory and in the persisted properties collection, and
    changes neither the payments nor the notifications nor any other entry of
    the store. *)
Theorem delete_removes_exactly_one `{JsRuntime} (id : string) (st : App) (u : User) :
  user st = Some u →
  List.length (filter (λ p : Js.JsObj, Js.strictEq (p !! "id") (Some (Js.JStr id)) = true)
                 (properties st)) = 1%nat →
  ∃ before p after,
    properties st = before ++ p :: after
    ∧ p !! "id" = Some (Js.JStr id)
    ∧ Forall (λ q : Js.JsObj, q !! "id" ≠ Some (Js.JStr id)) (before ++ after)
    ∧ properties (Dashboard.handleDeleteProperty id st) = before ++ after
    ∧ payments (Dashboard.handleDeleteProperty id st) = payments st
    ∧ notifications (Dashboard.handleDeleteProperty id st) = notifications st
    ∧ user (Dashboard.handleDeleteProperty id st) = user st
    ∧ localStorage (Dashboard.handleDeleteProperty id st) !! Dashboard.storageKeyProperties u
      = Some (JArr (before ++ after))
    ∧ ∀ key, key ≠ Dashboard.storageKeyProperties u →
        localStorage (Dashboard.handleDeleteProperty id st) !! key = localStorage st !! key.
Proof.
  intros Hu Honce.
  destruct (filter_once (λ p : Js.JsObj, Js.strictEq (p !! "id") (Some (Js.JStr id)))
              (properties st) Honce) as (before & p & after & Hsplit & Hp & Hrest & Hothers).
  exists before, p, after.
  unfold Dashboard.handleDeleteProperty. rewrite Hu. cbn. rewrite Hrest.
  split; [done|]. split; [by apply strictEq_string|]. split.
  { eapply Forall_impl; [exact Hothers|]. intros q Hq Hid.
    apply strictEq_string in Hid. congruence. }
  repeat split; try done.
  - apply lookup_insert_eq.
  - intros key Hkey. by apply lookup_insert_ne.
Qed.

Section DeleteUnitOne.
Local Existing Instances intNumber intRuntime.

Example delete_unitOne :
  properties (Dashboard.handleDeleteProperty "uuid-1" twoUnits) = [unitTwo]
  ∧ localStorage (Dashboard.handleDeleteProperty "uuid-1" twoUnits)
      !! "realestate_properties_user_1" = Some (JArr [unitTwo])
  ∧ localStorage (Dashboard.handleDeleteProperty "uuid-1" twoUnits)
      !! "realestate_payments_user_1" = Some (JArr [marchPayment]).
Proof. repeat split; evaluate. Qed.

Lemma delete_removes_exactly_one_witness :
  ∃ before p after,
    properties twoUnits = before ++ p :: after
    ∧ p !! "id" = Some (Js.JStr "uuid-1")
    ∧ properties (Dashboard.handleDeleteProperty "uuid-1" twoUnits) = before ++ after
    ∧ payments (Dashboard.handleDeleteProperty "uuid-1" twoUnits) = payments twoUnits
    ∧ notifications (Dashboard.handleDeleteProperty "uuid-1" twoUnits)
      = notifications twoUnits.
Proof.
  assert (Huser : user twoUnits = Some ada) by evaluate.
  assert (Honce : List.length
                    (filter (λ p : Js.JsObj,
                               Js.strictEq (p !! "id") (Some (Js.JStr "uuid-1")) = true)
                       (properties twoUnits)) = 1%nat) by evaluate.
  destruct (delete_removes_exactly_one "uuid-1" twoUnits ada Huser Honce)
    as (before & p & after & Hsplit & Hp & _ & Hprops & Hpay & Hnot & _).
  exists before, p, after.
  split; [exact Hsplit|]. split; [exact Hp|]. split; [exact Hprops|].
  split; [exact Hpay | exact Hnot].
Defined.
End DeleteUnitOne.

(** ** Signing up *)

(** C8. Signing up with an email that a stored user already has fails with
    the duplicate-email error and changes nothing: the session, the user
    list and the rest of the state are the ones from before. *)
Theorem signup_duplicate_email_rejected `{JsRuntime} (clock : JsDate.Clock)
    (email password name : string) (st : App) (users : list Js.JsObj) (existing : Js.JsObj) :
  localStorage st !! "realestate_users" = Some (JArr users) →
  existing ∈ users →
  existing !! "email" = Some (Js.JStr email) →
  Auth.signup clock email password name st
  = ({| Auth.success := false; Auth.error := Some "Email already registered" |}, st).
Proof.
  intros Hstore Hin Hemail. unfold Auth.signup. rewrite Hstore.
  destruct (find _ users) as [found|] eqn:Hfind; [reflexivity|].
  exfalso. apply list_elem_of_In in Hin.
  pose proof (find_none _ _ Hfind existing Hin) as Hno. cbn in Hno.
  rewrite Hemail in Hno. apply (proj2 (strictEq_string _ _)) in Hemail as Hyes.
  rewrite Hemail in Hyes. congruence.
Qed.

Section SignupAsAda.
Local Existing Instances intNumber intRuntime.

Lemma signup_duplicate_email_rejected_witness :
  Auth.signup midJune "ada@example.com" "guess" "Eve" twoUnits
  = ({| Auth.success := false; Auth.error := Some "Email already registered" |}, twoUnits)
  ∧ user twoUnits = Some ada.
Proof.
  split; [|evaluate].
  apply (signup_duplicate_email_rejected midJune "ada@example.com" "guess"
           "Eve" twoUnits [Auth.userObject ada] (Auth.userObject ada)).
  - evaluate.
  - apply list_elem_of_here.
  - evaluate.
Defined.
End SignupAsAda.


(** ** Lease expiry *)

Lemma ceilDiv_spec (a b : Z) :
  0 < b → (Utils.ceilDiv a b - 1) * b < a ≤ Utils.ceilDiv a b * b.
Proof.
  intros Hb. unfold Utils.ceilDiv.
  pose proof (Z.div_mod (- a) b) as Hdiv.
  pose proof (Z.mod_pos_bound (- a) b Hb) as Hmod.
  nia.
Qed.

Section LeaseExpiry.
Context `{JsRuntime}.
Variable clock : JsDate.Clock.

Lemma getDaysUntilExpiry_parsed (leaseEndDate : string) (endDate : Z) :
  leaseEndDate ≠ "" →
  Date_parse leaseEndDate = Some endDate →
  Utils.getDaysUntilExpiry clock (Some leaseEndDate)
  = Utils.days (Utils.ceilDiv (endDate - JsDate.now clock) JsDate.msPerDay).
Proof.
  intros Hs Hparse. unfold Utils.getDaysUntilExpiry.
  apply truthy_true in Hs. rewrite Hs, Hparse. reflexivity.
Qed.

Lemma getDaysUntilExpiry_invalid (leaseEndDate : string) :
  leaseEndDate ≠ "" →
  Date_parse leaseEndDate = None →
  Utils.getDaysUntilExpiry clock (Some leaseEndDate) = Utils.NaN.
Proof.
  intros Hs Hparse. unfold Utils.getDaysUntilExpiry.
  apply truthy_true in Hs. by rewrite Hs, Hparse.
Qed.

(** The statistics card and [isLeaseExpiringSoon] with its default
    threshold apply the same test. *)
Lemma expiring_isLeaseExpiringSoon (p : Js.JsObj) :
  PropertyStats.expiring clock p
  = Utils.isLeaseExpiringSoon clock (Js.asString (p !! "leaseEndDate"))
      Utils.daysThresholdDefault.
Proof.
  unfold PropertyStats.expiring, Utils.isLeaseExpiringSoon, Utils.daysThresholdDefault.
  by destruct (Utils.getDaysUntilExpiry clock _).
Qed.

(** Expiring soon, in time values: the lease ends after now and at most
    thirty days from now. *)
Lemma isLeaseExpiringSoon_window (leaseEndDate : string) (endDate : Z) :
  leaseEndDate ≠ "" →
  Date_parse leaseEndDate = Some endDate →
  Utils.isLeaseExpiringSoon clock (Some leaseEndDate) Utils.daysThresholdDefault = true
  ↔ JsDate.now clock < endDate ≤ JsDate.now clock + 30 * JsDate.msPerDay.
Proof.
  intros Hs Hparse. unfold Utils.isLeaseExpiringSoon, Utils.daysThresholdDefault.
  rewrite (getDaysUntilExpiry_parsed _ _ Hs Hparse).
  pose proof (ceilDiv_spec (endDate - JsDate.now clock) JsDate.msPerDay eq_refl) as Hceil.
  rewrite andb_true_iff, Z.ltb_lt, Z.leb_le. unfold JsDate.msPerDay in *. lia.
Qed.
End LeaseExpiry.

(** C7. For a property with a lease end date, the days until expiry are
    the ceiling of (leaseEndDate - today) / one day, and the property is
    expiring soon, for [isLeaseExpiringSoon] and for the statistics card
    alike, exactly when 0 < days ≤ 30: a lease ending 10 days from now is
    expiring soon, one ending 31 days from now or in the past is not. A
    property without a lease end date is never expiring soon. *)
Theorem lease_expiry_window `{JsRuntime} (clock : JsDate.Clock) :
  (∀ (p : Js.JsObj) (leaseEndDate : string) (endDate : Z),
     p !! "leaseEndDate" = Some (Js.JStr leaseEndDate) →
     leaseEndDate ≠ "" →
     Date_parse leaseEndDate = Some endDate →
     ∃ d : Z,
       Utils.getDaysUntilExpiry clock (Some leaseEndDate) = Utils.days d
       ∧ (d - 1) * JsDate.msPerDay < endDate - JsDate.now clock ≤ d * JsDate.msPerDay
       ∧ (Utils.isLeaseExpiringSoon clock (Some leaseEndDate) Utils.daysThresholdDefault
          = true ↔ 0 < d ≤ 30)
       ∧ (PropertyStats.expiring clock p = true ↔ 0 < d ≤ 30)
       ∧ (endDate = JsDate.now clock + 10 * JsDate.msPerDay →
          PropertyStats.expiring clock p = true)
       ∧ (endDate = JsDate.now clock + 31 * JsDate.msPerDay →
          PropertyStats.expiring clock p = false)
       ∧ (endDate < JsDate.now clock → PropertyStats.expiring clock p = false))
  ∧ (∀ (p : Js.JsObj) (daysThreshold : Z),
       p !! "leaseEndDate" = None →
       Utils.getDaysUntilExpiry clock (Js.asString (p !! "leaseEndDate")) = Utils.null
       ∧ Utils.isLeaseExpiringSoon clock (Js.asString (p !! "leaseEndDate")) daysThreshold
         = false
       ∧ PropertyStats.expiring clock p = false).
Proof.
  split.
  - intros p leaseEndDate endDate Hfield Hs Hparse.
    exists (Utils.ceilDiv (endDate - JsDate.now clock) JsDate.msPerDay).
    pose proof (ceilDiv_spec (endDate - JsDate.now clock) JsDate.msPerDay eq_refl) as Hceil.
    assert (Hsoon : Utils.isLeaseExpiringSoon clock (Some leaseEndDate)
                      Utils.daysThresholdDefault = true
                    ↔ 0 < Utils.ceilDiv (endDate - JsDate.now clock) JsDate.msPerDay ≤ 30).
    { unfold Utils.isLeaseExpiringSoon, Utils.daysThresholdDefault.
      rewrite (getDaysUntilExpiry_parsed clock _ _ Hs Hparse).
      rewrite andb_true_iff, Z.ltb_lt, Z.leb_le. reflexivity. }
    assert (Hcard : PropertyStats.expiring clock p
                    = Utils.isLeaseExpiringSoon clock (Some leaseEndDate)
                        Utils.daysThresholdDefault).
    { rewrite expiring_isLeaseExpiringSoon, Hfield. reflexivity. }
    pose proof (isLeaseExpiringSoon_window clock _ _ Hs Hparse) as Hwindow.
    split; [by apply getDaysUntilExpiry_parsed|]. split; [exact Hceil|].
    split; [exact Hsoon|]. split; [by rewrite Hcard|].
    rewrite Hcard. unfold JsDate.msPerDay in *. repeat split.
    + intros ->. apply Hwindow. lia.
    + intros ->. apply not_true_is_false. intros Htrue. apply Hwindow in Htrue. lia.
    + intros Hpast. apply not_true_is_false. intros Htrue. apply Hwindow in Htrue. lia.
  - intros p daysThreshold Hnone.
    rewrite expiring_isLeaseExpiringSoon, Hnone. by repeat split.
Qed.

Section LeaseOfUnitThree.
Local Existing Instances intNumber intRuntime.

(** On 2025-03-15 at 11:00 UTC, a lease ending on 2025-03-25 has ten days
    to go. *)
Lemma lease_expiry_window_witness :
  ∃ d : Z,
    Utils.getDaysUntilExpiry elevenUTC (Some "2025-03-25") = Utils.days d
    ∧ d = 10
    ∧ Utils.isLeaseExpiringSoon elevenUTC (Some "2025-03-25") Utils.daysThresholdDefault
      = true.
Proof.
  assert (Hfield : unitThree !! "leaseEndDate" = Some (Js.JStr "2025-03-25")) by evaluate.
  assert (Hparse : Date_parse "2025-03-25" = Some 1742860800000) by evaluate.
  destruct (lease_expiry_window elevenUTC) as [Hdated _].
  destruct (Hdated unitThree "2025-03-25" 1742860800000 Hfield ltac:(discriminate) Hparse)
    as (d & Hdays & Hceil & Hsoon & _).
  assert (Hd : d = 10) by (change (JsDate.now elevenUTC) with 1742036400000 in Hceil;
                           unfold JsDate.msPerDay in Hceil; lia).
  exists d. split; [exact Hdays|]. split; [exact Hd|]. apply Hsoon. lia.
Defined.
End LeaseOfUnitThree.

(** ** The calendar *)

Section CalendarFacts.
Import Calendar.

(** Deciding the comparisons of a goal. *)
Ltac booleans :=
  repeat match goal with
  | |- context [?a <=? ?b] => destruct (Z.leb_spec a b)
  | |- context [?a <? ?b] => destruct (Z.ltb_spec a b)
  | |- context [?a =? ?b] => destruct (Z.eqb_spec a b)
  end.


Lemma yearOfEra_inverse (yoe doy : Z) :
  0 ≤ yoe ≤ 399 → 0 ≤ doy ≤ 365 → (doy = 365 → leapAfter yoe) →
  let doe := yoe * 365 + yoe / 4 - yoe / 100 + doy in
  0 ≤ doe < 146097
  ∧ (doe - doe / 1460 + doe / 36524 - doe / 146096) / 365 = yoe.
Proof.
  unfold leapAfter. cbv zeta. intros Hyoe Hdoy Hleap.
  (split; Z.div_mod_to_equations; lia).
Qed.

Lemma month_inverse (mp d : Z) :
  0 ≤ mp ≤ 11 → 1 ≤ d ≤ 31 →
  (mp = 1 ∨ mp = 3 ∨ mp = 6 ∨ mp = 8 → d ≤ 30) → (mp = 11 → d ≤ 29) →
  let doy := (153 * mp + 2) / 5 + d - 1 in
  (5 * doy + 2) / 153 = mp ∧ doy - (153 * mp + 2) / 5 + 1 = d ∧ 0 ≤ doy ≤ 365
  ∧ (doy = 365 → mp = 11 ∧ d = 29).
Proof.
  cbv zeta. intros Hmp Hd H30 H29.
  (repeat split; Z.div_mod_to_equations; lia).
Qed.

Lemma yearOfEra_range (doe : Z) : 0 ≤ doe < 146097 →
  let yoe := (doe - doe / 1460 + doe / 36524 - doe / 146096) / 365 in
  let doy := doe - (365 * yoe + yoe / 4 - yoe / 100) in
  0 ≤ yoe ≤ 399 ∧ 0 ≤ doy ≤ 365 ∧ (doy = 365 → leapAfter yoe).
Proof.
  unfold leapAfter. cbv zeta. intros H.
  (repeat split; Z.div_mod_to_equations; lia).
Qed.

Lemma month_range (doy : Z) : 0 ≤ doy ≤ 365 →
  let mp := (5 * doy + 2) / 153 in
  let d := doy - (153 * mp + 2) / 5 + 1 in
  0 ≤ mp ≤ 11 ∧ 1 ≤ d ≤ 31 ∧ (mp = 1 ∨ mp = 3 ∨ mp = 6 ∨ mp = 8 → d ≤ 30)
  ∧ (mp = 11 → d ≤ 29 ∧ (d = 29 → doy = 365))
  ∧ (153 * mp + 2) / 5 + d - 1 = doy.
Proof.
  cbv zeta. intros H.
  (repeat split; Z.div_mod_to_equations; lia).
Qed.

Lemma daysInMonth_spec (y m : Z) :
  28 ≤ JsDate.daysInMonth y m ≤ 31
  ∧ (m = 4 ∨ m = 6 ∨ m = 9 ∨ m = 11 → JsDate.daysInMonth y m = 30)
  ∧ (m = 2 → JsDate.daysInMonth y m ≤ 29
       ∧ (JsDate.daysInMonth y m = 29
          ↔ y mod 4 = 0 ∧ (y mod 100 ≠ 0 ∨ y mod 400 = 0)))
  ∧ (m ≠ 2 → m ≠ 4 → m ≠ 6 → m ≠ 9 → m ≠ 11 → JsDate.daysInMonth y m = 31).
Proof.
  unfold JsDate.daysInMonth, JsDate.isLeapYear.
  booleans; cbn [andb orb negb]; Z.div_mod_to_equations; lia.
Qed.

Lemma daysInMonth_bounds (y m : Z) : 28 ≤ JsDate.daysInMonth y m ≤ 31.
Proof. apply daysInMonth_spec. Qed.


(** The civil date of the day number of a date is that date. *)
Lemma civilFromDays_daysFromCivil (y m d : Z) :
  1 ≤ m ≤ 12 → 1 ≤ d ≤ JsDate.daysInMonth y m →
  JsDate.civilFromDays (JsDate.daysFromCivil y m d) = (y, m, d).
Proof.
  intros Hm Hd. destruct (daysInMonth_spec y m) as (Hdim & H30 & HFeb & H31).
  unfold JsDate.civilFromDays, JsDate.daysFromCivil. cbv zeta.
  set (y' := if m <=? 2 then y - 1 else y).
  set (mp := if 2 <? m then m - 3 else m + 9).
  assert (Hy' : (m ≤ 2 → y = y' + 1) ∧ (2 < m → y = y'))
    by (subst y'; clear; booleans; lia).
  assert (Hmp : 0 ≤ mp ≤ 11 ∧ (mp = 11 ↔ m = 2) ∧ (mp < 10 → m = mp + 3)
                ∧ (10 ≤ mp → m = mp - 9)
                ∧ (mp = 1 ∨ mp = 3 ∨ mp = 6 ∨ mp = 8 → m = 4 ∨ m = 6 ∨ m = 9 ∨ m = 11))
    by (subst mp; clear -Hm; booleans; lia).
  clearbody y' mp. destruct Hmp as (Hmp & Hmp11 & Hlow & Hhigh & Hmp30).
  set (era := y' / 400). set (yoe := y' - era * 400).
  assert (Hyoe : 0 ≤ yoe ≤ 399) by (subst yoe era; clear; Z.div_mod_to_equations; lia).
  assert (Hyear : y' = yoe + era * 400) by (subst yoe; clear; lia).
  clearbody yoe. clearbody era.
  destruct (month_inverse mp d) as (Hmp' & Hd' & Hdoy & H365).
  { exact Hmp. }
  { clear -Hd Hdim. lia. }
  { intros Hshort. rewrite (H30 (Hmp30 Hshort)) in Hd. clear -Hd. lia. }
  { intros HisFeb. apply Hmp11 in HisFeb. destruct (HFeb HisFeb) as [H29 _].
    clear -Hd H29. lia. }
  set (doy := (153 * mp + 2) / 5 + d - 1) in *. clearbody doy.
  destruct (yearOfEra_inverse yoe doy Hyoe Hdoy) as (Hdoe & Hyoe').
  { intros Hlast. destruct (H365 Hlast) as [HisFeb Hd29].
    apply Hmp11 in HisFeb. destruct (HFeb HisFeb) as [_ Hleap].
    assert (Hdim29 : JsDate.daysInMonth y m = 29) by (clear -Hd Hd29 HFeb HisFeb; 
      destruct (HFeb HisFeb); lia).
    apply Hleap in Hdim29. unfold leapAfter.
    assert (Hy : y = yoe + era * 400 + 1) by (destruct Hy' as [Hy' _]; rewrite <- Hyear;
      apply Hy'; clear -HisFeb; lia).
    rewrite Hy in Hdim29. clear -Hdim29. Z.div_mod_to_equations. lia. }
  set (doe := yoe * 365 + yoe / 4 - yoe / 100 + doy) in *.
  assert (Hdoy2 : doe - (365 * yoe + yoe / 4 - yoe / 100) = doy) by (subst doe; clear; lia).
  clearbody doe.
  replace (era * 146097 + doe - 719468 + 719468) with (doe + era * 146097) by (clear; lia).
  rewrite Z.div_add by done. rewrite (Z.div_small doe 146097) by exact Hdoe.
  replace (doe + era * 146097 - (0 + era) * 146097) with doe by (clear; lia).
  rewrite Hyoe', Hdoy2, Hmp', Hd'.
  destruct (Z.ltb_spec mp 10) as [Hlt|Hge].
  - rewrite <- (Hlow Hlt). destruct (Z.leb_spec m 2); [clear -Hlt Hlow H Hmp; lia|].
    destruct Hy' as [_ Hy']. rewrite (Hy' ltac:(done)), Hyear. reflexivity.
  - rewrite <- (Hhigh Hge). destruct (Z.leb_spec m 2); [|clear -Hge Hhigh H Hmp; lia].
    destruct Hy' as [Hy' _]. rewrite (Hy' ltac:(done)), Hyear. reflexivity.
Qed.

(** The civil date of a day number exists, and the day number is the one
    of that date. *)
Lemma daysFromCivil_civilFromDays (z : Z) :
  1 ≤ (JsDate.civilFromDays z).1.2 ≤ 12
  ∧ 1 ≤ (JsDate.civilFromDays z).2
      ≤ JsDate.daysInMonth (JsDate.civilFromDays z).1.1 (JsDate.civilFromDays z).1.2
  ∧ JsDate.daysFromCivil (JsDate.civilFromDays z).1.1 (JsDate.civilFromDays z).1.2
      (JsDate.civilFromDays z).2 = z.
Proof.
  unfold JsDate.civilFromDays. cbv zeta.
  set (era := (z + 719468) / 146097).
  set (doe := z + 719468 - era * 146097).
  assert (Hdoe : 0 ≤ doe < 146097) by (subst doe era; Z.div_mod_to_equations; lia).
  assert (Hz : z = era * 146097 + doe - 719468) by (subst doe; lia).
  clearbody doe. clearbody era.
  destruct (yearOfEra_range doe Hdoe) as (Hyoe & Hdoy & Hleap).
  set (yoe := (doe - doe / 1460 + doe / 36524 - doe / 146096) / 365) in *.
  set (doy := doe - (365 * yoe + yoe / 4 - yoe / 100)) in *.
  assert (Hdoy_eq : yoe * 365 + yoe / 4 - yoe / 100 + doy = doe) by (subst doy; lia).
  clearbody doy. clearbody yoe.
  destruct (month_range doy Hdoy) as (Hmp & Hd & H30 & HFeb & Hback).
  set (mp := (5 * doy + 2) / 153) in *.
  set (d := doy - (153 * mp + 2) / 5 + 1) in *.
  clearbody d. clearbody mp.
  set (m := if mp <? 10 then mp + 3 else mp - 9).
  assert (Hm : mp = (if 2 <? m then m - 3 else m + 9) ∧ 1 ≤ m ≤ 12
               ∧ (m = 2 ↔ mp = 11)
               ∧ (m = 4 ∨ m = 6 ∨ m = 9 ∨ m = 11 → mp = 1 ∨ mp = 3 ∨ mp = 6 ∨ mp = 8)).
  { subst m. clear -Hmp. (booleans; lia). }
  clearbody m. destruct Hm as (Hmpm & Hmrange & Hm2 & Hm30).
  set (y := if m <=? 2 then yoe + era * 400 + 1 else yoe + era * 400).
  assert (Hy : (if m <=? 2 then y - 1 else y) = yoe + era * 400
               ∧ (m = 2 → y = yoe + era * 400 + 1)).
  { subst y. clear. (booleans; lia). }
  clearbody y. destruct Hy as (Hy' & HyFeb).
  cbn [fst snd].
  destruct (daysInMonth_spec y m) as (Hdim & Hdim30 & HdimFeb & Hdim31).
  split; [done|]. split.
  - split; [lia|].
    destruct (decide (m = 2)) as [HisFeb|HnotFeb].
    + destruct (HFeb (proj1 Hm2 HisFeb)) as [H29 Hlast].
      destruct (decide (d = 29)) as [Hd29|]; [|clear -Hdim n H29; lia].
      assert (Hleapy : JsDate.daysInMonth y m = 29); [|clear -Hleapy H29; lia].
      apply HdimFeb; [done|]. specialize (Hleap (Hlast Hd29)). unfold leapAfter in Hleap.
      rewrite (HyFeb HisFeb). clear -Hleap. (Z.div_mod_to_equations; lia).
    + destruct (decide (m = 4 ∨ m = 6 ∨ m = 9 ∨ m = 11)) as [H30m|Hlong].
      * rewrite (Hdim30 H30m). apply H30. by apply Hm30.
      * rewrite Hdim31 by (clear -Hlong HnotFeb; lia). clear -Hd. lia.
  - unfold JsDate.daysFromCivil. cbv zeta.
    rewrite Hy', <- Hmpm.
    replace ((yoe + era * 400) / 400) with era
      by (clear -Hyoe; Z.div_mod_to_equations; lia).
    replace (yoe + era * 400 - era * 400) with yoe by (clear; lia).
    rewrite Hback, Hdoy_eq. clear -Hz. lia.
Qed.

(** The day after the last day of a month is the first day of the month
    that follows. *)
Lemma first_of_following_month (y m : Z) :
  1 ≤ m ≤ 12 →
  JsDate.daysFromCivil (followingMonth y m).1 (followingMonth y m).2 1
  = JsDate.daysFromCivil y m (JsDate.daysInMonth y m) + 1.
Proof.
  intros Hm. destruct (daysInMonth_spec y m) as (Hdim & H30 & HFeb & H31).
  unfold followingMonth, JsDate.daysFromCivil. cbv zeta.
  set (dim := JsDate.daysInMonth y m) in *. clearbody dim.
  destruct (Z.eqb_spec m 12) as [->|Hnot12]; cbn [fst snd].
  - (booleans; try lia; Z.div_mod_to_equations; lia).
  - (assert (Hcases : m = 1 ∨ m = 2 ∨ m = 3 ∨ m = 4 ∨ m = 5 ∨ m = 6 ∨ m = 7 ∨ m = 8
                     ∨ m = 9 ∨ m = 10 ∨ m = 11) by lia;
    destruct Hcases as [->|[->|[->|[->|[->|[->|[->|[->|[->|[->| ->]]]]]]]]]];
      booleans; try lia; Z.div_mod_to_equations; lia).
Qed.
End CalendarFacts.

(** ** Dates as text *)

Section DateText.
Import Calendar.

Lemma free_app (sep : ascii) (s t : string) :
  free sep (s +:+ t) = free sep s && free sep t.
Proof.
  induction s as [|c s IH]; [done|].
  change (String c s +:+ t) with (String c (s +:+ t)). cbn [free].
  by rewrite IH, andb_assoc.
Qed.

Lemma splitHead_free (sep : ascii) (s t : string) :
  free sep s = true → Js.splitHead sep (s +:+ String sep t) = s.
Proof.
  induction s as [|c s IH]; intros Hfree.
  - change ("" +:+ String sep t) with (String sep t). cbn [Js.splitHead].
    by rewrite bool_decide_eq_true_2.
  - change (String c s +:+ String sep t) with (String c (s +:+ String sep t)).
    cbn [free] in Hfree. apply andb_true_iff in Hfree as [Hc Hs].
    cbn [Js.splitHead]. apply negb_true_iff in Hc. rewrite Hc. by rewrite IH.
Qed.

Lemma free_digit (d : Z) : 0 ≤ d < 10 → free "T" (String (JsDate.digit d) "") = true.
Proof.
  intros Hd.
  assert (Hcases : d = 0 ∨ d = 1 ∨ d = 2 ∨ d = 3 ∨ d = 4 ∨ d = 5 ∨ d = 6 ∨ d = 7 ∨ d = 8
                   ∨ d = 9) by lia.
  repeat (destruct Hcases as [-> | Hcases]; [reflexivity|]). by subst.
Qed.

Lemma free_digits (width : nat) (n : Z) : free "T" (JsDate.digits width n) = true.
Proof.
  revert n. induction width as [|w IH]; intros n; [done|].
  cbn [JsDate.digits]. rewrite free_app, IH, free_digit; [done|].
  apply Z.mod_pos_bound. lia.
Qed.

Lemma free_isoDateOf (y m d : Z) : free "T" (JsDate.isoDateOf y m d) = true.
Proof.
  unfold JsDate.isoDateOf, JsDate.isoYear.
  destruct (_ && _); [|destruct (y <? 0)];
    rewrite !free_app, !free_digits; reflexivity.
Qed.

(** The day part of [toISOString] is the UTC calendar date. *)
Lemma isoDay_civil (t : Z) :
  JsDate.isoDay t
  = JsDate.isoDateOf (JsDate.civilFromDays (JsDate.Day t)).1.1
      (JsDate.civilFromDays (JsDate.Day t)).1.2 (JsDate.civilFromDays (JsDate.Day t)).2.
Proof.
  unfold JsDate.isoDay, JsDate.toISOString, JsDate.YearFromTime, JsDate.MonthFromTime,
    JsDate.DateFromTime. cbv zeta.
  replace ((JsDate.civilFromDays (JsDate.Day t)).1.2 - 1 + 1)
    with ((JsDate.civilFromDays (JsDate.Day t)).1.2) by lia.
  match goal with
  | |- Js.splitHead _ (?date +:+ "T" +:+ ?rest) = _ =>
      change (date +:+ "T" +:+ rest) with (date +:+ String "T" rest)
  end.
  apply splitHead_free, free_isoDateOf.
Qed.

Lemma Day_within (day w : Z) :
  0 ≤ w < JsDate.msPerDay → JsDate.Day (day * JsDate.msPerDay + w) = day.
Proof.
  intros Hw. unfold JsDate.Day, JsDate.msPerDay in *.
  rewrite Z.add_comm, Z.div_add by lia. rewrite Z.div_small by lia. lia.
Qed.

Lemma TimeWithinDay_within (day w : Z) :
  0 ≤ w < JsDate.msPerDay → JsDate.TimeWithinDay (day * JsDate.msPerDay + w) = w.
Proof.
  intros Hw. unfold JsDate.TimeWithinDay, JsDate.msPerDay in *.
  rewrite Z.add_comm, Z.mod_add by lia. by apply Z.mod_small.
Qed.

(** [MakeDay] with the month index after month [m] (1..12) of year [y]:
    the days carry on from the first of the following month. *)
Lemma MakeDay_following (y m d : Z) :
  1 ≤ m ≤ 12 →
  JsDate.MakeDay y m d
  = JsDate.daysFromCivil (followingMonth y m).1 (followingMonth y m).2 1 + d - 1.
Proof.
  intros Hm. unfold JsDate.MakeDay, followingMonth. cbv zeta.
  destruct (m =? 12) eqn:Hlast.
  - apply Z.eqb_eq in Hlast as ->. reflexivity.
  - apply Z.eqb_neq in Hlast.
    rewrite Z.div_small, Z.mod_small by lia. cbn [fst snd].
    by replace (y + 0) with y by lia.
Qed.

Lemma daysFromCivil_day (y m d : Z) :
  JsDate.daysFromCivil y m d = JsDate.daysFromCivil y m 1 + d - 1.
Proof. unfold JsDate.daysFromCivil. lia. Qed.

Lemma followingMonth_month (y m : Z) : 1 ≤ m ≤ 12 → 1 ≤ (followingMonth y m).2 ≤ 12.
Proof.
  intros Hm. unfold followingMonth. destruct (m =? 12) eqn:Hlast; cbn [snd]; [lia|].
  apply Z.eqb_neq in Hlast. lia.
Qed.
End DateText.

(** ** The due dates, by time zone *)

Section DueDates.
Import Calendar.
Variable clock : JsDate.Clock.

(** The local calendar month of a time value, counted from 1. *)
Lemma local_month_range (t : Z) : 1 ≤ JsDate.getMonth clock t + 1 ≤ 12.
Proof.
  unfold JsDate.getMonth, JsDate.MonthFromTime.
  pose proof (daysFromCivil_civilFromDays (JsDate.Day (JsDate.LocalTime clock t))). lia.
Qed.

Lemma local_date_range (t : Z) :
  1 ≤ JsDate.DateFromTime (JsDate.LocalTime clock t)
    ≤ JsDate.daysInMonth (JsDate.getFullYear clock t) (JsDate.getMonth clock t + 1).
Proof.
  unfold JsDate.getFullYear, JsDate.getMonth, JsDate.MonthFromTime, JsDate.YearFromTime,
    JsDate.DateFromTime.
  pose proof (daysFromCivil_civilFromDays (JsDate.Day (JsDate.LocalTime clock t))) as Hvalid.
  replace ((JsDate.civilFromDays (JsDate.Day (JsDate.LocalTime clock t))).1.2 - 1 + 1)
    with ((JsDate.civilFromDays (JsDate.Day (JsDate.LocalTime clock t))).1.2) by lia.
  lia.
Qed.

(** [new Date(year, month + 1, 1)] of the add dialog is the instant of
    local midnight on the first day of the month that follows the current
    local month. *)
Lemma newDate_first_of_following (t : Z) :
  let y := JsDate.getFullYear clock t in
  let m := JsDate.getMonth clock t + 1 in
  ¬ (0 ≤ y ≤ 99) →
  JsDate.newDate clock y (JsDate.getMonth clock t + 1) 1
  = JsDate.UTC clock
      (JsDate.daysFromCivil (followingMonth y m).1 (followingMonth y m).2 1 * JsDate.msPerDay).
Proof.
  intros y m Hyear. unfold JsDate.newDate, JsDate.MakeDate.
  replace ((0 <=? y) && (y <=? 99)) with false
    by (symmetry; apply not_true_is_false; rewrite andb_true_iff, !Z.leb_le; lia).
  fold m. rewrite (MakeDay_following y m 1 (local_month_range t)). f_equal. lia.
Qed.

(** Where the offset in force at that midnight is zero or west of
    Greenwich, the UTC day of the instant is the first of the following
    month. *)
Lemma due_on_add_west (t : Z) :
  let y := JsDate.getFullYear clock t in
  let m := JsDate.getMonth clock t + 1 in
  let midnight :=
    JsDate.daysFromCivil (followingMonth y m).1 (followingMonth y m).2 1 * JsDate.msPerDay in
  ¬ (0 ≤ y ≤ 99) →
  - JsDate.msPerDay < JsDate.LocalTZA clock midnight false ≤ 0 →
  JsDate.isoDay (JsDate.newDate clock y (JsDate.getMonth clock t + 1) 1)
  = JsDate.isoDateOf (followingMonth y m).1 (followingMonth y m).2 1.
Proof.
  intros y m midnight Hyear Hzone.
  pose proof (newDate_first_of_following t Hyear) as Hfirst. fold y m in Hfirst |- *.
  rewrite Hfirst, isoDay_civil. fold midnight. unfold JsDate.UTC.
  replace (midnight - JsDate.LocalTZA clock midnight false)
    with (JsDate.daysFromCivil (followingMonth y m).1 (followingMonth y m).2 1
          * JsDate.msPerDay + (- JsDate.LocalTZA clock midnight false))
    by (unfold midnight; lia).
  rewrite Day_within by lia.
  rewrite civilFromDays_daysFromCivil; [done | |].
  - apply followingMonth_month, local_month_range.
  - pose proof (daysInMonth_bounds (followingMonth y m).1 (followingMonth y m).2). lia.
Qed.

(** Where it is east of Greenwich, it is the day before: the last day of
    the current month. *)
Lemma due_on_add_east (t : Z) :
  let y := JsDate.getFullYear clock t in
  let m := JsDate.getMonth clock t + 1 in
  let midnight :=
    JsDate.daysFromCivil (followingMonth y m).1 (followingMonth y m).2 1 * JsDate.msPerDay in
  ¬ (0 ≤ y ≤ 99) →
  0 < JsDate.LocalTZA clock midnight false ≤ JsDate.msPerDay →
  JsDate.isoDay (JsDate.newDate clock y (JsDate.getMonth clock t + 1) 1)
  = JsDate.isoDateOf y m (JsDate.daysInMonth y m).
Proof.
  intros y m midnight Hyear Hzone.
  pose proof (newDate_first_of_following t Hyear) as Hfirst. fold y m in Hfirst |- *.
  rewrite Hfirst, isoDay_civil. fold midnight. unfold JsDate.UTC.
  replace (midnight - JsDate.LocalTZA clock midnight false)
    with (JsDate.daysFromCivil y m (JsDate.daysInMonth y m) * JsDate.msPerDay
          + (JsDate.msPerDay - JsDate.LocalTZA clock midnight false))
    by (unfold midnight; rewrite (first_of_following_month y m (local_month_range t)); lia).
  rewrite Day_within by lia.
  rewrite civilFromDays_daysFromCivil; [done | |].
  - apply local_month_range.
  - pose proof (daysInMonth_bounds y m). lia.
Qed.

(** [setMonth(getMonth() + 1)] is the instant at which the local clocks
    show the same time of day on the day of the month of [t], counted on
    from the first of the following month. *)
Lemma setMonth_following (t : Z) :
  let y := JsDate.getFullYear clock t in
  let m := JsDate.getMonth clock t + 1 in
  let d := JsDate.DateFromTime (JsDate.LocalTime clock t) in
  JsDate.setMonth clock t (JsDate.getMonth clock t + 1)
  = JsDate.UTC clock
      (JsDate.MakeDate
         (JsDate.daysFromCivil (followingMonth y m).1 (followingMonth y m).2 1 + d - 1)
         (JsDate.TimeWithinDay (JsDate.LocalTime clock t))).
Proof.
  intros y m d. unfold JsDate.setMonth. cbv zeta.
  fold (JsDate.getFullYear clock t). fold y. fold d. fold m.
  by rewrite (MakeDay_following y m d (local_month_range t)).
Qed.

(** The local date of the clock reading is a date of the calendar. *)
Lemma localDate_valid (y m d : Z) :
  localDate clock = (y, m, d) →
  y = JsDate.getFullYear clock (JsDate.now clock)
  ∧ m = JsDate.getMonth clock (JsDate.now clock) + 1
  ∧ d = JsDate.DateFromTime (JsDate.LocalTime clock (JsDate.now clock))
  ∧ 1 ≤ m ≤ 12 ∧ 1 ≤ d ≤ JsDate.daysInMonth y m.
Proof.
  unfold localDate. intros Htoday.
  pose proof (local_month_range (JsDate.now clock)) as Hm.
  pose proof (local_date_range (JsDate.now clock)) as Hd. revert Hm Hd.
  unfold JsDate.getFullYear, JsDate.getMonth, JsDate.YearFromTime, JsDate.MonthFromTime,
    JsDate.DateFromTime. rewrite Htoday. cbn [fst snd]. intros Hm Hd.
  replace (m - 1 + 1) with m in * by lia. by repeat split; try lia.
Qed.

(** The value written on recording a payment, when the same local time a
    month on falls on the same calendar day in UTC and the following month
    has the day of the month of today: that day of the following month. *)
Lemma due_on_record (y m d : Z) :
  localDate clock = (y, m, d) →
  d ≤ JsDate.daysInMonth (followingMonth y m).1 (followingMonth y m).2 →
  JsDate.sameDayInUTC clock (localTimeAMonthOn clock) →
  Dashboard.nextPaymentDueOnRecord clock
  = JsDate.isoDateOf (followingMonth y m).1 (followingMonth y m).2 d.
Proof.
  intros Htoday Hfits. unfold localTimeAMonthOn, JsDate.sameDayInUTC. rewrite Htoday.
  destruct (localDate_valid y m d Htoday) as (Hy & Hm & Hd & Hmonth & Hday).
  intros Hsame.
  assert (Hwithin : 0 ≤ JsDate.TimeWithinDay (JsDate.LocalTime clock (JsDate.now clock))
                    < JsDate.msPerDay) by (apply Z.mod_pos_bound; reflexivity).
  rewrite nextPaymentDueOnRecord_eq, isoDay_civil, setMonth_following.
  rewrite <- Hy, <- Hm, <- Hd.
  replace (JsDate.daysFromCivil (followingMonth y m).1 (followingMonth y m).2 1 + d - 1)
    with (JsDate.daysFromCivil (followingMonth y m).1 (followingMonth y m).2 d)
    by (rewrite (daysFromCivil_day _ _ d); lia).
  rewrite Hsame. unfold JsDate.MakeDate. rewrite Day_within by done.
  rewrite civilFromDays_daysFromCivil; [done | by apply followingMonth_month | lia].
Qed.
End DueDates.

(** C1, with the date of recording for the date of the payment. For every
    property of the current set and every payment recorded against its id,
    whatever the amount, the property ends up with paymentStatus "paid" and
    with lastPaymentDate the payment's date, and all fields but these two and
    nextPaymentDue are kept. Its nextPaymentDue is one calendar month after
    the date on which the payment is recorded - the local date of the clock,
    whatever the date of the payment - when the following month has that day
    of the month and the same local time on it falls on the same calendar day
    in UTC. *)
Theorem record_marks_property_paid `{JsRuntime} (clock : JsDate.Clock)
    (payment : Js.JsObj) (st : App) (u : User) (i : nat) (p : Js.JsObj) :
  user st = Some u →
  properties st !! i = Some p →
  Js.strictEq (p !! "id") (payment !! "propertyId") = true →
  ∃ p', properties (Dashboard.handleRecordPayment clock payment st) !! i = Some p'
        ∧ p' !! "paymentStatus" = Some (Js.JStr "paid")
        ∧ p' !! "lastPaymentDate" = payment !! "paymentDate"
        ∧ (∀ today due : string,
             JsDate.parseIsoDay today = Some (localDate clock) →
             oneCalendarMonthAfter today = Some due →
             JsDate.sameDayInUTC clock (localTimeAMonthOn clock) →
             p' !! "nextPaymentDue" = Some (Js.JStr due))
        ∧ ∀ k, k ≠ "paymentStatus" → k ≠ "lastPaymentDate" → k ≠ "nextPaymentDue" →
               p' !! k = p !! k.
Proof.
  intros Hu Hp Hid.
  destruct (handleRecordPayment_state clock payment st u Hu) as (_ & _ & _ & Hprops & _).
  exists (marked clock payment p). split.
  - rewrite Hprops, list_lookup_fmap, Hp. reflexivity.
  - destruct (marked_fields clock payment p Hid) as (Hpaid & Hlast & Hdue & Hrest).
    split; [exact Hpaid|]. split; [exact Hlast|]. split; [|exact Hrest].
    intros today due Htoday Hmonth Hsame. rewrite Hdue.
    destruct (localDate clock) as [[y m] d] eqn:Hlocal.
    unfold oneCalendarMonthAfter in Hmonth. rewrite Htoday in Hmonth. cbv zeta in Hmonth.
    destruct (d <=? JsDate.daysInMonth (Calendar.followingMonth y m).1
                      (Calendar.followingMonth y m).2) eqn:Hfits; [|discriminate].
    apply Z.leb_le in Hfits. injection Hmonth as <-.
    by rewrite (due_on_record clock y m d Hlocal Hfits Hsame).
Qed.

Section MarchRentDue.
Local Existing Instances intNumber intRuntime.

Lemma record_marks_property_paid_witness :
  ∃ p', properties afterMarchRent !! 0%nat = Some p'
        ∧ p' !! "paymentStatus" = Some (Js.JStr "paid")
        ∧ p' !! "lastPaymentDate" = Some (Js.JStr "2025-03-01")
        ∧ p' !! "nextPaymentDue" = Some (Js.JStr "2025-07-15").
Proof.
  destruct unitOne_listed as [Huser Hfirst].
  destruct marchPayment_for_unitOne as [Hid Hdate].
  assert (Htoday : JsDate.parseIsoDay "2025-06-15" = Some (localDate midJune)) by evaluate.
  assert (Hmonth : oneCalendarMonthAfter "2025-06-15" = Some "2025-07-15") by evaluate.
  assert (Hsame : JsDate.sameDayInUTC midJune (localTimeAMonthOn midJune))
    by (unfold JsDate.sameDayInUTC; evaluate).
  destruct (record_marks_property_paid midJune marchPayment withUnitOne
              ada 0 unitOne Huser Hfirst Hid)
    as (p' & Hp' & Hpaid & Hlast & Hdue & _).
  exists p'. split; [exact Hp' |]. split; [exact Hpaid |]. split.
  - rewrite Hlast. exact Hdate.
  - exact (Hdue "2025-06-15" "2025-07-15" Htoday Hmonth Hsame).
Defined.
End MarchRentDue.

Section AddDueDate.
Context `{JsRuntime}.
Variable clock : JsDate.Clock.

(** What the add dialog writes to nextPaymentDue: nothing without an
    occupant; with one, by the offset in force at local midnight on the
    first of the month after the current local month: the first day of that
    month where the offset is zero or west of Greenwich, but the last day of
    the current month where it is east. *)
Lemma add_nextPaymentDue (uuid : string) (fd : AddPropertyDialog.FormData)
    (property : Js.JsObj) :
  AddPropertyDialog.handleSubmit clock uuid fd = AddPropertyDialog.onAdd property →
  let y := JsDate.getFullYear clock (JsDate.now clock) in
  let m := JsDate.getMonth clock (JsDate.now clock) + 1 in
  let midnight :=
    JsDate.daysFromCivil (Calendar.followingMonth y m).1 (Calendar.followingMonth y m).2 1
    * JsDate.msPerDay in
  ¬ (0 ≤ y ≤ 99) →
  (AddPropertyDialog.occupant fd = "" → property !! "nextPaymentDue" = None)
  ∧ (AddPropertyDialog.occupant fd ≠ "" →
     - JsDate.msPerDay < JsDate.LocalTZA clock midnight false ≤ 0 →
     property !! "nextPaymentDue"
     = Some (Js.JStr (JsDate.isoDateOf (Calendar.followingMonth y m).1
                        (Calendar.followingMonth y m).2 1)))
  ∧ (AddPropertyDialog.occupant fd ≠ "" →
     0 < JsDate.LocalTZA clock midnight false ≤ JsDate.msPerDay →
     property !! "nextPaymentDue"
     = Some (Js.JStr (JsDate.isoDateOf y m (JsDate.daysInMonth y m)))).
Proof.
  intros Hs y m midnight Hyear.
  destruct (created_fields clock uuid fd property Hs) as (_ & _ & Hdue).
  rewrite Hdue. split; [|split].
  - intros Hnone. apply truthy_false in Hnone. by rewrite Hnone.
  - intros Hsome Hzone. apply truthy_true in Hsome. rewrite Hsome.
    by rewrite (due_on_add_west clock (JsDate.now clock) Hyear Hzone).
  - intros Hsome Hzone. apply truthy_true in Hsome. rewrite Hsome.
    by rewrite (due_on_add_east clock (JsDate.now clock) Hyear Hzone).
Qed.
End AddDueDate.

Section AddInLagos.
Local Existing Instances intNumber intRuntime.

(** C5, on the code. In Lagos (UTC+1) at noon on 2025-03-15, Unit 1 is
    added with Jane as its occupant. The first day of the following month
    is 2025-04-01; the record gets nextPaymentDue 2025-03-31, the UTC day
    of local midnight on the first. The same submission in a browser on UTC
    or in New York gives 2025-04-01, and without an occupant nextPaymentDue
    is left unset. *)
Theorem add_in_lagos_due_last_of_month :
  JsDate.toISOString (JsDate.LocalTime noonLagos (JsDate.now noonLagos))
    = "2025-03-15T12:00:00.000Z"
  ∧ createdBy noonLagos (unitOneForm "Jane" "occupied") !! "nextPaymentDue"
    = Some (Js.JStr "2025-03-31")
  ∧ createdBy elevenUTC (unitOneForm "Jane" "occupied") !! "nextPaymentDue"
    = Some (Js.JStr "2025-04-01")
  ∧ createdBy sixNewYork (unitOneForm "Jane" "occupied") !! "nextPaymentDue"
    = Some (Js.JStr "2025-04-01")
  ∧ createdBy noonLagos (unitOneForm "" "vacant") !! "nextPaymentDue" = None.
Proof. repeat split; evaluate. Qed.
End AddInLagos.

(** * Further properties of the code *)

(** ** Accounts and sessions *)

Section Accounts.
Context `{JsNumber}.
Variable clock : JsDate.Clock.

Lemma userObject_fields (u : User) :
  Auth.userObject u !! "id" = Some (Js.JStr (id u))
  ∧ Auth.userObject u !! "email" = Some (Js.JStr (email u))
  ∧ Auth.userObject u !! "name" = Some (Js.JStr (name u))
  ∧ Auth.userObject u !! "createdAt" = Some (Js.JStr (createdAt u))
  ∧ Auth.userObject u !! "isNewUser" = Js.JBool <$> isNewUser u.
Proof. unfold Auth.userObject. repeat split; read_fields. Qed.

Lemma storedUser_userObject (u : User) :
  AuthProvider.storedUser (Auth.userObject u) = Some u.
Proof.
  destruct (userObject_fields u) as (Hid & Hemail & Hname & Hcreated & Hnew).
  unfold AuthProvider.storedUser. rewrite Hid, Hemail, Hname, Hcreated, Hnew.
  destruct u as [i e n c [b|]]; reflexivity.
Qed.

Lemma find_app_none {A} (f : A → bool) (l : list A) (x : A) :
  find f l = None → find f (l ++ [x]) = find f [x].
Proof.
  induction l as [|a l IH]; [done|]. cbn [find app].
  destruct (f a); [discriminate|]. exact IH.
Qed.

Lemma find_none_of_all {A} (f : A → bool) (l : list A) :
  (∀ x, x ∈ l → f x = false) → find f l = None.
Proof.
  induction l as [|a l IH]; intros Hall; [done|]. cbn [find].
  rewrite (Hall a) by apply list_elem_of_here.
  apply IH. intros x Hx. apply Hall. by apply list_elem_of_further.
Qed.

Lemma signup_users (st : App) :
  arrayOrAbsent st "realestate_users" →
  match localStorage st !! "realestate_users" with
  | None => Some []
  | Some (JArr rows) => Some rows
  | Some (JObj _) => None
  end = Some (storedUsers st).
Proof.
  unfold arrayOrAbsent, storedUsers. intros Harr.
  destruct (localStorage st !! "realestate_users") as [[rows|o]|]; try done.
  by destruct (Harr o).
Qed.

Lemma signup_fresh (email password name : string) (st : App) :
  arrayOrAbsent st "realestate_users" →
  (∀ u, u ∈ storedUsers st → u !! "email" ≠ Some (Js.JStr email)) →
  Auth.signup clock email password name st
  = ({| Auth.success := true; Auth.error := None |},
     setItem "realestate_user" (JObj (Auth.userObject (accountAt clock email name)))
       (setUser (Some (accountAt clock email name))
          (setItem "realestate_users"
             (JArr (storedUsers st ++ [registered clock email password name])) st))).
Proof.
  intros Harr Hfresh. unfold Auth.signup. rewrite (signup_users st Harr).
  rewrite find_none_of_all; [reflexivity|].
  intros u Hu. apply not_true_is_false. intros Hsame.
  apply strictEq_string in Hsame. by apply (Hfresh u Hu).
Qed.

Lemma registered_fields (email password name : string) :
  registered clock email password name !! "id"
    = Some (Js.JStr (id (accountAt clock email name)))
  ∧ registered clock email password name !! "email" = Some (Js.JStr email)
  ∧ registered clock email password name !! "password" = Some (Js.JStr password)
  ∧ registered clock email password name !! "name" = Some (Js.JStr name)
  ∧ registered clock email password name !! "createdAt"
    = Some (Js.JStr (createdAt (accountAt clock email name))).
Proof. unfold registered. repeat split; read_fields. Qed.

Lemma login_users (st : App) :
  arrayOrAbsent st "realestate_users" →
  match localStorage st !! "realestate_users" with
  | None => Some []
  | Some (JArr rows) => Some rows
  | Some (JObj _) => None
  end = Some (storedUsers st).
Proof. apply signup_users. Qed.

Lemma login_found (clock' : JsDate.Clock) (email password : string) (st : App)
    (found : Js.JsObj) (u : User) :
  arrayOrAbsent st "realestate_users" →
  find (matches email password) (storedUsers st) = Some found →
  AuthProvider.storedUser found = Some u →
  AuthProvider.login clock' email password st
  = Some ({| Auth.success := true; Auth.error := None |},
          setItem "realestate_user" (JObj (Auth.userObject (seen u)))
            (setUser (Some (seen u)) st)).
Proof.
  intros Harr Hfind Hstored. unfold AuthProvider.login. rewrite (login_users st Harr).
  change (find _ (storedUsers st)) with (find (matches email password) (storedUsers st)).
  rewrite Hfind. unfold AuthProvider.storedUser in Hstored.
  destruct (Js.asString (found !! "id")) as [i|]; [|done].
  destruct (Js.asString (found !! "email")) as [e|]; [|done].
  destruct (Js.asString (found !! "name")) as [n|]; [|done].
  destruct (Js.asString (found !! "createdAt")) as [c|]; [|done].
  cbn in Hstored |- *.
  destruct (found !! "isNewUser") as [[| |b|]|]; try done; by injection Hstored as <-.
Qed.

Lemma login_not_found (clock' : JsDate.Clock) (email password : string) (st : App) :
  arrayOrAbsent st "realestate_users" →
  (∀ u, u ∈ storedUsers st → matches email password u = false) →
  AuthProvider.login clock' email password st
  = if bool_decide (email = "admin@realestate.com") && bool_decide (password = "admin123")
    then
      let demoUser := {| id := "demo-admin"; email := email; name := "Admin";
                         createdAt := JsDate.toISOString (JsDate.now clock');
                         isNewUser := Some false |} in
      Some ({| Auth.success := true; Auth.error := None |},
            setItem "realestate_user" (JObj (Auth.userObject demoUser))
              (setUser (Some demoUser) st))
    else
      Some ({| Auth.success := false; Auth.error := Some "Invalid email or password" |}, st).
Proof.
  intros Harr Hnone. unfold AuthProvider.login. rewrite (login_users st Harr).
  change (find _ (storedUsers st)) with (find (matches email password) (storedUsers st)).
  by rewrite (find_none_of_all _ _ Hnone).
Qed.

Lemma storedUsers_signup (email password name : string) (st : App) :
  arrayOrAbsent st "realestate_users" →
  (∀ u, u ∈ storedUsers st → u !! "email" ≠ Some (Js.JStr email)) →
  localStorage (Auth.signup clock email password name st).2 !! "realestate_users"
  = Some (JArr (storedUsers st ++ [registered clock email password name])).
Proof.
  intros Harr Hfresh. rewrite (signup_fresh email password name st Harr Hfresh).
  cbn. rewrite lookup_insert_ne by done. apply lookup_insert_eq.
Qed.

(** Loading the collections changes neither the session nor the store. *)
Lemma loadUserData_frame (st st' : App) :
  Dashboard.loadUserData st = Some st' →
  user st' = user st ∧ localStorage st' = localStorage st.
Proof.
  unfold Dashboard.loadUserData. destruct (user st) as [u|] eqn:Hu; [|by intros [= <-]].
  unfold Dashboard.loadCollection. intros Hload.
  destruct (localStorage st !! Dashboard.storageKeyProperties u) as [[ps|?]|];
    cbn in Hload; try done;
  destruct (localStorage st !! Dashboard.storageKeyNotifications u) as [[ns|?]|];
    cbn in Hload; try done;
  destruct (localStorage st !! Dashboard.storageKeyPayments u) as [[ys|?]|];
    cbn in Hload; try done;
  injection Hload as <-; by cbn.
Qed.
End Accounts.

(** X1. Signing up with an email that no registered user has succeeds: the
    new user is appended to the registered users, which are otherwise kept,
    the session is the new account with its onboarding flag set, the stored
    session reads back as that account, and the collections of the page are
    left alone. *)
Theorem signup_creates_account `{JsNumber} (clock : JsDate.Clock)
    (email password name : string) (st : App) :
  arrayOrAbsent st "realestate_users" →
  (∀ u, u ∈ storedUsers st → u !! "email" ≠ Some (Js.JStr email)) →
  let result := Auth.signup clock email password name st in
  Auth.success result.1 = true
  ∧ user result.2 = Some (accountAt clock email name)
  ∧ (∃ new, storedUsers result.2 = storedUsers st ++ [new]
            ∧ new !! "email" = Some (Js.JStr email)
            ∧ new !! "password" = Some (Js.JStr password)
            ∧ new !! "name" = Some (Js.JStr name))
  ∧ AuthProvider.restore result.2 = Some result.2
  ∧ properties result.2 = properties st
  ∧ payments result.2 = payments st
  ∧ notifications result.2 = notifications st.
Proof.
  intros Harr Hfresh. cbv zeta.
  pose proof (storedUsers_signup clock email password name st Harr Hfresh) as Husers.
  rewrite (signup_fresh clock email password name st Harr Hfresh) in Husers |- *.
  cbn [fst snd Auth.success] in Husers |- *. split; [done|]. split; [done|]. split.
  { exists (registered clock email password name).
    destruct (registered_fields clock email password name) as (_ & He & Hp & Hn & _).
    split; [|done]. unfold storedUsers at 1. by rewrite Husers. }
  split; [|done].
  unfold AuthProvider.restore. cbn [localStorage setItem setUser].
  rewrite lookup_insert_eq. rewrite storedUser_userObject. reflexivity.
Qed.

(** X2. A login that matches no registered user fails with "Invalid email
    or password" and leaves the state as it is, unless the credentials are
    the built-in demo account's, which signs in as "demo-admin". *)
Theorem login_without_match `{JsNumber} (clock : JsDate.Clock)
    (email password : string) (st : App) :
  arrayOrAbsent st "realestate_users" →
  (∀ u, u ∈ storedUsers st → matches email password u = false) →
  (¬ (email = "admin@realestate.com" ∧ password = "admin123") →
   AuthProvider.login clock email password st
   = Some ({| Auth.success := false; Auth.error := Some "Invalid email or password" |}, st))
  ∧ (email = "admin@realestate.com" ∧ password = "admin123" →
     ∃ st', AuthProvider.login clock email password st
            = Some ({| Auth.success := true; Auth.error := None |}, st')
            ∧ (id <$> user st') = Some "demo-admin"
            ∧ AuthProvider.restore st' = Some st').
Proof.
  intros Harr Hnone. rewrite (login_not_found clock email password st Harr Hnone). split.
  - intros Hdemo. destruct (bool_decide (email = _)) eqn:He;
      destruct (bool_decide (password = _)) eqn:Hp; try done.
    apply bool_decide_eq_true in He, Hp. by destruct Hdemo.
  - intros [-> ->]. rewrite !bool_decide_eq_true_2 by done. cbn [andb]. cbv zeta.
    eexists. split; [reflexivity|]. split; [done|].
    unfold AuthProvider.restore. cbn [localStorage setItem setUser].
    rewrite lookup_insert_eq, storedUser_userObject. reflexivity.
Qed.

(** X3. After a signup, a login with the same email and password succeeds
    in any state that holds the same registered users (after a logout, in
    another tab), and signs in the same account, the onboarding flag cleared;
    with another password it fails. *)
Theorem login_after_signup `{JsNumber} (clock later : JsDate.Clock)
    (email password name other : string) (st st2 : App) :
  arrayOrAbsent st "realestate_users" →
  (∀ u, u ∈ storedUsers st → u !! "email" ≠ Some (Js.JStr email)) →
  localStorage st2 !! "realestate_users"
  = localStorage (Auth.signup clock email password name st).2 !! "realestate_users" →
  (∃ st3, AuthProvider.login later email password st2
          = Some ({| Auth.success := true; Auth.error := None |}, st3)
          ∧ user st3 = Some (seen (accountAt clock email name))
          ∧ AuthProvider.restore st3 = Some st3)
  ∧ (other ≠ password → other ≠ "admin123" →
     AuthProvider.login later email other st2
     = Some ({| Auth.success := false; Auth.error := Some "Invalid email or password" |},
             st2)).
Proof.
  intros Harr Hfresh Hsame.
  rewrite (storedUsers_signup clock email password name st Harr Hfresh) in Hsame.
  assert (Harr2 : arrayOrAbsent st2 "realestate_users").
  { intros o. by rewrite Hsame. }
  assert (Husers : storedUsers st2 = storedUsers st ++ [registered clock email password name]).
  { unfold storedUsers at 1. by rewrite Hsame. }
  destruct (registered_fields clock email password name) as (Hi & He & Hp & Hn & Hc).
  assert (Hold : ∀ pw, find (matches email pw) (storedUsers st) = None).
  { intros pw. apply find_none_of_all. intros u Hu. unfold matches.
    apply andb_false_intro1, not_true_is_false. intros Hmail.
    apply strictEq_string in Hmail. by apply (Hfresh u Hu). }
  assert (Hread : AuthProvider.storedUser (registered clock email password name)
                  = Some {| id := id (accountAt clock email name); email := email;
                            name := name;
                            createdAt := createdAt (accountAt clock email name);
                            isNewUser := None |}).
  { assert (Hnone : registered clock email password name !! "isNewUser" = None)
      by (unfold registered; read_fields).
    unfold AuthProvider.storedUser. by rewrite Hi, He, Hn, Hc, Hnone. }
  split.
  - eexists. split.
    + eapply (login_found later email password st2
                (registered clock email password name)); [exact Harr2| |exact Hread].
      rewrite Husers, (find_app_none _ _ _ (Hold password)). cbn [find].
      unfold matches. rewrite He, Hp. cbn. by rewrite !bool_decide_eq_true_2.
    + split; [done|].
      unfold AuthProvider.restore. cbn [localStorage setItem setUser].
      rewrite lookup_insert_eq, storedUser_userObject. reflexivity.
  - intros Hother Hdemo.
    rewrite (login_not_found later email other st2 Harr2).
    + destruct (bool_decide (email = _)); destruct (bool_decide (other = _)) eqn:Hd;
        try done. apply bool_decide_eq_true in Hd. done.
    + intros u Hu. rewrite Husers in Hu. apply elem_of_app in Hu as [Hu|Hu].
      * unfold matches. apply andb_false_intro1, not_true_is_false. intros Hmail.
        apply strictEq_string in Hmail. by apply (Hfresh u Hu).
      * apply list_elem_of_singleton in Hu as ->. unfold matches.
        apply andb_false_intro2, not_true_is_false. intros Hpw.
        apply strictEq_string in Hpw. rewrite Hp in Hpw. by injection Hpw as ->.
Qed.

(** X4. The onboarding tour is shown once. While the dashboard is open
    for the first time after a signup the session still carries the new-user
    flag, but the stored session has it cleared: when the page is loaded
    again the restored session is the same account without the flag. *)
Theorem onboarding_shown_once `{JsNumber} (clock : JsDate.Clock)
    (mail password who : string) (st st2 : App) :
  arrayOrAbsent st "realestate_users" →
  (∀ u, u ∈ storedUsers st → u !! "email" ≠ Some (Js.JStr mail)) →
  Dashboard.mount (Auth.signup clock mail password who st).2 = Some st2 →
  user st2 = Some (accountAt clock mail who)
  ∧ isNewUser (accountAt clock mail who) = Some true
  ∧ ∃ st3, AuthProvider.restore st2 = Some st3
           ∧ user st3 = Some (seen (accountAt clock mail who))
           ∧ localStorage st3 = localStorage st2.
Proof.
  intros Harr Hfresh. rewrite (signup_fresh clock mail password who st Harr Hfresh).
  cbn [snd]. unfold Dashboard.mount.
  cbn [user setPayments setNotifications setProperties setItem setUser].
  rewrite bool_decide_eq_true_2 by done. intros Hload.
  destruct (loadUserData_frame _ _ Hload) as [Huser Hstore].
  cbn [user localStorage setPayments setNotifications setProperties setItem setUser]
    in Huser, Hstore.
  split; [done|]. split; [done|].
  unfold AuthProvider.restore. rewrite Hstore, lookup_insert_eq.
  change {| id := id (accountAt clock mail who); email := email (accountAt clock mail who);
            name := name (accountAt clock mail who);
            createdAt := createdAt (accountAt clock mail who); isNewUser := Some false |}
    with (seen (accountAt clock mail who)).
  rewrite storedUser_userObject. cbn. eexists. split; [reflexivity|]. by split.
Qed.

(** X5. Logging out, through the auth context or through the header of
    the dashboard, ends the stored session and nothing else: a page loaded
    afterwards has no user, and every other entry of the store (the
    registered users, every user's collections) is kept. The header's button
    leaves the session in memory as it is. *)
Theorem logout_ends_stored_session `{JsNumber} (st : App) :
  (user (Auth.logout st) = None
   ∧ (user <$> AuthProvider.restore (Auth.logout st)) = Some None
   ∧ ∀ key, key ≠ "realestate_user" →
       localStorage (Auth.logout st) !! key = localStorage st !! key)
  ∧ (user (DashboardLayout.handleLogout st) = user st
     ∧ (user <$> AuthProvider.restore (DashboardLayout.handleLogout st)) = Some None
     ∧ ∀ key, key ≠ "realestate_user" →
         localStorage (DashboardLayout.handleLogout st) !! key = localStorage st !! key).
Proof.
  unfold Auth.logout, DashboardLayout.handleLogout, AuthProvider.restore.
  cbn [user localStorage removeItem setUser]. rewrite lookup_delete_eq.
  repeat split; try done; intros key Hkey; by rewrite lookup_delete_ne.
Qed.

(** ** The store: keys, reloads and users *)

Section Keys.
Variables u u' : User.

Lemma append_inj_r (p a b : string) : p +:+ a = p +:+ b → a = b.
Proof.
  induction p as [|c p IH]; [done|].
  change (String c p +:+ a) with (String c (p +:+ a)).
  change (String c p +:+ b) with (String c (p +:+ b)).
  intros [= Heq]. by apply IH.
Qed.

(** Keys of one kind are the same only for the same user id. *)
Lemma collection_key_inj :
  (Dashboard.storageKeyProperties u = Dashboard.storageKeyProperties u' → id u = id u')
  ∧ (Dashboard.storageKeyNotifications u = Dashboard.storageKeyNotifications u'
     → id u = id u')
  ∧ (Dashboard.storageKeyPayments u = Dashboard.storageKeyPayments u' → id u = id u').
Proof. repeat split; apply append_inj_r. Qed.

Lemma session_key_not_collection (key : string) :
  key ∈ collectionKeys u → key ≠ "realestate_user" ∧ key ≠ "realestate_users".
Proof.
  unfold collectionKeys. rewrite !elem_of_cons, elem_of_nil.
  intros [-> | [-> | [-> | []]]]; split; intros Heq;
    apply (f_equal (String.get 11)) in Heq; vm_compute in Heq; discriminate Heq.
Qed.

(** The keys of two users with different ids are all different. *)
Lemma collection_keys_disjoint (key key' : string) :
  id u ≠ id u' → key ∈ collectionKeys u → key' ∈ collectionKeys u' → key ≠ key'.
Proof.
  intros Hid. unfold collectionKeys. rewrite !elem_of_cons, !elem_of_nil.
  destruct collection_key_inj as (Hp & Hn & Hy).
  intros [-> | [-> | [-> | []]]] [-> | [-> | [-> | []]]] Heq;
    first [ by auto
          | by apply properties_key_not_notifications in Heq
          | by apply properties_key_not_payments in Heq
          | by apply payments_key_not_notifications in Heq
          | symmetry in Heq;
            first [ by apply properties_key_not_notifications in Heq
                  | by apply properties_key_not_payments in Heq
                  | by apply payments_key_not_notifications in Heq ] ].
Qed.
End Keys.

Section Reload.
Context `{JsNumber}.

(** JSON gives back an object whose numbers it can write. *)
Lemma jsonCopy_stable (o : Js.JsObj) : Js.jsonStable o → Js.jsonCopy o = o.
Proof.
  intros Hstable. apply map_eq. intros k. unfold Js.jsonCopy. rewrite lookup_fmap.
  destruct (o !! k) as [[s|n|b|]|] eqn:Hk; cbn; try done.
  by rewrite (Hstable k n Hk).
Qed.

Lemma jsonCopy_stable_rows (rows : list Js.JsObj) :
  Forall Js.jsonStable rows → Js.jsonCopy <$> rows = rows.
Proof.
  induction 1 as [|o rows Ho _ IH]; [done|]. cbn [fmap list_fmap].
  rewrite jsonCopy_stable by done. f_equal. exact IH.
Qed.

Lemma loadCollection_rows (key : string) (set : list Js.JsObj → App → App) (st : App) :
  arrayOrAbsent st key →
  Dashboard.loadCollection key set st
  = Some (match localStorage st !! key with
          | Some (JArr rows) => set (Js.jsonCopy <$> rows) st
          | _ => st
          end).
Proof.
  unfold arrayOrAbsent, Dashboard.loadCollection. intros Harr.
  destruct (localStorage st !! key) as [[rows|o]|]; try done. by destruct (Harr o).
Qed.

(** [loadUserData] on a page whose collections are empty. *)
Lemma loadUserData_rows (st : App) (u : User) :
  user st = Some u →
  properties st = [] → notifications st = [] → payments st = [] →
  (∀ key, key ∈ collectionKeys u → arrayOrAbsent st key) →
  ∃ st', Dashboard.loadUserData st = Some st'
         ∧ user st' = Some u
         ∧ localStorage st' = localStorage st
         ∧ properties st' = readRows st (Dashboard.storageKeyProperties u)
         ∧ notifications st' = readRows st (Dashboard.storageKeyNotifications u)
         ∧ payments st' = readRows st (Dashboard.storageKeyPayments u).
Proof.
  intros Hu Hp Hn Hy Harr. unfold Dashboard.loadUserData. rewrite Hu.
  assert (Hkp : arrayOrAbsent st (Dashboard.storageKeyProperties u))
    by (apply Harr; unfold collectionKeys; set_solver).
  assert (Hkn : arrayOrAbsent st (Dashboard.storageKeyNotifications u))
    by (apply Harr; unfold collectionKeys; set_solver).
  assert (Hky : arrayOrAbsent st (Dashboard.storageKeyPayments u))
    by (apply Harr; unfold collectionKeys; set_solver).
  rewrite (loadCollection_rows _ _ st Hkp). cbn [mbind option_bind].
  unfold readRows, storedRows. unfold arrayOrAbsent in Hkn, Hky.
  destruct (localStorage st !! Dashboard.storageKeyProperties u) as [[ps|o1]|] eqn:Ep;
    [| by destruct (Hkp o1) |];
  (rewrite loadCollection_rows by (intros o; cbn; apply Hkn); cbn [mbind option_bind];
   cbn [localStorage setProperties];
   destruct (localStorage st !! Dashboard.storageKeyNotifications u) as [[ns|o2]|] eqn:En;
     [| by destruct (Hkn o2) |];
   (rewrite loadCollection_rows by (intros o; cbn; apply Hky);
    cbn [localStorage setProperties setNotifications];
    destruct (localStorage st !! Dashboard.storageKeyPayments u) as [[ys|o3]|] eqn:Ey;
      [| by destruct (Hky o3) |];
    eexists; (split; [reflexivity|]); cbn; by rewrite ?Hp, ?Hn, ?Hy)).
Qed.

Lemma mount_rows (st : App) (u : User) :
  user st = Some u →
  (∀ key, key ∈ collectionKeys u → arrayOrAbsent st key) →
  ∃ st', Dashboard.mount st = Some st'
         ∧ user st' = Some u
         ∧ properties st' = readRows st (Dashboard.storageKeyProperties u)
         ∧ notifications st' = readRows st (Dashboard.storageKeyNotifications u)
         ∧ payments st' = readRows st (Dashboard.storageKeyPayments u)
         ∧ ∀ key, key ≠ "realestate_user" →
                  localStorage st' !! key = localStorage st !! key.
Proof.
  intros Hu Harr. unfold Dashboard.mount.
  cbn [user setPayments setNotifications setProperties]. rewrite Hu.
  set (st0 := setPayments [] (setNotifications [] (setProperties [] st))).
  set (st1 := if bool_decide (isNewUser u = Some true) then _ else st0).
  assert (Hframe : user st1 = Some u ∧ properties st1 = [] ∧ notifications st1 = []
                   ∧ payments st1 = []
                   ∧ ∀ key, key ≠ "realestate_user" →
                            localStorage st1 !! key = localStorage st !! key).
  { subst st1 st0. destruct (bool_decide (isNewUser u = Some true)); cbn;
      repeat split; try done. intros key Hkey. by rewrite lookup_insert_ne. }
  destruct Hframe as (Hu1 & Hp1 & Hn1 & Hy1 & Hstore).
  assert (Hrows : ∀ key, key ∈ collectionKeys u →
                         localStorage st1 !! key = localStorage st !! key).
  { intros key Hkey. apply Hstore. by apply (session_key_not_collection u). }
  destruct (loadUserData_rows st1 u Hu1 Hp1 Hn1 Hy1) as (st' & Hload & Hu' & Hs' & Hr).
  { intros key Hkey o. rewrite (Hrows key Hkey). by apply Harr. }
  exists st'. split; [done|]. split; [done|].
  unfold readRows, storedRows in Hr |- *.
  rewrite (Hrows (Dashboard.storageKeyProperties u)) in Hr
    by (unfold collectionKeys; apply list_elem_of_here).
  rewrite (Hrows (Dashboard.storageKeyNotifications u)) in Hr
    by (unfold collectionKeys; apply list_elem_of_further, list_elem_of_here).
  rewrite (Hrows (Dashboard.storageKeyPayments u)) in Hr
    by (unfold collectionKeys; do 2 apply list_elem_of_further; apply list_elem_of_here).
  destruct Hr as (Hp' & Hn' & Hy'). repeat split; try done.
  intros key Hkey. rewrite Hs'. by apply Hstore.
Qed.
End Reload.


Section Writes.
Context `{JsNumber}.
Variables (st : App) (u : User).
Hypothesis Hu : user st = Some u.

(** Each handler of the page keeps the session and replaces one entry of
    the signed-in user. *)
Lemma handleAddProperty_store (property : Js.JsObj) :
  let st' := Dashboard.handleAddProperty property st in
  user st' = Some u
  ∧ localStorage st'
    = <[Dashboard.storageKeyProperties u := JArr (properties st')]> (localStorage st).
Proof. unfold Dashboard.handleAddProperty. rewrite Hu. by cbn. Qed.

Lemma handleDeleteProperty_store (id : string) :
  let st' := Dashboard.handleDeleteProperty id st in
  user st' = Some u
  ∧ localStorage st'
    = <[Dashboard.storageKeyProperties u := JArr (properties st')]> (localStorage st).
Proof. unfold Dashboard.handleDeleteProperty. rewrite Hu. by cbn. Qed.

Lemma handleEditProperty_store (updatedProperty : Js.JsObj) :
  let st' := Dashboard.handleEditProperty updatedProperty st in
  user st' = Some u
  ∧ localStorage st'
    = <[Dashboard.storageKeyProperties u := JArr (properties st')]> (localStorage st).
Proof. unfold Dashboard.handleEditProperty. rewrite Hu. by cbn. Qed.

Lemma handleSendNotification_store (notification : Js.JsObj) :
  let st' := Dashboard.handleSendNotification notification st in
  user st' = Some u
  ∧ properties st' = properties st ∧ payments st' = payments st
  ∧ notifications st'
    = notifications st ++ [Js.withField notification "userId" (Some (Js.JStr (id u)))]
  ∧ localStorage st'
    = <[Dashboard.storageKeyNotifications u := JArr (notifications st')]> (localStorage st).
Proof. unfold Dashboard.handleSendNotification. rewrite Hu. by cbn. Qed.

(** A reload after a write under the properties key. *)
Lemma reload_after_properties_write (st1 : App) :
  (∀ key, key ∈ collectionKeys u → arrayOrAbsent st key) →
  user st1 = Some u →
  localStorage st1
  = <[Dashboard.storageKeyProperties u := JArr (properties st1)]> (localStorage st) →
  ∃ st2, Dashboard.mount st1 = Some st2
         ∧ properties st2 = Js.jsonCopy <$> properties st1
         ∧ notifications st2 = readRows st (Dashboard.storageKeyNotifications u)
         ∧ payments st2 = readRows st (Dashboard.storageKeyPayments u)
         ∧ (Forall Js.jsonStable (properties st1) → properties st2 = properties st1).
Proof.
  intros Harr Hu1 Hstore.
  destruct (mount_rows st1 u Hu1) as (st2 & Hmount & _ & Hp & Hn & Hy & _).
  { intros key Hkey o. rewrite Hstore.
    destruct (decide (Dashboard.storageKeyProperties u = key)) as [<-|Hne].
    - by rewrite lookup_insert_eq.
    - rewrite lookup_insert_ne by done. by apply Harr. }
  exists st2. split; [done|]. unfold readRows, storedRows in *.
  rewrite Hstore in Hp, Hn, Hy. rewrite lookup_insert_eq in Hp.
  rewrite lookup_insert_ne in Hn by apply properties_key_not_notifications.
  rewrite lookup_insert_ne in Hy by apply properties_key_not_payments.
  repeat split; try done. intros Hstable. rewrite Hp. by apply jsonCopy_stable_rows.
Qed.
End Writes.

(** X6. Additions, deletions and edits of properties and sent
    notifications survive a reload as JSON keeps them: when the dashboard is
    opened again after one of these handlers, the properties (the
    notifications) on the page are the ones the handler left in memory, read
    back from their JSON text - the same rows when every number in them is
    one that JSON gives back, while a NaN or an infinite number comes back as
    null - and the other two collections are the stored ones, read back
    likewise. *)
Theorem changes_survive_reload `{JsNumber} (st : App) (u : User)
    (property updatedProperty notification : Js.JsObj) (id : string) :
  user st = Some u →
  (∀ key, key ∈ collectionKeys u → arrayOrAbsent st key) →
  (∀ st1, st1 = Dashboard.handleAddProperty property st
          ∨ st1 = Dashboard.handleDeleteProperty id st
          ∨ st1 = Dashboard.handleEditProperty updatedProperty st →
     ∃ st2, Dashboard.mount st1 = Some st2
            ∧ properties st2 = Js.jsonCopy <$> properties st1
            ∧ notifications st2 = readRows st (Dashboard.storageKeyNotifications u)
            ∧ payments st2 = readRows st (Dashboard.storageKeyPayments u)
            ∧ (Forall Js.jsonStable (properties st1) → properties st2 = properties st1))
  ∧ ∃ st2, Dashboard.mount (Dashboard.handleSendNotification notification st) = Some st2
           ∧ notifications st2
             = Js.jsonCopy <$> notifications (Dashboard.handleSendNotification notification st)
           ∧ properties st2 = readRows st (Dashboard.storageKeyProperties u)
           ∧ payments st2 = readRows st (Dashboard.storageKeyPayments u)
           ∧ (Forall Js.jsonStable
                (notifications (Dashboard.handleSendNotification notification st)) →
              notifications st2
              = notifications (Dashboard.handleSendNotification notification st)).
Proof.
  intros Hu Harr. split.
  - intros st1 [-> | [-> | ->]].
    + destruct (handleAddProperty_store st u Hu property) as [Hu1 Hstore].
      by apply (reload_after_properties_write st u).
    + destruct (handleDeleteProperty_store st u Hu id) as [Hu1 Hstore].
      by apply (reload_after_properties_write st u).
    + destruct (handleEditProperty_store st u Hu updatedProperty) as [Hu1 Hstore].
      by apply (reload_after_properties_write st u).
  - destruct (handleSendNotification_store st u Hu notification)
      as (Hu1 & _ & _ & _ & Hstore).
    set (st1 := Dashboard.handleSendNotification notification st) in *.
    destruct (mount_rows st1 u Hu1) as (st2 & Hmount & _ & Hp & Hn & Hy & _).
    { intros key Hkey o. rewrite Hstore.
      destruct (decide (Dashboard.storageKeyNotifications u = key)) as [<-|Hne].
      - by rewrite lookup_insert_eq.
      - rewrite lookup_insert_ne by done. by apply Harr. }
    exists st2. split; [done|]. unfold readRows, storedRows in *.
    rewrite Hstore in Hp, Hn, Hy. rewrite lookup_insert_eq in Hn.
    rewrite lookup_insert_ne in Hp
      by (intros Heq; symmetry in Heq; by apply properties_key_not_notifications in Heq).
    rewrite lookup_insert_ne in Hy
      by (intros Heq; symmetry in Heq; by apply payments_key_not_notifications in Heq).
    repeat split; try done. intros Hstable. rewrite Hn. by apply jsonCopy_stable_rows.
Qed.

(** X7. Users do not touch each other's data: whatever the signed-in user
    adds, deletes, edits, sends or records, the three collections stored for
    a user with another id stay as they are. *)
Theorem other_users_collections_untouched `{JsNumber} (clock : JsDate.Clock)
    (st : App) (u other : User) (property updatedProperty notification payment : Js.JsObj)
    (propertyId : string) (key : string) :
  user st = Some u →
  id other ≠ id u →
  key ∈ collectionKeys other →
  localStorage (Dashboard.handleAddProperty property st) !! key = localStorage st !! key
  ∧ localStorage (Dashboard.handleDeleteProperty propertyId st) !! key = localStorage st !! key
  ∧ localStorage (Dashboard.handleEditProperty updatedProperty st) !! key
    = localStorage st !! key
  ∧ localStorage (Dashboard.handleSendNotification notification st) !! key
    = localStorage st !! key
  ∧ localStorage (Dashboard.handleRecordPayment clock payment st) !! key
    = localStorage st !! key.
Proof.
  intros Hu Hid Hkey.
  assert (Hne : ∀ k, k ∈ collectionKeys u → k ≠ key).
  { intros k Hk. apply (collection_keys_disjoint u other); [congruence|done|done]. }
  destruct (handleAddProperty_store st u Hu property) as [_ Hadd].
  destruct (handleDeleteProperty_store st u Hu propertyId) as [_ Hdel].
  destruct (handleEditProperty_store st u Hu updatedProperty) as [_ Hedit].
  destruct (handleSendNotification_store st u Hu notification) as (_ & _ & _ & _ & Hsend).
  destruct (handleRecordPayment_state clock payment st u Hu) as (_ & _ & _ & _ & Hrec).
  rewrite Hadd, Hdel, Hedit, Hsend, Hrec.
  repeat split; apply lookup_insert_ne, Hne; unfold collectionKeys;
    [apply list_elem_of_here | apply list_elem_of_here | apply list_elem_of_here
    | apply list_elem_of_further, list_elem_of_here
    | do 2 apply list_elem_of_further; apply list_elem_of_here].
Qed.

(** ** The handlers of the page *)

Section Handlers.
Context `{JsNumber}.

Lemma filter_filter_same {A} (P : A → Prop) `{∀ x, Decision (P x)} (l : list A) :
  filter P (filter P l) = filter P l.
Proof.
  induction l as [|a l IH]; [done|].
  destruct (decide (P a)) as [Ha|Ha].
  - rewrite (filter_cons_True P a l Ha), (filter_cons_True P a _ Ha). by rewrite IH.
  - by rewrite (filter_cons_False P a l Ha).
Qed.

Lemma filter_all {A} (P : A → Prop) `{∀ x, Decision (P x)} (l : list A) :
  Forall P l → filter P l = l.
Proof.
  induction 1 as [|a l Ha Hl IH]; [done|].
  rewrite filter_cons_True by done. by rewrite IH.
Qed.

(** The callback of [handleRecordPayment] keeps the id of a property. *)
Lemma marked_id (clock : JsDate.Clock) (payment p : Js.JsObj) :
  marked clock payment p !! "id" = p !! "id".
Proof.
  unfold marked. destruct (Js.strictEq _ _); [|done]. by rewrite !lookup_withField.
Qed.

Lemma marked_overdue (clock : JsDate.Clock) (payment p : Js.JsObj) :
  Js.strictEq (marked clock payment p !! "paymentStatus") (Some (Js.JStr "overdue")) = true →
  Js.strictEq (p !! "paymentStatus") (Some (Js.JStr "overdue")) = true.
Proof.
  unfold marked. destruct (Js.strictEq (p !! "id") _); [|done].
  rewrite !lookup_withField. cbn. done.
Qed.
End Handlers.

(** X8. Deleting by id removes every property with that id and no other,
    keeps the order of the rest, and is idempotent; when no property has the
    id, the list stays as it is. *)
Theorem delete_removes_all_with_id `{JsNumber} (id : string) (st : App) (u : User) :
  user st = Some u →
  let st' := Dashboard.handleDeleteProperty id st in
  (∀ q : Js.JsObj, q ∈ properties st'
                   ↔ q ∈ properties st ∧ q !! "id" ≠ Some (Js.JStr id))
  ∧ properties st' `sublist_of` properties st
  ∧ Dashboard.handleDeleteProperty id st' = st'
  ∧ ((∀ q : Js.JsObj, q ∈ properties st → q !! "id" ≠ Some (Js.JStr id)) →
     properties st' = properties st).
Proof.
  intros Hu. cbv zeta. unfold Dashboard.handleDeleteProperty. rewrite Hu.
  cbn [user properties setItem setProperties localStorage]. rewrite Hu.
  cbn [properties setItem setProperties localStorage].
  set (keep := λ p : Js.JsObj, Js.strictEq (p !! "id") (Some (Js.JStr id)) = false).
  assert (Hkeep : ∀ q : Js.JsObj, keep q ↔ q !! "id" ≠ Some (Js.JStr id)).
  { intros q. unfold keep. rewrite <- strictEq_string.
    destruct (Js.strictEq (q !! "id") (Some (Js.JStr id))); split; congruence. }
  split; [|split; [|split]].
  - intros q. rewrite list_elem_of_filter, Hkeep. tauto.
  - apply sublist_filter.
  - rewrite filter_filter_same. unfold setItem, setProperties.
    cbn [user properties notifications payments localStorage].
    by rewrite insert_insert_eq.
  - intros Hnone. apply filter_all, Forall_forall. intros q Hq. apply Hkeep. by apply Hnone.
Qed.

(** X9. Recording a payment touches only the properties whose id is the
    payment's propertyId: every other property keeps its place and all its
    fields, no property changes its id, and the number of properties is the
    same. When no property has that id the payment is still appended and the
    properties are left as they are. *)
Theorem record_leaves_other_properties `{JsNumber} (clock : JsDate.Clock)
    (payment : Js.JsObj) (st : App) (u : User) :
  user st = Some u →
  let st' := Dashboard.handleRecordPayment clock payment st in
  List.length (properties st') = List.length (properties st)
  ∧ (∀ (i : nat) (p : Js.JsObj), properties st !! i = Some p →
       ∃ p', properties st' !! i = Some p' ∧ p' !! "id" = p !! "id"
             ∧ (Js.strictEq (p !! "id") (payment !! "propertyId") = false → p' = p))
  ∧ ((∀ p : Js.JsObj, p ∈ properties st →
        Js.strictEq (p !! "id") (payment !! "propertyId") = false) →
     properties st' = properties st
     ∧ payments st'
       = payments st ++ [Js.withField payment "userId" (Some (Js.JStr (id u)))]).
Proof.
  intros Hu. cbv zeta.
  destruct (handleRecordPayment_state clock payment st u Hu) as (_ & _ & Hpay & Hprops & _).
  rewrite Hprops, Hpay. split; [by rewrite length_fmap|]. split.
  - intros i p Hp. exists (marked clock payment p).
    rewrite list_lookup_fmap, Hp. split; [done|]. split; [apply marked_id|].
    apply marked_other.
  - intros Hnone. split; [|done].
    rewrite <- (list_fmap_id (properties st)) at 2. apply list_fmap_ext.
    intros i p Hp. apply marked_other, Hnone. by eapply list_elem_of_lookup_2.
Qed.

(** ** Editing a property *)

Section EditProperty.
Context `{JsRuntime}.

Lemma spread_other (o : Js.JsObj) (fields : list (string * option Js.JsVal)) (k : string) :
  k ∉ fields.*1 → EditPropertyDialog.spread o fields !! k = o !! k.
Proof.
  unfold EditPropertyDialog.spread. revert o.
  induction fields as [|[k' v] fields IH]; intros o Hk; [done|].
  cbn [fold_left fst snd]. rewrite IH.
  - rewrite lookup_withField. rewrite bool_decide_eq_false_2; [done|].
    intros ->. apply Hk. cbn. apply list_elem_of_here.
  - intros Hin. apply Hk. cbn. by apply list_elem_of_further.
Qed.

(** The record the edit dialog hands over. *)
Lemma edited_fields (property updated : Js.JsObj) (fd : EditPropertyDialog.FormData) :
  EditPropertyDialog.handleSubmit property fd = EditPropertyDialog.onEdit updated →
  (∀ k : string, k ∈ ["id"; "userId"; "createdAt"; "lastPaymentDate"; "nextPaymentDue"] →
     updated !! k = property !! k)
  ∧ updated !! "name" = Some (Js.JStr (EditPropertyDialog.name fd))
  ∧ updated !! "occupant" = Js.orUndefined (EditPropertyDialog.occupant fd)
  ∧ updated !! "status" = Some (Js.JStr (EditPropertyDialog.status fd))
  ∧ updated !! "paymentStatus" = EditPropertyDialog.paymentStatus fd.
Proof.
  unfold EditPropertyDialog.handleSubmit.
  destruct (negb _ || negb _); [discriminate|].
  intros Heq.
  apply (f_equal (λ s, match s with EditPropertyDialog.onEdit p => p | _ => property end)) in Heq.
  cbv beta iota zeta in Heq. subst updated. split; [|repeat split].
  - intros k Hk. apply spread_other. cbn [fmap list_fmap fst].
    repeat (apply elem_of_cons in Hk as [->|Hk];
            [apply (bool_decide_unpack _); vm_compute; exact I|]).
    by apply elem_of_nil in Hk.
  - unfold EditPropertyDialog.spread. read_fields.
  - unfold EditPropertyDialog.spread. read_fields.
  - unfold EditPropertyDialog.spread. read_fields.
  - unfold EditPropertyDialog.spread. read_fields.
Qed.

(** [handleEditProperty] replaces in place when one listed property has
    the id of the updated one. *)
Lemma handleEditProperty_in_place (updated property : Js.JsObj) (pid : string)
    (i : nat) (l : list Js.JsObj) :
  l !! i = Some property →
  property !! "id" = Some (Js.JStr pid) →
  updated !! "id" = Some (Js.JStr pid) →
  (∀ (j : nat) (q : Js.JsObj), l !! j = Some q → q !! "id" = Some (Js.JStr pid) → j = i) →
  (λ p : Js.JsObj, if Js.strictEq (p !! "id") (updated !! "id") then updated else p) <$> l
  = <[i := updated]> l.
Proof.
  intros Hi Hid Hup Huniq. apply list_eq. intros j.
  rewrite list_lookup_fmap, Hup. destruct (decide (j = i)) as [->|Hne].
  - rewrite Hi. cbn. rewrite (proj2 (strictEq_string _ _) Hid).
    symmetry. apply list_lookup_insert_eq. by eapply lookup_lt_Some.
  - rewrite list_lookup_insert_ne by done.
    destruct (l !! j) as [q|] eqn:Hq; [|done]. cbn.
    destruct (Js.strictEq (q !! "id") (Some (Js.JStr pid))) eqn:Hq'; [|done].
    apply strictEq_string in Hq'. by destruct (Hne (Huniq j q Hq Hq')).
Qed.
End EditProperty.

(** X10. Saving the edit dialog of a listed property whose id no other
    property has, with a name and a rent, replaces that property in place
    (in memory and in the stored list) and changes no other one; the
    replacement keeps the id, the owner, the creation date and the payment
    dates of the original, also when the occupant is changed or removed. *)
Theorem edit_replaces_target_in_place `{JsRuntime} (property : Js.JsObj)
    (fd : EditPropertyDialog.FormData) (st : App) (u : User) (i : nat) (pid : string) :
  user st = Some u →
  properties st !! i = Some property →
  property !! "id" = Some (Js.JStr pid) →
  (∀ (j : nat) (q : Js.JsObj),
     properties st !! j = Some q → q !! "id" = Some (Js.JStr pid) → j = i) →
  EditPropertyDialog.name fd ≠ "" →
  EditPropertyDialog.rent fd ≠ "" →
  ∃ updated : Js.JsObj,
    EditPropertyDialog.handleSubmit property fd = EditPropertyDialog.onEdit updated
    ∧ properties (EditPropertyDialog.submit property fd st) = <[i := updated]> (properties st)
    ∧ localStorage (EditPropertyDialog.submit property fd st) !! Dashboard.storageKeyProperties u
      = Some (JArr (<[i := updated]> (properties st)))
    ∧ (∀ k : string, k ∈ ["id"; "userId"; "createdAt"; "lastPaymentDate"; "nextPaymentDue"] →
         updated !! k = property !! k)
    ∧ updated !! "name" = Some (Js.JStr (EditPropertyDialog.name fd))
    ∧ updated !! "occupant" = Js.orUndefined (EditPropertyDialog.occupant fd)
    ∧ updated !! "paymentStatus" = EditPropertyDialog.paymentStatus fd.
Proof.
  intros Hu Hi Hid Huniq Hname Hrent.
  destruct (EditPropertyDialog.handleSubmit property fd) as [msg|updated] eqn:Hs.
  { exfalso. revert Hs. unfold EditPropertyDialog.handleSubmit.
    rewrite (proj2 (truthy_true _) Hname), (proj2 (truthy_true _) Hrent). discriminate. }
  destruct (edited_fields _ _ _ Hs) as (Hkept & Hn & Ho & _ & Hp).
  assert (Hup : updated !! "id" = Some (Js.JStr pid)).
  { rewrite Hkept; [done|]. apply list_elem_of_here. }
  exists updated. split; [done|].
  unfold EditPropertyDialog.submit. rewrite Hs.
  unfold Dashboard.handleEditProperty. rewrite Hu.
  cbn [properties localStorage setItem setProperties].
  rewrite (handleEditProperty_in_place updated property pid i _ Hi Hid Hup Huniq).
  rewrite lookup_insert_eq. done.
Qed.

(** ** The counters of the dashboard *)

Section Stats.
Context `{JsNumber}.

Lemma length_filter_app {A} (P : A → Prop) `{∀ x, Decision (P x)} (l k : list A) :
  List.length (filter P (l ++ k)) = (List.length (filter P l) + List.length (filter P k))%nat.
Proof. by rewrite filter_app, length_app. Qed.

Lemma length_filter_le {A} (P Q : A → Prop) `{∀ x, Decision (P x)} `{∀ x, Decision (Q x)}
    (f : A → A) (l : list A) :
  (∀ x, P (f x) → Q x) →
  (List.length (filter P (f <$> l)) ≤ List.length (filter Q l))%nat.
Proof.
  intros Hf. induction l as [|a l IH]; [done|]. cbn [fmap list_fmap].
  change (list_fmap A A f l) with (f <$> l).
  destruct (decide (P (f a))) as [Ha|Ha].
  - rewrite (filter_cons_True P _ _ Ha), (filter_cons_True Q a l (Hf a Ha)). cbn. lia.
  - rewrite (filter_cons_False P _ _ Ha). destruct (decide (Q a)) as [Hq|Hq].
    + rewrite (filter_cons_True Q a l Hq). cbn. lia.
    + by rewrite (filter_cons_False Q a l Hq).
Qed.
End Stats.

(** X11. Recording a payment never raises the overdue counter, and no
    property the payment is for counts as overdue afterwards. *)
Theorem record_clears_overdue `{JsNumber} (clock : JsDate.Clock) (payment : Js.JsObj)
    (st : App) (u : User) :
  user st = Some u →
  let st' := Dashboard.handleRecordPayment clock payment st in
  (PropertyStats.overduePayments (properties st')
   ≤ PropertyStats.overduePayments (properties st))%nat
  ∧ PropertyStats.totalProperties (properties st')
    = PropertyStats.totalProperties (properties st)
  ∧ ∀ p : Js.JsObj, p ∈ properties st' →
      Js.strictEq (p !! "id") (payment !! "propertyId") = true →
      Js.strictEq (p !! "paymentStatus") (Some (Js.JStr "overdue")) = false.
Proof.
  intros Hu. cbv zeta.
  destruct (handleRecordPayment_state clock payment st u Hu) as (_ & _ & _ & Hprops & _).
  rewrite Hprops. unfold PropertyStats.overduePayments, PropertyStats.totalProperties.
  split; [|split].
  - apply length_filter_le. intros p. apply marked_overdue.
  - by rewrite length_fmap.
  - intros p' Hp' Hid. apply list_elem_of_fmap in Hp' as (p & -> & _).
    rewrite marked_id in Hid.
    destruct (marked_fields clock payment p Hid) as (-> & _). done.
Qed.

(** X12. Adding a property through the dialog raises the total by one and
    the occupied counter exactly when an occupant was entered; the overdue
    counter does not change. *)
Theorem add_updates_counters `{JsRuntime} (clock : JsDate.Clock) (uuid : string)
    (fd : AddPropertyDialog.FormData) (st : App) (u : User) :
  user st = Some u →
  AddPropertyDialog.name fd ≠ "" →
  AddPropertyDialog.rent fd ≠ "" →
  AddPropertyDialog.propertyType fd ≠ "" →
  let before := properties st in
  let after := properties (AddPropertyDialog.submit clock uuid fd st) in
  PropertyStats.totalProperties after = S (PropertyStats.totalProperties before)
  ∧ PropertyStats.occupiedProperties after
    = (PropertyStats.occupiedProperties before
       + if Js.truthy (AddPropertyDialog.occupant fd) then 1 else 0)%nat
  ∧ PropertyStats.overduePayments after = PropertyStats.overduePayments before.
Proof.
  intros Hu Hname Hrent Htype. cbv zeta.
  destruct (AddPropertyDialog.handleSubmit clock uuid fd) as [msg|property] eqn:Hs.
  { exfalso. revert Hs. unfold AddPropertyDialog.handleSubmit.
    rewrite (proj2 (truthy_true _) Hname), (proj2 (truthy_true _) Hrent),
      (proj2 (truthy_true _) Htype). discriminate. }
  rewrite (submit_appends clock uuid fd property st u Hs Hu).
  destruct (created_fields clock uuid fd property Hs) as (Hocc & Hpay & _).
  unfold PropertyStats.totalProperties, PropertyStats.occupiedProperties,
    PropertyStats.overduePayments.
  rewrite !length_filter_app, length_app. cbn [List.length].
  split; [lia|]. split.
  - f_equal. destruct (Js.truthy (AddPropertyDialog.occupant fd)) eqn:Ht.
    + rewrite filter_cons_True; [done|].
      rewrite lookup_withField, bool_decide_eq_false_2 by done.
      rewrite Hocc, truthy_orUndefined, Ht. cbn. exact Ht.
    + rewrite filter_cons_False; [done|].
      rewrite lookup_withField, bool_decide_eq_false_2 by done.
      rewrite Hocc, truthy_orUndefined, Ht. cbn. done.
  - rewrite filter_cons_False; [cbn; lia|].
    rewrite lookup_withField, bool_decide_eq_false_2 by done.
    rewrite Hpay. cbn. destruct (Js.truthy _); cbn; rewrite bool_decide_eq_false_2; done.
Qed.

(** ** The dialogs *)

Section Dialogs.
Context `{JsRuntime}.

Lemma trimStart_blank (s : string) :
  (∀ c : ascii, c ∈ list_ascii_of_string s → Js.isWhiteSpace c = true) → Js.trimStart s = "".
Proof.
  induction s as [|c s IH]; intros Hall; [done|]. cbn [Js.trimStart].
  rewrite (Hall c) by (cbn; apply list_elem_of_here). apply IH.
  intros c' Hc'. apply Hall. cbn. by apply list_elem_of_further.
Qed.

Lemma trim_blank (s : string) :
  (∀ c : ascii, c ∈ list_ascii_of_string s → Js.isWhiteSpace c = true) → Js.trim s = "".
Proof. intros Hall. unfold Js.trim. by rewrite (trimStart_blank s Hall). Qed.

Lemma trim_nonempty (s : string) : Js.trim s ≠ "" → s ≠ "".
Proof. intros Ht ->. by apply Ht. Qed.

(** The record the payment dialog hands over. *)
Lemma recorded_fields (clock : JsDate.Clock) (uuid : string) (property : Js.JsObj)
    (fd : RecordPaymentDialog.FormData) (payment : Js.JsObj) :
  RecordPaymentDialog.handleSubmit clock uuid property fd
    = RecordPaymentDialog.onRecord payment →
  payment !! "id" = Some (Js.JStr uuid)
  ∧ payment !! "propertyId" = property !! "id"
  ∧ payment !! "propertyName" = property !! "name"
  ∧ payment !! "occupantName"
    = (if Js.truthyVal (property !! "occupant") then property !! "occupant"
       else Some (Js.JStr "Unknown"))
  ∧ payment !! "paymentDate" = Some (Js.JStr (RecordPaymentDialog.paymentDate fd))
  ∧ payment !! "amount" = Some (Js.JNum (parseFloat (RecordPaymentDialog.amount fd))).
Proof.
  unfold RecordPaymentDialog.handleSubmit.
  destruct (negb _ || negb _); [discriminate|].
  intros [= <-]. repeat split; read_fields.
Qed.
End Dialogs.

(** X13. The add dialog adds nothing when the name, the rent or the
    property type is empty; otherwise it appends one property, stored under
    the user's properties key, that carries the generated id, the owner's
    id, the name and the status of the form and the creation time. *)
Theorem add_requires_name_rent_type `{JsRuntime} (clock : JsDate.Clock) (uuid : string)
    (fd : AddPropertyDialog.FormData) (st : App) (u : User) :
  user st = Some u →
  (AddPropertyDialog.name fd = "" ∨ AddPropertyDialog.rent fd = ""
   ∨ AddPropertyDialog.propertyType fd = "" →
   AddPropertyDialog.submit clock uuid fd st = st)
  ∧ (AddPropertyDialog.name fd ≠ "" → AddPropertyDialog.rent fd ≠ "" →
     AddPropertyDialog.propertyType fd ≠ "" →
     ∃ property : Js.JsObj,
       properties (AddPropertyDialog.submit clock uuid fd st) = properties st ++ [property]
       ∧ localStorage (AddPropertyDialog.submit clock uuid fd st)
           !! Dashboard.storageKeyProperties u
         = Some (JArr (properties st ++ [property]))
       ∧ property !! "id" = Some (Js.JStr uuid)
       ∧ property !! "userId" = Some (Js.JStr (id u))
       ∧ property !! "name" = Some (Js.JStr (AddPropertyDialog.name fd))
       ∧ property !! "status" = Some (Js.JStr (AddPropertyDialog.status fd))
       ∧ property !! "createdAt"
         = Some (Js.JStr (JsDate.toISOString (JsDate.now clock)))).
Proof.
  intros Hu. split.
  - intros Hempty. unfold AddPropertyDialog.submit, AddPropertyDialog.handleSubmit.
    destruct Hempty as [He|[He|He]]; apply truthy_false in He; rewrite He;
      cbn [negb orb]; rewrite ?orb_true_r; try done.
    by destruct (_ || _).
  - intros Hname Hrent Htype.
    apply truthy_true in Hname, Hrent, Htype.
    unfold AddPropertyDialog.submit, AddPropertyDialog.handleSubmit.
    rewrite Hname, Hrent, Htype. cbn [negb orb]. cbv zeta.
    unfold Dashboard.handleAddProperty. rewrite Hu.
    cbn [properties localStorage setItem setProperties].
    eexists. split; [reflexivity|]. split; [by rewrite lookup_insert_eq|].
    repeat split; rewrite lookup_withField; cbn [bool_decide decide_rel]; read_fields.
Qed.

(** X14. The payment dialog records nothing when the amount or the date is
    empty; otherwise it appends one payment to the user's payments, which
    names the property by id and name, carries the date of the form, and
    names the occupant, "Unknown" when the property has none. *)
Theorem record_requires_amount_and_date `{JsRuntime} (clock : JsDate.Clock) (uuid : string)
    (property : Js.JsObj) (fd : RecordPaymentDialog.FormData) (st : App) (u : User) :
  user st = Some u →
  (RecordPaymentDialog.amount fd = "" ∨ RecordPaymentDialog.paymentDate fd = "" →
   RecordPaymentDialog.submit clock uuid property fd st = st)
  ∧ (RecordPaymentDialog.amount fd ≠ "" → RecordPaymentDialog.paymentDate fd ≠ "" →
     ∃ payment : Js.JsObj,
       payments (RecordPaymentDialog.submit clock uuid property fd st)
       = payments st ++ [payment]
       ∧ payment !! "userId" = Some (Js.JStr (id u))
       ∧ payment !! "propertyId" = property !! "id"
       ∧ payment !! "propertyName" = property !! "name"
       ∧ payment !! "occupantName"
         = (if Js.truthyVal (property !! "occupant") then property !! "occupant"
            else Some (Js.JStr "Unknown"))
       ∧ payment !! "paymentDate"
         = Some (Js.JStr (RecordPaymentDialog.paymentDate fd))).
Proof.
  intros Hu. split.
  - intros Hempty. unfold RecordPaymentDialog.submit, RecordPaymentDialog.handleSubmit.
    destruct Hempty as [He|He]; apply truthy_false in He; rewrite He;
      cbn [negb orb]; rewrite ?orb_true_r; done.
  - intros Hamount Hdate.
    destruct (RecordPaymentDialog.handleSubmit clock uuid property fd)
      as [msg|payment] eqn:Hs.
    { exfalso. revert Hs. unfold RecordPaymentDialog.handleSubmit.
      rewrite (proj2 (truthy_true _) Hamount), (proj2 (truthy_true _) Hdate). discriminate. }
    destruct (recorded_fields clock uuid property fd payment Hs)
      as (_ & Hpid & Hname & Hocc & Hdt & _).
    unfold RecordPaymentDialog.submit. rewrite Hs.
    destruct (handleRecordPayment_state clock payment st u Hu) as (_ & _ & Hpay & _).
    rewrite Hpay. eexists. split; [reflexivity|].
    repeat split; rewrite lookup_withField; cbn [bool_decide decide_rel]; done.
Qed.

(** X15. A subject or a message made of white space only is rejected like
    an empty one: the alert is shown, nothing is posted to the endpoint and
    nothing is saved. *)
Theorem blank_notification_rejected `{JsNumber} (clock : JsDate.Clock)
    (fetch : Js.JsObj → option bool) (uuid : string) (property : Js.JsObj)
    (subject message type recipientEmail : string) (st : App) :
  Js.truthyVal (property !! "occupant") = true →
  (∀ c : ascii, c ∈ list_ascii_of_string subject → Js.isWhiteSpace c = true)
  ∨ (∀ c : ascii, c ∈ list_ascii_of_string message → Js.isWhiteSpace c = true) →
  SendNotificationDialog.submit clock fetch uuid property subject message type
    recipientEmail st
  = ({| SendNotificationDialog.alert := Some "Please fill in all required fields.";
        SendNotificationDialog.posted := [];
        SendNotificationDialog.onSend := [];
        SendNotificationDialog.sendStatus := SendNotificationDialog.idle |}, st).
Proof.
  intros Hocc Hblank.
  unfold SendNotificationDialog.submit, SendNotificationDialog.handleSubmit.
  rewrite Hocc. cbn [negb].
  destruct Hblank as [Hb|Hb]; rewrite (trim_blank _ Hb); cbn [Js.truthy negb orb];
    rewrite ?orb_true_r; reflexivity.
Qed.

(** ** Notifications *)

Section Notifications.
Context `{JsNumber}.
Variable clock : JsDate.Clock.
Variable fetch : Js.JsObj → option bool.

(** A valid submission whose email, if one is due, goes through: the
    notification is saved. *)
Lemma notification_saved (uuid : string) (property : Js.JsObj)
    (subject message type recipientEmail : string) (st : App) (u : User) :
  user st = Some u →
  Js.truthyVal (property !! "occupant") = true →
  Js.trim subject ≠ "" → Js.trim message ≠ "" →
  Js.truthy recipientEmail && Js.truthy (Js.trim recipientEmail) = false
  ∨ fetch (emailBody property subject message recipientEmail) = Some true →
  let r := SendNotificationDialog.submit clock fetch uuid property subject message type
             recipientEmail st in
  SendNotificationDialog.alert r.1 = None
  ∧ SendNotificationDialog.sendStatus r.1 = SendNotificationDialog.success
  ∧ SendNotificationDialog.posted r.1
    = (if Js.truthy recipientEmail && Js.truthy (Js.trim recipientEmail)
       then [emailBody property subject message recipientEmail] else [])
  ∧ ∃ n : Js.JsObj,
      notifications r.2 = notifications st ++ [n]
      ∧ localStorage r.2 !! Dashboard.storageKeyNotifications u
        = Some (JArr (notifications st ++ [n]))
      ∧ n !! "status" = Some (Js.JStr "sent")
      ∧ n !! "propertyId" = property !! "id"
      ∧ n !! "userId" = Some (Js.JStr (id u))
      ∧ n !! "subject" = Some (Js.JStr subject)
      ∧ n !! "recipientEmail" = Js.orUndefined recipientEmail.
Proof.
  intros Hu Hocc Hsub Hmsg Hsent. apply truthy_true in Hsub, Hmsg. cbv zeta.
  unfold SendNotificationDialog.submit, SendNotificationDialog.handleSubmit,
    SendNotificationDialog.sendEmailNotification.
  rewrite Hocc, Hsub, Hmsg. cbn [negb orb]. cbv zeta.
  fold (emailBody property subject message recipientEmail).
  assert (Hgo : Js.truthy recipientEmail && Js.truthy (Js.trim recipientEmail)
                && negb match fetch (emailBody property subject message recipientEmail) with
                        | Some ok => ok
                        | None => false
                        end = false).
  { destruct Hsent as [-> | ->]; [done|]. cbn. apply andb_false_r. }
  rewrite Hgo. cbn [fst snd SendNotificationDialog.alert SendNotificationDialog.sendStatus
                      SendNotificationDialog.posted SendNotificationDialog.onSend foldl].
  unfold Dashboard.handleSendNotification. rewrite Hu.
  cbn [notifications localStorage setItem setNotifications].
  split; [done|]. split; [done|]. split; [done|].
  eexists. split; [reflexivity|]. split; [by rewrite lookup_insert_eq|].
  repeat split; rewrite lookup_withField; cbn [bool_decide decide_rel]; read_fields.
  by destruct (Js.truthy recipientEmail).
Qed.

(** A body that the dialog posts passes the validation of the route. *)
Lemma emailBody_complete (property : Js.JsObj) (subject message recipientEmail : string) :
  Js.trim subject ≠ "" → Js.trim message ≠ "" → recipientEmail ≠ "" →
  Js.truthyVal (emailBody property subject message recipientEmail !! "to") = true
  ∧ Js.truthyVal (emailBody property subject message recipientEmail !! "subject") = true
  ∧ Js.truthyVal (emailBody property subject message recipientEmail !! "message") = true.
Proof.
  intros Hsub%trim_nonempty Hmsg%trim_nonempty Hmail.
  assert (Hto : emailBody property subject message recipientEmail !! "to"
                = Some (Js.JStr recipientEmail)) by (unfold emailBody; read_fields).
  assert (Hs : emailBody property subject message recipientEmail !! "subject"
               = Some (Js.JStr subject)) by (unfold emailBody; read_fields).
  assert (Hm : emailBody property subject message recipientEmail !! "message"
               = Some (Js.JStr message)) by (unfold emailBody; read_fields).
  rewrite Hto, Hs, Hm. cbn [Js.truthyVal]. by rewrite !bool_decide_eq_false_2.
Qed.
End Notifications.

(** X16. Without a recipient email (empty, or white space only) a valid
    notification is saved with status "sent" although nothing is posted to
    the email endpoint. *)
Theorem notification_without_email_marked_sent `{JsNumber} (clock : JsDate.Clock)
    (fetch : Js.JsObj → option bool) (uuid : string) (property : Js.JsObj)
    (subject message type recipientEmail : string) (st : App) (u : User) :
  user st = Some u →
  Js.truthyVal (property !! "occupant") = true →
  Js.trim subject ≠ "" → Js.trim message ≠ "" →
  recipientEmail = "" ∨ Js.trim recipientEmail = "" →
  let r := SendNotificationDialog.submit clock fetch uuid property subject message type
             recipientEmail st in
  SendNotificationDialog.posted r.1 = []
  ∧ SendNotificationDialog.sendStatus r.1 = SendNotificationDialog.success
  ∧ ∃ n : Js.JsObj,
      notifications r.2 = notifications st ++ [n]
      ∧ localStorage r.2 !! Dashboard.storageKeyNotifications u
        = Some (JArr (notifications st ++ [n]))
      ∧ n !! "status" = Some (Js.JStr "sent")
      ∧ n !! "recipientEmail" = Js.orUndefined recipientEmail.
Proof.
  intros Hu Hocc Hsub Hmsg Hblank.
  assert (Hno : Js.truthy recipientEmail && Js.truthy (Js.trim recipientEmail) = false).
  { destruct Hblank as [-> | ->]; [done|]. apply andb_false_r. }
  destruct (notification_saved clock fetch uuid property subject message type recipientEmail
              st u Hu Hocc Hsub Hmsg (or_introl Hno))
    as (_ & Hstatus & Hposted & n & Hn & Hstore & Hsent & _ & _ & _ & Hmail).
  cbv zeta. rewrite Hposted, Hno. split; [done|]. split; [done|].
  exists n. done.
Qed.

(** X17. The route answers with a success status exactly the requests
    whose JSON body has a non-empty [to], [subject] and [message]; a success
    carries [success: true], any other answer an [error] and no [success]
    field. *)
Theorem route_accepts_complete_requests `{JsNumber} (clock : JsDate.Clock)
    (body : option Js.JsObj) :
  let response := SendNotificationRoute.POST clock body in
  (SendNotificationRoute.ok response = true
   ↔ ∃ b : Js.JsObj, body = Some b
       ∧ Js.truthyVal (b !! "to") = true
       ∧ Js.truthyVal (b !! "subject") = true
       ∧ Js.truthyVal (b !! "message") = true)
  ∧ (SendNotificationRoute.ok response = true →
     SendNotificationRoute.json response !! "success" = Some (Js.JBool true))
  ∧ (SendNotificationRoute.ok response = false →
     is_Some (SendNotificationRoute.json response !! "error")
     ∧ SendNotificationRoute.json response !! "success" = None).
Proof.
  cbv zeta. unfold SendNotificationRoute.POST, SendNotificationRoute.ok.
  destruct body as [b|]; cbn [SendNotificationRoute.status SendNotificationRoute.json].
  - destruct (negb (Js.truthyVal (b !! "to")) || negb (Js.truthyVal (b !! "subject"))
              || negb (Js.truthyVal (b !! "message"))) eqn:Hmissing;
      cbn [SendNotificationRoute.status SendNotificationRoute.json].
    + split; [split|split].
      * intros Hok. vm_compute in Hok. discriminate.
      * intros (b' & [= <-] & Hto & Hs & Hm). rewrite Hto, Hs, Hm in Hmissing. discriminate.
      * intros Hok. vm_compute in Hok. discriminate.
      * intros _. split; [eexists|]; read_fields.
    + apply orb_false_elim in Hmissing as [[Hto Hs]%orb_false_elim Hm].
      apply negb_false_iff in Hto, Hs, Hm. split; [split|split].
      * intros _. by exists b.
      * done.
      * intros _. read_fields.
      * intros Hok. vm_compute in Hok. discriminate.
  - split; [split|split].
    + intros Hok. vm_compute in Hok. discriminate.
    + by intros (b & ? & _).
    + intros Hok. vm_compute in Hok. discriminate.
    + intros _. split; [eexists|]; read_fields.
Qed.

(** X18. Behind the route as it is written, the email step of the dialog
    cannot fail: every submission with an occupant, a subject and a message
    ends in success and saves its notification, and the endpoint is called
    exactly when a recipient email is given. *)
Theorem notification_through_route_succeeds `{JsNumber} (clock server : JsDate.Clock)
    (uuid : string) (property : Js.JsObj) (subject message type recipientEmail : string)
    (st : App) (u : User) :
  user st = Some u →
  Js.truthyVal (property !! "occupant") = true →
  Js.trim subject ≠ "" → Js.trim message ≠ "" →
  let r := SendNotificationDialog.submit clock (SendNotificationRoute.served server) uuid
             property subject message type recipientEmail st in
  SendNotificationDialog.sendStatus r.1 = SendNotificationDialog.success
  ∧ List.length (SendNotificationDialog.posted r.1)
    = (if Js.truthy recipientEmail && Js.truthy (Js.trim recipientEmail) then 1 else 0)%nat
  ∧ ∃ n : Js.JsObj,
      notifications r.2 = notifications st ++ [n]
      ∧ n !! "status" = Some (Js.JStr "sent")
      ∧ n !! "propertyId" = property !! "id"
      ∧ n !! "userId" = Some (Js.JStr (id u)).
Proof.
  intros Hu Hocc Hsub Hmsg.
  assert (Hsent : Js.truthy recipientEmail && Js.truthy (Js.trim recipientEmail) = false
                  ∨ SendNotificationRoute.served server
                      (emailBody property subject message recipientEmail) = Some true).
  { destruct (Js.truthy recipientEmail) eqn:Hmail; [|by left]. right.
    apply truthy_true in Hmail.
    destruct (emailBody_complete property subject message recipientEmail Hsub Hmsg Hmail)
      as (Hto & Hs & Hm).
    unfold SendNotificationRoute.served, SendNotificationRoute.POST.
    by rewrite Hto, Hs, Hm. }
  destruct (notification_saved clock (SendNotificationRoute.served server) uuid property
              subject message type recipientEmail st u Hu Hocc Hsub Hmsg Hsent)
    as (_ & Hstatus & Hposted & n & Hn & _ & Hst & Hpid & Huid & _).
  cbv zeta. rewrite Hposted. split; [done|]. split; [by destruct (_ && _)|].
  exists n. done.
Qed.

(** ** The add form while it is filled in *)

Section AddForm.
Import AddPropertyDialog.

Lemma withText_kept (fd fd' : FormData) (field value : string) :
  AddPropertyForm.withText fd field value = Some fd' →
  propertyType fd' = propertyType fd
  ∧ (field ≠ "bedrooms" → bedrooms fd' = bedrooms fd)
  ∧ (field ≠ "bathrooms" → bathrooms fd' = bathrooms fd).
Proof.
  unfold AddPropertyForm.withText. cbv zeta.
  repeat (case_bool_decide;
          [intros [= <-]; cbn [propertyType bedrooms bathrooms];
           repeat split; intros; congruence|]).
  discriminate.
Qed.

Lemma input_keeps_land (fd fd' : FormData) (i : AddPropertyForm.Input) :
  landWithoutRooms fd → AddPropertyForm.input fd i = Some fd' → landWithoutRooms fd'.
Proof.
  unfold landWithoutRooms. intros Hinv. destruct i as [field value|value|value];
    cbn [AddPropertyForm.input]; cbv zeta.
  - destruct (AddPropertyForm.rendered fd field) eqn:Hshown; [|discriminate].
    intros Htext Hland. destruct (withText_kept _ _ _ _ Htext) as (Htype & Hbed & Hbath).
    rewrite Htype in Hland. destruct (Hinv Hland) as [Hb1 Hb2].
    assert (Hfield : field ≠ "bedrooms" ∧ field ≠ "bathrooms").
    { revert Hshown. unfold AddPropertyForm.rendered, AddPropertyForm.shouldShowField.
      rewrite Hland. case_bool_decide as Hin.
      - intros Habs. vm_compute in Habs. discriminate.
      - intros _. split; intros ->; apply Hin;
          [apply list_elem_of_here | apply list_elem_of_further, list_elem_of_here]. }
    destruct Hfield as [Hf1 Hf2]. by rewrite (Hbed Hf1), (Hbath Hf2).
  - case_bool_decide; [|discriminate]. intros [= <-].
    unfold AddPropertyForm.clearForLand. cbn [propertyType bedrooms bathrooms].
    case_bool_decide as Hland; cbn [propertyType bedrooms bathrooms]; [done|].
    intros Hv. by destruct (Hland Hv).
  - case_bool_decide; [|discriminate]. intros [= <-].
    cbn [propertyType bedrooms bathrooms]. exact Hinv.
Qed.

Lemma filled_keeps_land (inputs : list AddPropertyForm.Input) (fd fd' : FormData) :
  landWithoutRooms fd → AddPropertyForm.filled fd inputs = Some fd' → landWithoutRooms fd'.
Proof.
  revert fd. induction inputs as [|i inputs IH]; intros fd Hinv; cbn [AddPropertyForm.filled].
  - by intros [= <-].
  - destruct (AddPropertyForm.input fd i) as [fd1|] eqn:Hinput; [|discriminate].
    cbn. apply IH. by eapply input_keeps_land.
Qed.
End AddForm.

(** X19. However the add form is filled in, when its property type is
    land on submission the bedrooms and bathrooms are empty, and the
    property that is created has neither field. *)
Theorem land_is_added_without_rooms `{JsRuntime} (clock : JsDate.Clock) (uuid : string)
    (inputs : list AddPropertyForm.Input) (fd : AddPropertyDialog.FormData)
    (property : Js.JsObj) :
  AddPropertyForm.filled AddPropertyForm.initialForm inputs = Some fd →
  AddPropertyDialog.propertyType fd = "land" →
  AddPropertyDialog.handleSubmit clock uuid fd = AddPropertyDialog.onAdd property →
  AddPropertyDialog.bedrooms fd = "" ∧ AddPropertyDialog.bathrooms fd = ""
  ∧ property !! "bedrooms" = None ∧ property !! "bathrooms" = None
  ∧ property !! "propertyType" = Some (Js.JStr "land").
Proof.
  intros Hfilled Hland Hs.
  assert (Hinit : landWithoutRooms AddPropertyForm.initialForm) by (intros Habs; discriminate).
  destruct (filled_keeps_land inputs _ fd Hinit Hfilled Hland) as [Hbed Hbath].
  split; [done|]. split; [done|].
  revert Hs. unfold AddPropertyDialog.handleSubmit.
  destruct (negb _ || negb _); [discriminate|].
  destruct (negb _); [discriminate|].
  intros Heq.
  apply (f_equal (λ s, match s with AddPropertyDialog.onAdd p => p | _ => ∅ end)) in Heq.
  cbv beta iota zeta in Heq. subst property.
  rewrite Hbed, Hbath, Hland. repeat split; read_fields.
Qed.

(** ** The property list *)

Section ListFilter.
Context `{JsNumber}.
Variables searchTerm statusFilter paymentFilter : string.

Lemma filteredProperties_filter (l out : list Js.JsObj) :
  PropertyList.filteredProperties searchTerm statusFilter paymentFilter l = Some out →
  out = filter (λ p, PropertyList.shown searchTerm statusFilter paymentFilter p = Some true) l.
Proof.
  revert out. induction l as [|p l IH]; intros out; cbn [PropertyList.filteredProperties].
  - by intros [= <-].
  - destruct (PropertyList.shown searchTerm statusFilter paymentFilter p) as [keep|] eqn:Hp;
      [|discriminate]. cbn [mbind option_bind].
    destruct (PropertyList.filteredProperties searchTerm statusFilter paymentFilter l)
      as [others|]; [|discriminate]. cbn [mbind option_bind]. intros [= <-].
    rewrite (IH others eq_refl). destruct keep.
    + by rewrite filter_cons_True.
    + rewrite filter_cons_False by congruence. done.
Qed.

Lemma shown_filters (p : Js.JsObj) :
  PropertyList.shown searchTerm statusFilter paymentFilter p = Some true →
  (statusFilter = "all" ∨ p !! "status" = Some (Js.JStr statusFilter))
  ∧ (paymentFilter = "all" ∨ p !! "paymentStatus" = Some (Js.JStr paymentFilter)).
Proof.
  unfold PropertyList.shown.
  destruct (match p !! "name" with Some (Js.JStr _) => _ | _ => _ end) as [m|]; [|discriminate].
  cbn. intros [= Hall]. apply andb_true_iff in Hall as [Hall Hpay].
  apply andb_true_iff in Hall as [_ Hstatus].
  apply orb_true_iff in Hstatus, Hpay. split.
  - destruct Hstatus as [Hs|Hs]; [left; by apply bool_decide_eq_true in Hs|right].
    by apply strictEq_string.
  - destruct Hpay as [Hs|Hs]; [left; by apply bool_decide_eq_true in Hs|right].
    by apply strictEq_string.
Qed.

Lemma shown_searchable (p : Js.JsObj) :
  searchable p → is_Some (PropertyList.shown searchTerm statusFilter paymentFilter p).
Proof.
  intros ([name Hname] & Hocc & Haddr). unfold PropertyList.shown.
  destruct (p !! "name") as [[name'| | |]|]; try discriminate.
  destruct (PropertyList.includes _ (PropertyList.toLowerCase name')); [by eexists|].
  unfold PropertyList.found.
  destruct Hocc as [-> | [occ Hocc]].
  - destruct Haddr as [-> | [addr Haddr]]; [by eexists|].
    destruct (p !! "address") as [[?| | |]|]; try discriminate; by eexists.
  - destruct (p !! "occupant") as [[?| | |]|]; try discriminate. cbn.
    destruct (PropertyList.includes _ _); [by eexists|].
    destruct Haddr as [-> | [addr Haddr]]; [by eexists|].
    destruct (p !! "address") as [[?| | |]|]; try discriminate; by eexists.
Qed.
End ListFilter.

Section LowerCase.
Lemma lowerChar_idempotent (c : ascii) :
  PropertyList.lowerChar (PropertyList.lowerChar c) = PropertyList.lowerChar c.
Proof. by destruct c as [[] [] [] [] [] [] [] []]. Qed.

Lemma toLowerCase_idempotent (s : string) :
  PropertyList.toLowerCase (PropertyList.toLowerCase s) = PropertyList.toLowerCase s.
Proof.
  induction s as [|c s IH]; [done|]. cbn [PropertyList.toLowerCase].
  by rewrite lowerChar_idempotent, IH.
Qed.

Lemma includes_empty (s : string) : PropertyList.includes "" s = true.
Proof. by destruct s. Qed.
End LowerCase.

(** X20. The list that is shown is the properties, in their order, for
    which the filter callback holds; every property shown has the chosen
    status and the chosen payment status (or the choice is "all"). *)
Theorem list_shows_filtered_properties `{JsNumber}
    (searchTerm statusFilter paymentFilter : string) (l out : list Js.JsObj) :
  PropertyList.filteredProperties searchTerm statusFilter paymentFilter l = Some out →
  out `sublist_of` l
  ∧ (∀ p : Js.JsObj,
       p ∈ out ↔ p ∈ l
                 ∧ PropertyList.shown searchTerm statusFilter paymentFilter p = Some true)
  ∧ (∀ p : Js.JsObj, p ∈ out →
       (statusFilter = "all" ∨ p !! "status" = Some (Js.JStr statusFilter))
       ∧ (paymentFilter = "all" ∨ p !! "paymentStatus" = Some (Js.JStr paymentFilter))).
Proof.
  intros Hout. apply filteredProperties_filter in Hout as ->. split; [|split].
  - apply sublist_filter.
  - intros p. rewrite list_elem_of_filter. tauto.
  - intros p [Hshown _]%list_elem_of_filter. by eapply shown_filters.
Qed.

(** X21. On properties whose name is a string, and whose occupant and
    address are strings or missing, the filter does not throw, for any
    search term and filters; with the empty search term and both filters on
    "all" - the state the list opens in - it shows every property. *)
Theorem list_opens_showing_everything `{JsNumber}
    (searchTerm statusFilter paymentFilter : string) (l : list Js.JsObj) :
  Forall searchable l →
  is_Some (PropertyList.filteredProperties searchTerm statusFilter paymentFilter l)
  ∧ PropertyList.filteredProperties "" "all" "all" l = Some l.
Proof.
  intros Hall. split.
  - induction Hall as [|p l Hp _ IH]; [by eexists|]. cbn [PropertyList.filteredProperties].
    destruct (shown_searchable searchTerm statusFilter paymentFilter p Hp) as [keep ->].
    destruct IH as [others ->]. cbn. by eexists.
  - induction Hall as [|p l Hp _ IH]; [done|]. cbn [PropertyList.filteredProperties].
    rewrite IH. destruct Hp as ([name Hname] & _).
    unfold PropertyList.shown. destruct (p !! "name") as [[name'| | |]|]; try discriminate.
    cbn [PropertyList.toLowerCase]. rewrite includes_empty. reflexivity.
Qed.

(** X22. The search ignores the case of the letters of the search term:
    two terms that differ only in case, and a term and its lower-case form,
    show the same properties. *)
Theorem search_ignores_case_of_term `{JsNumber}
    (searchTerm other statusFilter paymentFilter : string) (l : list Js.JsObj) :
  PropertyList.toLowerCase other = PropertyList.toLowerCase searchTerm →
  PropertyList.filteredProperties other statusFilter paymentFilter l
  = PropertyList.filteredProperties searchTerm statusFilter paymentFilter l
  ∧ PropertyList.filteredProperties (PropertyList.toLowerCase searchTerm) statusFilter
      paymentFilter l
    = PropertyList.filteredProperties searchTerm statusFilter paymentFilter l.
Proof.
  assert (Hsame : ∀ a b : string, PropertyList.toLowerCase a = PropertyList.toLowerCase b →
            PropertyList.filteredProperties a statusFilter paymentFilter l
            = PropertyList.filteredProperties b statusFilter paymentFilter l).
  { intros a b Hab. induction l as [|p l' IH]; [done|].
    cbn [PropertyList.filteredProperties]. rewrite IH.
    unfold PropertyList.shown, PropertyList.found. by rewrite Hab. }
  intros Hother. split; [by apply Hsame|]. apply Hsame, toLowerCase_idempotent.
Qed.

(** ** The forms of the entry page *)

(** X23. The signup form rejects, before anything is read or written, a
    submission with an empty field, a password shorter than six characters
    or a confirmation that differs; a submission that passes these checks
    with an email that is not registered signs the new account in and goes
    to the dashboard. *)
Theorem signup_form_checks_before_signup `{JsNumber} (clock : JsDate.Clock)
    (who mail password confirmPassword : string) (st : App) :
  let s := SignupForm.handleSubmit clock who mail password confirmPassword st in
  (who = "" ∨ mail = "" ∨ password = "" ∨ confirmPassword = ""
   ∨ (String.length password < 6)%nat ∨ password ≠ confirmPassword →
   SignupForm.toDashboard s = false ∧ SignupForm.state s = st ∧ SignupForm.error s ≠ "")
  ∧ (who ≠ "" → mail ≠ "" → (6 ≤ String.length password)%nat →
     password = confirmPassword →
     arrayOrAbsent st "realestate_users" →
     (∀ u, u ∈ storedUsers st → u !! "email" ≠ Some (Js.JStr mail)) →
     SignupForm.toDashboard s = true ∧ SignupForm.error s = ""
     ∧ user (SignupForm.state s) = Some (accountAt clock mail who)).
Proof.
  cbv zeta. unfold SignupForm.handleSubmit. split.
  - intros Hbad.
    destruct (negb (Js.truthy who) || negb (Js.truthy mail) || negb (Js.truthy password)
              || negb (Js.truthy confirmPassword)) eqn:Hempty; [done|].
    apply orb_false_elim in Hempty as [[[Hw Hm]%orb_false_elim Hp]%orb_false_elim Hc].
    apply negb_false_iff, truthy_true in Hw, Hm, Hp, Hc.
    destruct (String.length password <? 6)%nat eqn:Hshort; [done|].
    apply Nat.ltb_ge in Hshort.
    destruct (negb (bool_decide (password = confirmPassword))) eqn:Hdiff; [done|].
    apply negb_false_iff, bool_decide_eq_true in Hdiff.
    exfalso. destruct Hbad as [?|[?|[?|[?|[?|?]]]]]; try done. lia.
  - intros Hw Hm Hlen <- Harr Hfresh.
    assert (Hp : password ≠ "") by (intros ->; cbn in Hlen; lia).
    apply truthy_true in Hw, Hm, Hp. rewrite Hw, Hm, Hp. cbn [negb orb].
    rewrite (proj2 (Nat.ltb_ge _ _) Hlen).
    rewrite bool_decide_eq_true_2 by done. cbn [negb].
    rewrite (signup_fresh clock mail password who st Harr Hfresh).
    cbn [fst snd Auth.success SignupForm.toDashboard SignupForm.error SignupForm.state].
    done.
Qed.

(** X24. The login form rejects an empty email or password without
    reading the registered users; with both given, credentials that match no
    registered user and are not the demo account's show "Invalid email or
    password" and change nothing, and credentials that match a registered
    user sign that user in and go to the dashboard. *)
Theorem login_form_outcomes `{JsNumber} (clock : JsDate.Clock)
    (mail password : string) (st : App) :
  (mail = "" ∨ password = "" →
   LoginForm.handleSubmit clock mail password st
   = Some {| SignupForm.error := "Please enter both email and password";
             SignupForm.toDashboard := false; SignupForm.state := st |})
  ∧ (mail ≠ "" → password ≠ "" →
     arrayOrAbsent st "realestate_users" →
     (∀ u, u ∈ storedUsers st → matches mail password u = false) →
     ¬ (mail = "admin@realestate.com" ∧ password = "admin123") →
     LoginForm.handleSubmit clock mail password st
     = Some {| SignupForm.error := "Invalid email or password";
               SignupForm.toDashboard := false; SignupForm.state := st |})
  ∧ (∀ (found : Js.JsObj) (u : User),
       mail ≠ "" → password ≠ "" →
       arrayOrAbsent st "realestate_users" →
       find (matches mail password) (storedUsers st) = Some found →
       AuthProvider.storedUser found = Some u →
       ∃ s, LoginForm.handleSubmit clock mail password st = Some s
            ∧ SignupForm.toDashboard s = true
            ∧ SignupForm.error s = ""
            ∧ user (SignupForm.state s) = Some (seen u)).
Proof.
  unfold LoginForm.handleSubmit. split; [|split].
  - intros [-> | ->]; cbn [Js.truthy negb orb]; rewrite ?orb_true_r; reflexivity.
  - intros Hm Hp Harr Hnone Hdemo. apply truthy_true in Hm, Hp. rewrite Hm, Hp.
    cbn [negb orb]. rewrite (login_not_found clock mail password st Harr Hnone).
    destruct (bool_decide (mail = _)) eqn:He; destruct (bool_decide (password = _)) eqn:Hpw;
      try reflexivity.
    apply bool_decide_eq_true in He, Hpw. by destruct Hdemo.
  - intros found u Hm Hp Harr Hfind Hstored. apply truthy_true in Hm, Hp. rewrite Hm, Hp.
    cbn [negb orb]. rewrite (login_found clock mail password st found u Harr Hfind Hstored).
    cbn [mbind option_bind fst snd Auth.success]. eexists. split; [reflexivity|]. done.
Qed.

(** ** The due date written on recording a payment *)

Section RecordDueDate.
Import Calendar.
Variable clock : JsDate.Clock.

End RecordDueDate.


(** ** The lease threshold *)

(** X26. For any threshold in days, a lease with a readable end date is
    expiring soon exactly when it ends after now and at most that many days
    from now; an end date that cannot be read is never expiring soon, nor is
    any lease under a threshold of zero or less, and raising the threshold
    keeps every lease that was expiring soon. *)
Theorem lease_threshold_window `{JsRuntime} (clock : JsDate.Clock) :
  (∀ (leaseEndDate : string) (endDate daysThreshold : Z),
     leaseEndDate ≠ "" →
     Date_parse leaseEndDate = Some endDate →
     Utils.isLeaseExpiringSoon clock (Some leaseEndDate) daysThreshold = true
     ↔ JsDate.now clock < endDate ≤ JsDate.now clock + daysThreshold * JsDate.msPerDay)
  ∧ (∀ (leaseEndDate : string) (daysThreshold : Z),
       leaseEndDate ≠ "" →
       Date_parse leaseEndDate = None →
       Utils.getDaysUntilExpiry clock (Some leaseEndDate) = Utils.NaN
       ∧ Utils.isLeaseExpiringSoon clock (Some leaseEndDate) daysThreshold = false)
  ∧ (∀ (leaseEndDate : option string) (daysThreshold : Z),
       daysThreshold ≤ 0 →
       Utils.isLeaseExpiringSoon clock leaseEndDate daysThreshold = false)
  ∧ (∀ (leaseEndDate : option string) (daysThreshold wider : Z),
       daysThreshold ≤ wider →
       Utils.isLeaseExpiringSoon clock leaseEndDate daysThreshold = true →
       Utils.isLeaseExpiringSoon clock leaseEndDate wider = true).
Proof.
  split; [|split; [|split]].
  - intros leaseEndDate endDate daysThreshold Hs Hparse. unfold Utils.isLeaseExpiringSoon.
    rewrite (getDaysUntilExpiry_parsed clock _ _ Hs Hparse).
    pose proof (ceilDiv_spec (endDate - JsDate.now clock) JsDate.msPerDay eq_refl) as Hceil.
    rewrite andb_true_iff, Z.ltb_lt, Z.leb_le. unfold JsDate.msPerDay in *. lia.
  - intros leaseEndDate daysThreshold Hs Hparse. unfold Utils.isLeaseExpiringSoon.
    by rewrite (getDaysUntilExpiry_invalid clock _ Hs Hparse).
  - intros leaseEndDate daysThreshold Hle. unfold Utils.isLeaseExpiringSoon.
    destruct (Utils.getDaysUntilExpiry clock leaseEndDate) as [| |n]; try done.
    apply andb_false_iff. rewrite Z.ltb_ge, Z.leb_gt. lia.
  - intros leaseEndDate daysThreshold wider Hle. unfold Utils.isLeaseExpiringSoon.
    destruct (Utils.getDaysUntilExpiry clock leaseEndDate) as [| |n]; try done.
    rewrite !andb_true_iff, !Z.ltb_lt, !Z.leb_le. lia.
Qed.

(** ** The due date written on adding a property *)

(** X27. A property added with an occupant gets its first due date from
    the clock and the time zone of the browser, by the offset from UTC in
    force at local midnight on the first of the month after the current
    local month: where that offset is zero or west of Greenwich the date is
    the first day of that month, where it is east of Greenwich the last day
    of the current local month (the UTC date of that midnight). *)
Theorem add_due_date_by_time_zone `{JsRuntime} (clock : JsDate.Clock) (uuid : string)
    (fd : AddPropertyDialog.FormData) (st : App) (u : User) :
  let y := JsDate.getFullYear clock (JsDate.now clock) in
  let m := JsDate.getMonth clock (JsDate.now clock) + 1 in
  let midnight :=
    JsDate.daysFromCivil (Calendar.followingMonth y m).1 (Calendar.followingMonth y m).2 1
    * JsDate.msPerDay in
  user st = Some u →
  AddPropertyDialog.name fd ≠ "" → AddPropertyDialog.rent fd ≠ "" →
  AddPropertyDialog.propertyType fd ≠ "" → AddPropertyDialog.occupant fd ≠ "" →
  ¬ (0 ≤ y ≤ 99) →
  ∃ property : Js.JsObj,
    properties (AddPropertyDialog.submit clock uuid fd st) = properties st ++ [property]
    ∧ (- JsDate.msPerDay < JsDate.LocalTZA clock midnight false ≤ 0 →
       property !! "nextPaymentDue"
       = Some (Js.JStr (JsDate.isoDateOf (Calendar.followingMonth y m).1
                          (Calendar.followingMonth y m).2 1)))
    ∧ (0 < JsDate.LocalTZA clock midnight false ≤ JsDate.msPerDay →
       property !! "nextPaymentDue"
       = Some (Js.JStr (JsDate.isoDateOf y m (JsDate.daysInMonth y m)))).
Proof.
  intros y m midnight Hu Hname Hrent Htype Hocc Hyear.
  destruct (AddPropertyDialog.handleSubmit clock uuid fd) as [msg|property] eqn:Hs.
  { exfalso. revert Hs. unfold AddPropertyDialog.handleSubmit.
    rewrite (proj2 (truthy_true _) Hname), (proj2 (truthy_true _) Hrent),
      (proj2 (truthy_true _) Htype). discriminate. }
  destruct (add_nextPaymentDue clock uuid fd property Hs Hyear) as (_ & Hwest & Heast).
  exists (Js.withField property "userId" (Some (Js.JStr (id u)))).
  split; [by apply submit_appends|].
  rewrite lookup_withField, bool_decide_eq_false_2 by done.
  split; [by apply Hwest | by apply Heast].
Qed.

(** ** The theorems at work *)

Ltac stored_array :=
  let o := fresh "o" in
  let Ho := fresh "Ho" in
  intros o Ho;
  match type of Ho with
  | ?entry = _ =>
      let Hok := fresh "Hok" in
      assert (Hok : match entry with Some (JObj _) => false | _ => true end = true)
        by evaluate;
      rewrite Ho in Hok; discriminate Hok
  end.

Ltac nonempty :=
  let Heq := fresh "Heq" in
  intros Heq; vm_compute in Heq; discriminate Heq.

Section FirstVisit.
Local Existing Instances intNumber intRuntime.

Lemma nobody_registered :
  arrayOrAbsent initial "realestate_users"
  ∧ ∀ u : Js.JsObj, u ∈ storedUsers initial → u !! "email" ≠ Some (Js.JStr "ada@example.com").
Proof.
  split; [unfold arrayOrAbsent; stored_array|].
  intros u Hu. assert (Hnone : storedUsers initial = []) by evaluate.
  rewrite Hnone in Hu. by apply elem_of_nil in Hu.
Qed.

Lemma signup_creates_account_witness :
  Auth.success (Auth.signup elevenUTC "ada@example.com" "secret" "Ada" initial).1 = true
  ∧ user (Auth.signup elevenUTC "ada@example.com" "secret" "Ada" initial).2
    = Some (accountAt elevenUTC "ada@example.com" "Ada").
Proof.
  destruct nobody_registered as [Harr Hfresh].
  destruct (signup_creates_account elevenUTC "ada@example.com" "secret" "Ada" initial
              Harr Hfresh) as (Hok & Huser & _).
  split; [exact Hok | exact Huser].
Defined.

Lemma ada_registered :
  arrayOrAbsent visit1 "realestate_users"
  ∧ ∀ u : Js.JsObj, u ∈ storedUsers visit1 → matches "ada@example.com" "wrong" u = false.
Proof.
  split; [unfold arrayOrAbsent; stored_array|].
  intros u Hu.
  assert (Hone : storedUsers visit1 = [registered elevenUTC "ada@example.com" "secret" "Ada"])
    by evaluate.
  rewrite Hone in Hu. apply list_elem_of_singleton in Hu as ->. evaluate.
Qed.

Lemma login_without_match_witness :
  AuthProvider.login midJune "ada@example.com" "wrong" visit1
  = Some ({| Auth.success := false; Auth.error := Some "Invalid email or password" |}, visit1).
Proof.
  destruct ada_registered as [Harr Hnone].
  destruct (login_without_match midJune "ada@example.com" "wrong" visit1 Harr Hnone)
    as [Hfail _].
  apply Hfail. intros [_ Hpw]. discriminate Hpw.
Defined.

Lemma login_after_signup_witness :
  ∃ st3, AuthProvider.login midJune "ada@example.com" "secret" loggedOut
         = Some ({| Auth.success := true; Auth.error := None |}, st3)
         ∧ user st3 = Some (seen (accountAt elevenUTC "ada@example.com" "Ada")).
Proof.
  destruct nobody_registered as [Harr Hfresh].
  assert (Hsame : localStorage loggedOut !! "realestate_users"
                  = localStorage (Auth.signup elevenUTC "ada@example.com" "secret" "Ada"
                                    initial).2 !! "realestate_users") by evaluate.
  destruct (login_after_signup elevenUTC midJune "ada@example.com" "secret" "Ada" "wrong"
              initial loggedOut Harr Hfresh Hsame) as [(st3 & Hlogin & Huser & _) _].
  exists st3. split; [exact Hlogin | exact Huser].
Defined.

Lemma onboarding_shown_once_witness :
  user visit2 = Some (accountAt elevenUTC "ada@example.com" "Ada")
  ∧ ∃ st3, AuthProvider.restore visit2 = Some st3
           ∧ user st3 = Some (seen (accountAt elevenUTC "ada@example.com" "Ada")).
Proof.
  destruct nobody_registered as [Harr Hfresh].
  assert (Hmount : Dashboard.mount
                     (Auth.signup elevenUTC "ada@example.com" "secret" "Ada" initial).2
                   = Some visit2) by evaluate.
  destruct (onboarding_shown_once elevenUTC "ada@example.com" "secret" "Ada" initial visit2
              Harr Hfresh Hmount) as (Huser & _ & st3 & Hrestore & Hseen & _).
  split; [exact Huser|]. exists st3. split; [exact Hrestore | exact Hseen].
Defined.
End FirstVisit.

Section TwoUnits.
Local Existing Instances intNumber intRuntime.

Lemma ada_signed_in : user twoUnits = Some ada ∧ properties twoUnits = [unitOne; unitTwo].
Proof. split; evaluate. Qed.

Lemma ada_collections_stored :
  ∀ key : string, key ∈ collectionKeys ada → arrayOrAbsent twoUnits key.
Proof.
  intros key Hkey. unfold collectionKeys in Hkey.
  repeat (apply elem_of_cons in Hkey as [->|Hkey]; [unfold arrayOrAbsent; stored_array|]).
  by apply elem_of_nil in Hkey.
Qed.

Lemma changes_survive_reload_witness :
  ∃ st2, Dashboard.mount (Dashboard.handleDeleteProperty "uuid-1" twoUnits) = Some st2
         ∧ properties st2 = properties (Dashboard.handleDeleteProperty "uuid-1" twoUnits).
Proof.
  destruct ada_signed_in as [Huser _].
  assert (Hstable : Forall Js.jsonStable
                      (properties (Dashboard.handleDeleteProperty "uuid-1" twoUnits))).
  { apply Forall_forall. intros o _ k n _. reflexivity. }
  destruct (changes_survive_reload twoUnits ada unitThree unitTwo unitTwo "uuid-1" Huser
              ada_collections_stored) as [Hproperties _].
  destruct (Hproperties (Dashboard.handleDeleteProperty "uuid-1" twoUnits)
              (or_intror (or_introl eq_refl))) as (st2 & Hmount & _ & _ & _ & Hsame).
  exists st2. split; [exact Hmount | exact (Hsame Hstable)].
Defined.

Lemma other_users_collections_untouched_witness :
  localStorage (Dashboard.handleDeleteProperty "uuid-1" twoUnits)
    !! Dashboard.storageKeyProperties eve
  = localStorage twoUnits !! Dashboard.storageKeyProperties eve.
Proof.
  destruct ada_signed_in as [Huser _].
  assert (Hother : id eve ≠ id ada) by nonempty.
  assert (Hkey : Dashboard.storageKeyProperties eve ∈ collectionKeys eve)
    by apply list_elem_of_here.
  destruct (other_users_collections_untouched midJune twoUnits ada eve unitThree unitTwo
              unitTwo marchPayment "uuid-1" _ Huser Hother Hkey) as (_ & Hdelete & _).
  exact Hdelete.
Defined.

Lemma delete_removes_all_with_id_witness :
  Dashboard.handleDeleteProperty "uuid-1" (Dashboard.handleDeleteProperty "uuid-1" twoUnits)
  = Dashboard.handleDeleteProperty "uuid-1" twoUnits
  ∧ properties (Dashboard.handleDeleteProperty "uuid-1" twoUnits)
    `sublist_of` properties twoUnits.
Proof.
  destruct ada_signed_in as [Huser _].
  destruct (delete_removes_all_with_id "uuid-1" twoUnits ada Huser)
    as (_ & Hsub & Hagain & _).
  split; [exact Hagain | exact Hsub].
Defined.

Lemma record_leaves_other_properties_witness :
  ∃ p', properties (Dashboard.handleRecordPayment midJune marchPayment twoUnits) !! 1%nat
        = Some p'
        ∧ p' = unitTwo.
Proof.
  destruct ada_signed_in as [Huser Hlist].
  assert (Hsecond : properties twoUnits !! 1%nat = Some unitTwo) by evaluate.
  assert (Hother : Js.strictEq (unitTwo !! "id") (marchPayment !! "propertyId") = false)
    by evaluate.
  destruct (record_leaves_other_properties midJune marchPayment twoUnits ada Huser)
    as (_ & Heach & _).
  destruct (Heach 1%nat unitTwo Hsecond) as (p' & Hp' & _ & Hkept).
  exists p'. split; [exact Hp' | exact (Hkept Hother)].
Defined.

Lemma unitOne_only_once :
  ∀ (j : nat) (q : Js.JsObj),
    properties twoUnits !! j = Some q → q !! "id" = Some (Js.JStr "uuid-1") → j = 0%nat.
Proof.
  destruct ada_signed_in as [_ Hlist]. rewrite Hlist.
  assert (Hid : unitTwo !! "id" = Some (Js.JStr "uuid-9")) by evaluate.
  intros [|[|j]] q Hq Hq'; [reflexivity | |].
  - change (Some unitTwo = Some q) in Hq. assert (Hsame : q = unitTwo) by congruence.
    rewrite Hsame, Hid in Hq'. discriminate Hq'.
  - change (None = Some q) in Hq. discriminate Hq.
Qed.

Lemma edit_replaces_target_in_place_witness :
  ∃ updated : Js.JsObj,
    properties (EditPropertyDialog.submit unitOne unitOneVacated twoUnits)
    = <[0%nat := updated]> (properties twoUnits)
    ∧ updated !! "occupant" = Js.orUndefined (EditPropertyDialog.occupant unitOneVacated)
    ∧ updated !! "nextPaymentDue" = unitOne !! "nextPaymentDue".
Proof.
  destruct ada_signed_in as [Huser _].
  assert (Hfirst : properties twoUnits !! 0%nat = Some unitOne) by evaluate.
  assert (Hid : unitOne !! "id" = Some (Js.JStr "uuid-1")) by evaluate.
  assert (Hname : EditPropertyDialog.name unitOneVacated ≠ "") by nonempty.
  assert (Hrent : EditPropertyDialog.rent unitOneVacated ≠ "") by nonempty.
  destruct (edit_replaces_target_in_place unitOne unitOneVacated twoUnits ada 0%nat "uuid-1"
              Huser Hfirst Hid unitOne_only_once Hname Hrent)
    as (updated & _ & Hlist & _ & Hkept & _ & Hocc & _).
  exists updated. split; [exact Hlist|]. split; [exact Hocc|].
  apply Hkept. do 4 apply list_elem_of_further. apply list_elem_of_here.
Defined.

Lemma record_clears_overdue_witness :
  (PropertyStats.overduePayments
     (properties (Dashboard.handleRecordPayment midJune marchPayment twoUnits))
   ≤ PropertyStats.overduePayments (properties twoUnits))%nat.
Proof.
  destruct ada_signed_in as [Huser _].
  destruct (record_clears_overdue midJune marchPayment twoUnits ada Huser) as (Hle & _).
  exact Hle.
Defined.

Lemma list_shows_filtered_properties_witness :
  [unitTwo] `sublist_of` properties twoUnits
  ∧ (unitTwo !! "status" = Some (Js.JStr "vacant")).
Proof.
  assert (Hshown : PropertyList.filteredProperties "UNIT" "vacant" "all" (properties twoUnits)
                   = Some [unitTwo]) by evaluate.
  destruct (list_shows_filtered_properties "UNIT" "vacant" "all" (properties twoUnits)
              [unitTwo] Hshown) as (Hsub & _ & Heach).
  split; [exact Hsub|].
  destruct (Heach unitTwo (list_elem_of_here _ _)) as [[Hall | Hstatus] _];
    [discriminate Hall | exact Hstatus].
Defined.

Lemma units_searchable : Forall searchable (properties twoUnits).
Proof.
  destruct ada_signed_in as [_ Hlist]. rewrite Hlist.
  constructor; [|constructor; [|constructor]].
  - split; [exists "Unit 1"; evaluate|]. split; [right; exists "Jane"|left]; evaluate.
  - split; [exists "Unit 2"; evaluate|]. split; left; evaluate.
Qed.

Lemma list_opens_showing_everything_witness :
  PropertyList.filteredProperties "" "all" "all" (properties twoUnits)
  = Some (properties twoUnits)
  ∧ is_Some (PropertyList.filteredProperties "jane" "occupied" "pending" (properties twoUnits)).
Proof.
  destruct (list_opens_showing_everything "jane" "occupied" "pending" (properties twoUnits)
              units_searchable) as [Hsome Hall].
  split; [exact Hall | exact Hsome].
Defined.

Lemma search_ignores_case_of_term_witness :
  PropertyList.filteredProperties "UNIT 2" "all" "all" (properties twoUnits)
  = PropertyList.filteredProperties "unit 2" "all" "all" (properties twoUnits).
Proof.
  assert (Hcase : PropertyList.toLowerCase "UNIT 2" = PropertyList.toLowerCase "unit 2")
    by reflexivity.
  destruct (search_ignores_case_of_term "unit 2" "UNIT 2" "all" "all" (properties twoUnits)
              Hcase) as [Hsame _].
  exact Hsame.
Defined.
End TwoUnits.

Section UnitOne.
Local Existing Instances intNumber intRuntime.

Lemma unitOneForm_filled :
  AddPropertyDialog.name (unitOneForm "Jane" "occupied") ≠ ""
  ∧ AddPropertyDialog.rent (unitOneForm "Jane" "occupied") ≠ ""
  ∧ AddPropertyDialog.propertyType (unitOneForm "Jane" "occupied") ≠ ""
  ∧ AddPropertyDialog.occupant (unitOneForm "Jane" "occupied") ≠ "".
Proof. repeat split; nonempty. Qed.

Lemma add_updates_counters_witness :
  PropertyStats.totalProperties (properties withUnitOne)
  = S (PropertyStats.totalProperties (properties signedIn))
  ∧ PropertyStats.occupiedProperties (properties withUnitOne)
    = (PropertyStats.occupiedProperties (properties signedIn) + 1)%nat.
Proof.
  assert (Huser : user signedIn = Some ada) by evaluate.
  destruct unitOneForm_filled as (Hname & Hrent & Htype & _).
  destruct (add_updates_counters elevenUTC "uuid-1" (unitOneForm "Jane" "occupied") signedIn
              ada Huser Hname Hrent Htype) as (Htotal & Hocc & _).
  split; [exact Htotal | exact Hocc].
Defined.

Lemma add_requires_name_rent_type_witness :
  AddPropertyDialog.submit elevenUTC "uuid-1" AddPropertyForm.initialForm signedIn = signedIn
  ∧ ∃ property : Js.JsObj,
      properties withUnitOne = properties signedIn ++ [property]
      ∧ property !! "id" = Some (Js.JStr "uuid-1")
      ∧ property !! "userId" = Some (Js.JStr (id ada)).
Proof.
  assert (Huser : user signedIn = Some ada) by evaluate.
  destruct unitOneForm_filled as (Hname & Hrent & Htype & _).
  split.
  - destruct (add_requires_name_rent_type elevenUTC "uuid-1" AddPropertyForm.initialForm
                signedIn ada Huser) as [Hrejected _].
    apply Hrejected. by left.
  - destruct (add_requires_name_rent_type elevenUTC "uuid-1" (unitOneForm "Jane" "occupied")
                signedIn ada Huser) as [_ Hadded].
    destruct (Hadded Hname Hrent Htype) as (property & Hlist & _ & Hid & Howner & _).
    exists property. split; [exact Hlist|]. split; [exact Hid | exact Howner].
Defined.

Lemma record_requires_amount_and_date_witness :
  ∃ payment : Js.JsObj,
    payments afterMarchRent = payments withUnitOne ++ [payment]
    ∧ payment !! "propertyId" = unitOne !! "id"
    ∧ payment !! "paymentDate" = Some (Js.JStr "2025-03-01").
Proof.
  destruct unitOne_listed as [Huser _].
  assert (Hamount : RecordPaymentDialog.amount marchRent ≠ "") by nonempty.
  assert (Hdate : RecordPaymentDialog.paymentDate marchRent ≠ "") by nonempty.
  destruct (record_requires_amount_and_date midJune "uuid-2" unitOne marchRent withUnitOne
              ada Huser) as [_ Hrecorded].
  destruct (Hrecorded Hamount Hdate) as (payment & Hlist & _ & Hid & _ & _ & Hday).
  exists payment. split; [exact Hlist|]. split; [exact Hid | exact Hday].
Defined.

Lemma jane_in_unitOne :
  Js.truthyVal (unitOne !! "occupant") = true
  ∧ Js.trim "Rent reminder" ≠ "" ∧ Js.trim "Rent is due on the 1st." ≠ "".
Proof. split; [evaluate|]. split; nonempty. Qed.

Lemma blank_notification_rejected_witness :
  SendNotificationDialog.submit elevenUTC failingEndpoint "uuid-3" unitOne "   "
    "Rent is due on the 1st." "reminder" "jane@example.com" withUnitOne
  = ({| SendNotificationDialog.alert := Some "Please fill in all required fields.";
        SendNotificationDialog.posted := [];
        SendNotificationDialog.onSend := [];
        SendNotificationDialog.sendStatus := SendNotificationDialog.idle |}, withUnitOne).
Proof.
  destruct jane_in_unitOne as (Hocc & _).
  apply (blank_notification_rejected elevenUTC failingEndpoint "uuid-3" unitOne "   "
           "Rent is due on the 1st." "reminder" "jane@example.com" withUnitOne Hocc).
  left. intros c Hc. change (c ∈ [" "%char; " "%char; " "%char]) in Hc.
  repeat (apply elem_of_cons in Hc as [->|Hc]; [reflexivity|]).
  by apply elem_of_nil in Hc.
Defined.

Lemma notification_without_email_marked_sent_witness :
  ∃ n : Js.JsObj,
    notifications
      (SendNotificationDialog.submit elevenUTC failingEndpoint "uuid-3" unitOne
         "Rent reminder" "Rent is due on the 1st." "reminder" "" withUnitOne).2
    = notifications withUnitOne ++ [n]
    ∧ n !! "status" = Some (Js.JStr "sent").
Proof.
  destruct unitOne_listed as [Huser _].
  destruct jane_in_unitOne as (Hocc & Hsubject & Hmessage).
  destruct (notification_without_email_marked_sent elevenUTC failingEndpoint "uuid-3" unitOne
              "Rent reminder" "Rent is due on the 1st." "reminder" "" withUnitOne ada
              Huser Hocc Hsubject Hmessage (or_introl eq_refl))
    as (_ & _ & n & Hlist & _ & Hsent & _).
  exists n. split; [exact Hlist | exact Hsent].
Defined.

Lemma notification_through_route_succeeds_witness :
  SendNotificationDialog.sendStatus
    (SendNotificationDialog.submit elevenUTC (SendNotificationRoute.served midJune) "uuid-3"
       unitOne "Rent reminder" "Rent is due on the 1st." "reminder" "jane@example.com"
       withUnitOne).1
  = SendNotificationDialog.success.
Proof.
  destruct unitOne_listed as [Huser _].
  destruct jane_in_unitOne as (Hocc & Hsubject & Hmessage).
  destruct (notification_through_route_succeeds elevenUTC midJune "uuid-3" unitOne
              "Rent reminder" "Rent is due on the 1st." "reminder" "jane@example.com"
              withUnitOne ada Huser Hocc Hsubject Hmessage) as (Hstatus & _).
  exact Hstatus.
Defined.

Lemma land_is_added_without_rooms_witness :
  createdBy elevenUTC plotForm !! "bedrooms" = None
  ∧ createdBy elevenUTC plotForm !! "propertyType" = Some (Js.JStr "land").
Proof.
  assert (Hfilled : AddPropertyForm.filled AddPropertyForm.initialForm plotInputs
                    = Some plotForm) by evaluate.
  assert (Hland : AddPropertyDialog.propertyType plotForm = "land") by evaluate.
  assert (Hadd : AddPropertyDialog.handleSubmit elevenUTC "uuid-1" plotForm
                 = AddPropertyDialog.onAdd (createdBy elevenUTC plotForm)) by evaluate.
  destruct (land_is_added_without_rooms elevenUTC "uuid-1" plotInputs plotForm
              (createdBy elevenUTC plotForm) Hfilled Hland Hadd)
    as (_ & _ & Hbed & _ & Htype).
  split; [exact Hbed | exact Htype].
Defined.

Lemma add_due_date_by_time_zone_witness :
  ∃ property : Js.JsObj,
    properties (AddPropertyDialog.submit elevenLondon "uuid-1" (unitOneForm "Jane" "occupied")
                  signedIn) = properties signedIn ++ [property]
    ∧ property !! "nextPaymentDue" = Some (Js.JStr "2025-03-31").
Proof.
  assert (Huser : user signedIn = Some ada) by evaluate.
  destruct unitOneForm_filled as (Hname & Hrent & Htype & Hocc).
  assert (Hyear : ¬ (0 ≤ JsDate.getFullYear elevenLondon (JsDate.now elevenLondon) ≤ 99)).
  { assert (Hy : JsDate.getFullYear elevenLondon (JsDate.now elevenLondon) = 2025)
      by evaluate.
    rewrite Hy. lia. }
  destruct (add_due_date_by_time_zone elevenLondon "uuid-1" (unitOneForm "Jane" "occupied")
              signedIn ada Huser Hname Hrent Htype Hocc Hyear)
    as (property & Hlist & _ & Heast).
  exists property. split; [exact Hlist|].
  rewrite Heast; [evaluate|].
  assert (Hoffset : JsDate.LocalTZA elevenLondon
                      (JsDate.daysFromCivil
                         (Calendar.followingMonth
                            (JsDate.getFullYear elevenLondon (JsDate.now elevenLondon))
                            (JsDate.getMonth elevenLondon (JsDate.now elevenLondon) + 1)).1
                         (Calendar.followingMonth
                            (JsDate.getFullYear elevenLondon (JsDate.now elevenLondon))
                            (JsDate.getMonth elevenLondon (JsDate.now elevenLondon) + 1)).2 1
                       * JsDate.msPerDay) false = 3600000) by evaluate.
  rewrite Hoffset. split; [reflexivity | discriminate].
Defined.
End UnitOne.

Section Calendars.
Local Existing Instances intNumber intRuntime.


Lemma lease_threshold_window_witness :
  Utils.isLeaseExpiringSoon elevenUTC (Some "2025-03-25") 14 = true
  ∧ Utils.isLeaseExpiringSoon elevenUTC (Some "soon") 14 = false.
Proof.
  destruct (lease_threshold_window elevenUTC) as (Hwindow & Hunread & _).
  assert (Hparse : Date_parse "2025-03-25" = Some 1742860800000) by evaluate.
  assert (Hnone : Date_parse "soon" = None) by evaluate.
  split.
  - apply (Hwindow "2025-03-25" 1742860800000 14 ltac:(discriminate) Hparse).
    change (JsDate.now elevenUTC) with 1742036400000. unfold JsDate.msPerDay. lia.
  - apply (Hunread "soon" 14 ltac:(discriminate) Hnone).
Defined.

Lemma signup_form_checks_before_signup_witness :
  SignupForm.toDashboard
    (SignupForm.handleSubmit elevenUTC "Ada" "ada@example.com" "short" "short" initial)
  = false
  ∧ SignupForm.toDashboard
      (SignupForm.handleSubmit elevenUTC "Ada" "ada@example.com" "secret" "secret" initial)
    = true.
Proof.
  destruct nobody_registered as [Harr Hfresh]. split.
  - destruct (signup_form_checks_before_signup elevenUTC "Ada" "ada@example.com" "short"
                "short" initial) as [Hrejected _].
    apply Hrejected. do 4 right. left. cbn. lia.
  - destruct (signup_form_checks_before_signup elevenUTC "Ada" "ada@example.com" "secret"
                "secret" initial) as [_ Haccepted].
    apply Haccepted; [discriminate | discriminate | cbn; lia | reflexivity
                     | exact Harr | exact Hfresh].
Defined.

Lemma login_form_outcomes_witness :
  LoginForm.handleSubmit midJune "ada@example.com" "" visit1
  = Some {| SignupForm.error := "Please enter both email and password";
            SignupForm.toDashboard := false; SignupForm.state := visit1 |}
  ∧ LoginForm.handleSubmit midJune "ada@example.com" "wrong" visit1
    = Some {| SignupForm.error := "Invalid email or password";
              SignupForm.toDashboard := false; SignupForm.state := visit1 |}.
Proof.
  destruct ada_registered as [Harr Hnone]. split.
  - destruct (login_form_outcomes midJune "ada@example.com" "" visit1) as (Hempty & _).
    apply Hempty. by right.
  - destruct (login_form_outcomes midJune "ada@example.com" "wrong" visit1)
      as (_ & Hwrong & _).
    apply Hwrong; [discriminate | discriminate | exact Harr | exact Hnone|].
    intros [_ Hpw]. discriminate Hpw.
Defined.
End Calendars.
